(** * The series normalizer of stl-java: [convert-frame.py]

    A shallow embedding of [src/test/resources/convert-frame.py], the
    Python 2 script that turns a year-indexed table of monthly values
    (one row per line on standard input) into a JSON document with two
    parallel arrays [ts] (epoch seconds) and [ys] (values).

    The script is a dozen lines, but every line calls into the Python
    library: [str.rstrip], [re.split], [int], [float], [str.format],
    [datetime.strptime], [datetime.strftime], [map], [json.dumps] and
    [print].  Each of them is written out below as far as the script
    uses it; what belongs to the machine the script runs on (the binary
    floating-point numbers, the local time zone, the iteration order of
    a two-key dictionary) is gathered in the class [Platform]. *)

From Stdlib Require Import ZArith NArith List Bool Ascii String Lia.
From Stdlib Require Import DecimalString DecimalPos DecimalZ.
From Stdlib Require Import Sorted Permutation.
Import ListNotations.

#[local] Open Scope string_scope.
#[local] Open Scope list_scope.

(** ** Characters and strings *)

(** The six characters [str.rstrip()], the regular expression class
    [\s] (on byte strings, without flags) and [int] agree to call white
    space: tab, line feed, vertical tab, form feed, carriage return and
    space. *)
Definition isspace (c : ascii) : bool :=
  let n := nat_of_ascii c in
  ((9 <=? n) && (n <=? 13))%nat || (n =? 32)%nat.

Definition isdigit (c : ascii) : bool :=
  let n := nat_of_ascii c in
  ((48 <=? n) && (n <=? 57))%nat.

Definition newline : ascii := ascii_of_nat 10.
Definition dquote : ascii := ascii_of_nat 34.

(** [s.rstrip()]: [s] without its trailing white space. *)
Fixpoint rstrip (s : string) : string :=
  match s with
  | EmptyString => EmptyString
  | String c s' =>
      match rstrip s' with
      | EmptyString => if isspace c then EmptyString else String c EmptyString
      | r => String c r
      end
  end.

(** [s.lstrip()], needed for [int], which strips both ends. *)
Fixpoint lstrip (s : string) : string :=
  match s with
  | EmptyString => EmptyString
  | String c s' => if isspace c then lstrip s' else s
  end.

Definition strip (s : string) : string := rstrip (lstrip s).

Module re.

  (** [split_from prev s] scans [s] and returns the piece under
      construction together with the pieces that follow it; [prev] tells
      whether the character before [s] was white space, that is whether a
      separator (a maximal run matched by [\s+]) is being skipped. *)
Fixpoint split_from (prev : bool) (s : string) : string * list string :=
    match s with
    | EmptyString => (EmptyString, [])
    | String c s' =>
        let '(tok, rest) := split_from (isspace c) s' in
        if isspace c
        then if prev then (tok, rest) else (EmptyString, tok :: rest)
        else (String c tok, rest)
    end.

  (** [re.split('\s+', s)]: the pieces of [s] between runs of white
      space.  A run at the very start (or end) of [s] leaves an empty
      piece before (after) it, and the empty string gives one empty
      piece. *)
Definition split (s : string) : list string :=
    let '(tok, rest) := split_from false s in tok :: rest.

End re.

(** ** Integers: [int(s)] and [str(n)] *)

Definition digit_value (c : ascii) : option N :=
  if isdigit c then Some (N.of_nat (nat_of_ascii c - 48)) else None.

Fixpoint digits_value (acc : N) (s : string) : option N :=
  match s with
  | EmptyString => Some acc
  | String c s' =>
      match digit_value c with
      | Some d => digits_value (10 * acc + d) s'
      | None => None
      end
  end.

(** One decimal digit at least. *)
Definition parse_digits (s : string) : option N :=
  match s with
  | EmptyString => None
  | _ => digits_value 0 s
  end.

(** [int(s)] in base ten: white space around is dropped, then an
    optional sign and one digit at least; [None] stands for the
    [ValueError] Python raises.  Python integers are unbounded. *)
Definition py_int (s : string) : option Z :=
  match strip s with
  | EmptyString => None
  | String c s' =>
      if Ascii.eqb c "-"
      then option_map (fun n => (- Z.of_N n)%Z) (parse_digits s')
      else if Ascii.eqb c "+"
      then option_map Z.of_N (parse_digits s')
      else option_map Z.of_N (parse_digits (String c s'))
  end.

(** [str(n)], which is also what ['{0}'.format(n)] and the C library's
    [%ld] print. *)
Definition py_str (n : Z) : string :=
  NilEmpty.string_of_int (Z.to_int n).

(** ['{0:02d}'.format(i)]: zero fill on the left up to width two (the
    sign, when there is one, already makes the width). *)
Definition format_02d (i : Z) : string :=
  let s := py_str i in
  if (String.length s <? 2)%nat then String "0" s else s.

(** ['{0}-{1:02d}'.format(year, i)] *)
Definition format_month (year i : Z) : string :=
  py_str year ++ String "-" (format_02d i).

(** ** The platform

    What the script takes from the machine it runs on.  [float] is the
    type of Python floats with [float(s)] and [repr(x)]; [utcoffset t]
    is the offset of local time from UTC, in seconds east, in force at
    the local wall-clock time [t] (itself counted in seconds from
    1970-01-01 00:00 on the local clock), which is how [mktime] reads a
    broken-down time whose [tm_isdst] is unknown; no zone is a day away
    from UTC.  [ts_before_ys] tells whether the dictionary
    [{'ts': .., 'ys': ..}] lists its key ['ts'] first. *)
Class Platform : Type := {
  float : Type;
  py_float : string -> option float;
  float_repr : float -> string;
  utcoffset : Z -> Z;
  utcoffset_bound : forall t, (-86400 < utcoffset t < 86400)%Z;
  ts_before_ys : bool
}.

(** ** Dates: [datetime.strptime(s, '%Y-%m')] and [x.strftime("%s")] *)

Module datetime.

Record t : Type := mk {
    year : Z; month : Z; day : Z; hour : Z; minute : Z; second : Z
  }.

#[local] Open Scope Z_scope.

Definition digit_Z (c : ascii) : Z := Z.of_nat (nat_of_ascii c - 48).

Definition in_range (lo hi : nat) (c : ascii) : bool :=
    ((lo <=? nat_of_ascii c) && (nat_of_ascii c <=? hi))%nat.

  (** The directive [%m] is the regular expression
    [(1[0-2]|0[1-9]|[1-9])]: three alternatives, tried in this order.
    Each gives the month and the text left over. *)
Definition m_1x (s : string) : option (Z * string) :=
  match s with
  | String c (String c' r) =>
      if Ascii.eqb c "1" && in_range 48 50 c'
      then Some (10 + digit_Z c', r) else None
  | _ => None
  end.

Definition m_0x (s : string) : option (Z * string) :=
  match s with
  | String c (String c' r) =>
      if Ascii.eqb c "0" && in_range 49 57 c'
      then Some (digit_Z c', r) else None
  | _ => None
  end.

Definition m_x (s : string) : option (Z * string) :=
  match s with
  | String c r => if in_range 49 57 c then Some (digit_Z c, r) else None
  | EmptyString => None
  end.

(** As [%m] ends the format, the first alternative that matches is the
    one the match keeps. *)
Definition match_m (s : string) : option (Z * string) :=
  match m_1x s with
  | Some r => Some r
  | None => match m_0x s with
            | Some r => Some r
            | None => m_x s
            end
  end.

(** [datetime.strptime(s, '%Y-%m')].  [%Y] is exactly four digits
    ([\d\d\d\d]); the whole of [s] must be used up ("unconverted data
    remains" otherwise); the year must be one that [date] accepts; the
    day defaults to the first and the time to midnight.  [None] is the
    [ValueError]. *)
Definition strptime (s : string) : option t :=
  match s with
  | String y1 (String y2 (String y3 (String y4 (String sep rest)))) =>
      if isdigit y1 && isdigit y2 && isdigit y3 && isdigit y4
         && Ascii.eqb sep "-"
      then
        match match_m rest with
        | Some (m, EmptyString) =>
            let y := 1000 * digit_Z y1 + 100 * digit_Z y2
                     + 10 * digit_Z y3 + digit_Z y4 in
            if 1 <=? y then Some (mk y m 1 0 0 0) else None
        | _ => None
        end
      else None
  | _ => None
  end.

Definition is_leap (y : Z) : bool :=
    (y mod 4 =? 0) && (negb (y mod 100 =? 0) || (y mod 400 =? 0)).

  (** Days before January 1st of year [y], counted from 0001-01-01. *)
Definition days_before_year (y : Z) : Z :=
    let p := y - 1 in 365 * p + p / 4 - p / 100 + p / 400.

Definition DAYS_BEFORE_MONTH : list Z :=
    [0; 31; 59; 90; 120; 151; 181; 212; 243; 273; 304; 334].

Definition days_before_month (y m : Z) : Z :=
    nth (Z.to_nat (m - 1)) DAYS_BEFORE_MONTH 0
    + (if (2 <? m) && is_leap y then 1 else 0).

  (** The proleptic Gregorian ordinal; 0001-01-01 is day 1. *)
Definition toordinal (d : t) : Z :=
    days_before_year (year d) + days_before_month (year d) (month d) + day d.

  (** 1970-01-01 *)
Definition EPOCH_ORDINAL : Z := 719163.

  (** Seconds from 1970-01-01 00:00 to [d], both on the same clock. *)
Definition wall_seconds (d : t) : Z :=
    (toordinal d - EPOCH_ORDINAL) * 86400
    + hour d * 3600 + minute d * 60 + second d.

Section Local.
Context {P : Platform}.

    (** [mktime]: the epoch second at which the local clock shows [d]. *)
Definition mktime (d : t) : Z :=
      wall_seconds d - utcoffset (wall_seconds d).

    (** [d.strftime("%s")]: Python 2 refuses years before 1900 with a
        [ValueError]; the C library then prints [mktime] of the time
        tuple in decimal. *)
Definition strftime_s (d : t) : option string :=
      if year d <? 1900 then None else Some (py_str (mktime d)).
End Local.

End datetime.

(** ** JSON: [json.dumps] *)

Module json.

Section Value.
Context {P : Platform}.

#[warnings="-register-all"] Inductive value : Type :=
| Int (n : Z)
| Float (x : float)
| Array (items : list value)
| Object (fields : list (string * value)).

Fixpoint join (sep : string) (l : list string) : string :=
  match l with
  | [] => EmptyString
  | [s] => s
  | s :: l' => (s ++ sep ++ join sep l')%string
  end.

(** String keys between double quotes; the keys of the script hold
    no character that needs an escape. *)
Definition encode_key (k : string) : string :=
  String dquote (k ++ String dquote EmptyString)%string.

(** [json.dumps(v)] with the default separators [', '] and [': ']. *)
Fixpoint dumps (v : value) : string :=
  match v with
  | Int n => py_str n
  | Float x => float_repr x
  | Array items => ("[" ++ join ", " (map dumps items) ++ "]")%string
  | Object fields =>
      ("{" ++ join ", "
                (map (fun kv => let '(k, v') := kv in
                                encode_key k ++ ": " ++ dumps v') fields)
           ++ "}")%string
  end.

End Value.

End json.

(** ** The script as a program

    The script has three pieces of state: its two module-level lists
    [ts] and [ys], which [append] mutates, and what it has written to
    standard output.  Any library call may raise; nothing catches, so an
    exception ends the run. *)

Inductive exn : Type := ValueError | IndexError.

Inductive result (A : Type) : Type :=
| Ok (a : A)
| Raise (e : exn).
Arguments Ok {A} a.
Arguments Raise {A} e.

Section Script.
Context {P : Platform}.

Record state : Type := mkState {
  ts : list datetime.t;
  ys : list float;
  stdout : string
}.

(** A computation reads and updates the state and returns or raises. *)
Definition M (A : Type) : Type := state -> result A * state.

Definition ret {A} (a : A) : M A := fun st => (Ok a, st).

Definition bind {A B} (c : M A) (k : A -> M B) : M B :=
  fun st =>
    match c st with
    | (Ok a, st') => k a st'
    | (Raise e, st') => (Raise e, st')
    end.

Definition raise {A} (e : exn) : M A := fun st => (Raise e, st).

Notation "x <- c ;; k" := (bind c (fun x => k))
  (at level 61, c at next level, right associativity).
Notation "c ;;; k" := (bind c (fun _ => k))
  (at level 61, right associativity).

(** A library call that returns or raises [ValueError]. *)
Definition value_or_error {A} (o : option A) : M A :=
  match o with
  | Some a => ret a
  | None => raise ValueError
  end.

Definition len {A} (l : list A) : Z := Z.of_nat (List.length l).

(** [l[i]]; a negative index counts from the end. *)
Definition getitem {A} (l : list A) (i : Z) : M A :=
  let j := if (i <? 0)%Z then (len l + i)%Z else i in
  if (j <? 0)%Z then raise IndexError
  else match nth_error l (Z.to_nat j) with
       | Some a => ret a
       | None => raise IndexError
       end.

(** [ts.append(x)], [ys.append(x)] and [print s] *)
Definition ts_append (x : datetime.t) : M unit :=
  fun st => (Ok tt, mkState (ts st ++ [x]) (ys st) (stdout st)).

Definition ys_append (x : float) : M unit :=
  fun st => (Ok tt, mkState (ts st) (ys st ++ [x]) (stdout st)).

Definition print (s : string) : M unit :=
  fun st =>
    (Ok tt,
     mkState (ts st) (ys st) (stdout st ++ s ++ String newline EmptyString)).

Definition get_ts : M (list datetime.t) := fun st => (Ok (ts st), st).
Definition get_ys : M (list float) := fun st => (Ok (ys st), st).

(** [for x in l: body] *)
Fixpoint for_each {A} (l : list A) (body : A -> M unit) : M unit :=
  match l with
  | [] => ret tt
  | x :: l' => body x ;;; for_each l' body
  end.

(** [map(f, l)] of Python 2, which builds the whole list at once. *)
Fixpoint map_M {A B} (f : A -> M B) (l : list A) : M (list B) :=
  match l with
  | [] => ret []
  | x :: l' => y <- f x ;; r <- map_M f l' ;; ret (y :: r)
  end.

(** [xrange(lo, hi)] *)
Definition xrange (lo hi : Z) : list Z :=
  map (fun k => (lo + Z.of_nat k)%Z) (seq 0 (Z.to_nat (hi - lo))).

(** The body of the inner loop, lines 16 to 20. *)
Definition sample (year : Z) (tokens : list string) (i : Z) : M unit :=
  let month := format_month year i in
  tok <- getitem tokens i ;;
  value <- value_or_error (py_float tok) ;;
  time <- value_or_error (datetime.strptime month) ;;
  ts_append time ;;;
  ys_append value.

(** The body of the outer loop, lines 13 to 20. *)
Definition row (line : string) : M unit :=
  let tokens := re.split (rstrip line) in
  tok <- getitem tokens 0 ;;
  year <- value_or_error (py_int tok) ;;
  for_each (xrange 1 (len tokens)) (sample year tokens).

(** [lambda x: int(x.strftime("%s"))] *)
Definition epoch (x : datetime.t) : M Z :=
  s <- value_or_error (datetime.strftime_s x) ;;
  value_or_error (py_int s).

(** A dictionary display of the two keys, in the order the dictionary
    yields them. *)
Definition dict (v_ts v_ys : json.value) : json.value :=
  if ts_before_ys
  then json.Object [("ts", v_ts); ("ys", v_ys)]
  else json.Object [("ys", v_ys); ("ts", v_ts)].

(** Lines 22 to 25: the dictionary [output]. *)
Definition output : M json.value :=
  l <- get_ts ;;
  v_ts <- map_M epoch l ;;
  v_ys <- get_ys ;;
  ret (dict (json.Array (map json.Int v_ts)) (json.Array (map json.Float v_ys))).

(** The loop over the lines of the input, lines 12 to 20. *)
Definition convert (lines : list string) : M unit :=
  for_each lines row.

(** The whole script on the lines [fileinput.input()] yields. *)
Definition script (lines : list string) : M unit :=
  convert lines ;;;
  o <- output ;;
  print (json.dumps o).

Definition initial : state := mkState [] [] EmptyString.

Definition run (lines : list string) : result unit * state :=
  script lines initial.

(** The script up to its dictionary [output], before anything is
    printed. *)
Definition output_of (lines : list string) : result json.value * state :=
  (convert lines ;;; output) initial.

(** *** Reading the dictionary back *)

Fixpoint assoc {A} (k : string) (l : list (string * A)) : option A :=
  match l with
  | [] => None
  | (k', a) :: l' => if String.eqb k k' then Some a else assoc k l'
  end.

Definition field (k : string) (v : json.value) : option json.value :=
  match v with
  | json.Object fields => assoc k fields
  | _ => None
  end.

Fixpoint traverse {A B} (f : A -> option B) (l : list A) : option (list B) :=
  match l with
  | [] => Some []
  | x :: l' =>
      match f x, traverse f l' with
      | Some y, Some r => Some (y :: r)
      | _, _ => None
      end
  end.

Definition as_int (v : json.value) : option Z :=
  match v with json.Int n => Some n | _ => None end.

Definition as_float (v : json.value) : option float :=
  match v with json.Float x => Some x | _ => None end.

Definition items (v : json.value) : option (list json.value) :=
  match v with json.Array l => Some l | _ => None end.

(** The array [output['ts']], when the run gets that far and the array
    holds integers only. *)
Definition out_ts (lines : list string) : option (list Z) :=
  match output_of lines with
  | (Ok o, _) =>
      match field "ts" o with
      | Some a => match items a with
                  | Some l => traverse as_int l
                  | None => None
                  end
      | None => None
      end
  | (Raise _, _) => None
  end.

(** The array [output['ys']], likewise with floats. *)
Definition out_ys (lines : list string) : option (list float) :=
  match output_of lines with
  | (Ok o, _) =>
      match field "ys" o with
      | Some a => match items a with
                  | Some l => traverse as_float l
                  | None => None
                  end
      | None => None
      end
  | (Raise _, _) => None
  end.

(** *** The rows of the input, as the script reads them *)

Definition tokens_of (line : string) : list string :=
  re.split (rstrip line).

Definition first_token (line : string) : string :=
  hd EmptyString (tokens_of line).

Definition value_tokens (line : string) : list string :=
  tl (tokens_of line).

Definition is_some {A} (o : option A) : bool :=
  match o with Some _ => true | None => false end.

Definition year_of (line : string) : Z :=
  match py_int (first_token line) with Some y => y | None => 0%Z end.

Definition values_of (line : string) : list float :=
  flat_map (fun tok => match py_float tok with
                       | Some v => [v]
                       | None => []
                       end) (value_tokens line).

(** Midnight on the first of month [k] of year [y], and its epoch
    second on the local clock: the [t(date)] of the specification. *)
Definition first_of_month (y k : Z) : datetime.t := datetime.mk y k 1 0 0 0.

Definition t (y k : Z) : Z := datetime.mktime (first_of_month y k).

Definition months_of (line : string) : list Z :=
  xrange 1 (len (tokens_of line)).

Definition times_of (line : string) : list Z :=
  map (t (year_of line)) (months_of line).

(** The total count of value tokens. *)
Definition total_values (lines : list string) : nat :=
  list_sum (map (fun line => List.length (value_tokens line)) lines).

(** A row is well formed when its first token reads as an integer, the
    tokens after it read as floats, and there are twelve of them at
    most. *)
Definition well_formed (line : string) : bool :=
  is_some (py_int (first_token line))
  && forallb (fun tok => is_some (py_float tok)) (value_tokens line)
  && (List.length (value_tokens line) <=? 12)%nat.

(** A row is accepted when, on top of that, its year is a four-digit
    year from 1900 on, or the row has no value at all. *)
Definition accepted (line : string) : bool :=
  well_formed line
  && (match value_tokens line with [] => true | _ => false end
      || ((1900 <=? year_of line)%Z && (year_of line <=? 9999)%Z)).

(** A row is malformed when its first token does not read as an
    integer or one of the tokens after it does not read as a float. *)
Definition malformed (line : string) : bool :=
  negb (is_some (py_int (first_token line)))
  || existsb (fun tok => negb (is_some (py_float tok))) (value_tokens line).

(** A row starts with white space, or is empty. *)
Definition starts_blank (line : string) : bool :=
  match line with
  | EmptyString => true
  | String c _ => isspace c
  end.

Fixpoint nondecreasing (l : list Z) : bool :=
  match l with
  | [] => true
  | a :: l' =>
      match l' with
      | [] => true
      | b :: _ => (a <=? b)%Z && nondecreasing l'
      end
  end.

Definition aborted (r : result unit * state) : Prop :=
  (exists e, fst r = Raise e) /\ stdout (snd r) = EmptyString.

(** The dates the rows stand for. *)
Definition dates_of (line : string) : list datetime.t :=
  map (first_of_month (year_of line)) (months_of line).

(** A computation that writes nothing. *)
Definition silent {A} (c : M A) : Prop :=
  forall st, stdout (snd (c st)) = stdout st.

(** A computation that raises from every state. *)
Definition raises {A} (c : M A) : Prop :=
  forall st, exists e st', c st = (Raise e, st').

(** A computation that leaves the state as it is. *)
Definition stateless {A} (c : M A) : Prop := forall st, snd (c st) = st.

End Script.

(** ** Two platforms to run the script on

    Floats are kept here as a whole number of tenths, read from plain
    literals of the shape [digits.digit] such as [1.0] or [12.5] and
    printed back the same way; on these short literals the reading and
    the printing are those of Python.  The first platform keeps UTC; the
    second is a zone that moved from eight to nine hours east of UTC on
    2000-09-17, as Asia/Dili did. *)

Fixpoint before_dot (s : string) : option (string * string) :=
  match s with
  | EmptyString => None
  | String c s' =>
      if Ascii.eqb c "." then Some (EmptyString, s')
      else match before_dot s' with
           | Some (a, b) => Some (String c a, b)
           | None => None
           end
  end.

Definition tenths_of_string (s : string) : option N :=
  match before_dot s with
  | Some (a, String d EmptyString) =>
      match parse_digits a, digit_value d with
      | Some n, Some k => Some (10 * n + k)%N
      | _, _ => None
      end
  | _ => None
  end.

Definition tenths_repr (x : N) : string :=
  py_str (Z.of_N (x / 10)) ++ String "." (py_str (Z.of_N (x mod 10))).

Definition utc : Platform :=
  {| float := N;
     py_float := tenths_of_string;
     float_repr := tenths_repr;
     utcoffset := fun _ => 0%Z;
     utcoffset_bound := fun _ => conj eq_refl eq_refl;
     ts_before_ys := false |}.

(** Local midnight of 2000-09-17, in seconds from 1970-01-01 00:00. *)
Definition dili_change : Z :=
  datetime.wall_seconds (datetime.mk 2000 9 17 0 0 0).

Definition dili_offset (t : Z) : Z :=
  if (t <? dili_change)%Z then 28800%Z else 32400%Z.

Definition dili : Platform :=
  {| float := N;
     py_float := tenths_of_string;
     float_repr := tenths_repr;
     utcoffset := dili_offset;
     utcoffset_bound := fun t =>
       match (t <? dili_change)%Z as b
         return (-86400 < (if b then 28800 else 32400) < 86400)%Z
       with
       | true => conj eq_refl eq_refl
       | false => conj eq_refl eq_refl
       end;
     ts_before_ys := false |}.

(** The end of a line as [fileinput] hands it over. *)
Definition eol : string := String newline EmptyString.

(** The pairs of a row, in month order. *)
Definition samples_of {P : Platform} (line : string) : list (Z * float) :=
  combine (times_of line) (values_of line).

(** ** Auxiliary definitions for the proofs *)

(** Every character of [s] is a decimal digit. *)
Fixpoint all_digits (s : string) : bool :=
  match s with
  | EmptyString => true
  | String c s' => isdigit c && all_digits s'
  end.

(** The decimal digit [k] as a character and in front of a numeral. *)
Definition char_digit (k : N) : ascii := ascii_of_N (48 + k).

Definition uint_digit (k : N) (r : Decimal.uint) : Decimal.uint :=
  match k with
  | 0 => Decimal.D0 r | 1 => Decimal.D1 r | 2 => Decimal.D2 r
  | 3 => Decimal.D3 r | 4 => Decimal.D4 r | 5 => Decimal.D5 r
  | 6 => Decimal.D6 r | 7 => Decimal.D7 r | 8 => Decimal.D8 r
  | _ => Decimal.D9 r
  end%N.

(** The two-digit label of month [k] matches [%m] as [k], whole. *)
Definition month_check (k : Z) : bool :=
  match datetime.match_m (format_02d k) with
  | Some (m, EmptyString) => (m =? k)%Z
  | _ => false
  end.

(** ** Vocabulary for the further properties *)

(** Every character of [s] is white space. *)
Fixpoint blank (s : string) : bool :=
  match s with
  | EmptyString => true
  | String c s' => isspace c && blank s'
  end.

(** No character of [s] is white space. *)
Fixpoint no_space (s : string) : bool :=
  match s with
  | EmptyString => true
  | String c s' => negb (isspace c) && no_space s'
  end.

(** The last character of [s] is white space. *)
Fixpoint ends_blank (s : string) : bool :=
  match s with
  | EmptyString => false
  | String c EmptyString => isspace c
  | String _ s' => ends_blank s'
  end.

Definition nonempty (s : string) : bool :=
  match s with EmptyString => false | _ => true end.

(** A first token and the tokens that follow it, each after its
    separator, written out as one string. *)
Fixpoint join (tok : string) (more : list (string * string)) : string :=
  match more with
  | [] => tok
  | (sep, tok') :: more' => tok ++ sep ++ join tok' more'
  end.

(** A separator is white space, one character at least; a word has
    no white space and one character at least. *)
Definition separated (p : string * string) : bool :=
  blank (fst p) && nonempty (fst p) && no_space (snd p) && nonempty (snd p).

(** The label of month [k] matches [%m] whole, as whatever month. *)
Definition month_whole (k : Z) : bool :=
  match datetime.match_m (format_02d k) with
  | Some (_, EmptyString) => true
  | _ => false
  end.


Section MoreVocabulary.
Context {P : Platform}.

(** A row the loop gets through: well formed and, when it has values,
    with a year of four digits. *)
Definition loop_accepted (line : string) : bool :=
  well_formed line
  && (match value_tokens line with [] => true | _ => false end
      || ((1000 <=? year_of line)%Z && (year_of line <=? 9999)%Z)).

(** A row that has values and a year before 1900. *)
Definition before_1900 (line : string) : bool :=
  match value_tokens line with [] => false | _ => true end
  && (year_of line <? 1900)%Z.

(** A row that is an integer and nothing else. *)
Definition year_only (line : string) : bool :=
  is_some (py_int (first_token line))
  && match value_tokens line with [] => true | _ => false end.

(** A computation that raises nothing but [ValueError]. *)
Definition value_errors_only {A} (c : M A) : Prop :=
  forall st e st', c st = (Raise e, st') -> e = ValueError.

End MoreVocabulary.

(** The days of month [m] of year [y]. *)
Definition days_in_month (y m : Z) : Z :=
  if (m =? 2)%Z then (if datetime.is_leap y then 29 else 28)%Z
  else if ((m =? 4) || (m =? 6) || (m =? 9) || (m =? 11))%Z then 30%Z
  else 31%Z.

(** The month after month [k] of year [y]. *)
Definition next_month (y k : Z) : Z * Z :=
  if (k =? 12)%Z then ((y + 1)%Z, 1%Z) else (y, (k + 1)%Z).

(** The carriage return of a line that ends in CR LF. *)
Definition cr : ascii := ascii_of_nat 13.


(** * The loader of [plot-series.py]

    Both copies of [plot-series.py] (under [src/main/resources] and
    [src/test/resources]) start with the same five lines: they read the
    file named by the first argument, parse it as JSON, pick the four
    series and turn the list of epoch seconds into local dates.  What
    follows in the scripts is drawing with matplotlib and is not
    embedded. *)

Module plot_series.

Inductive error : Type :=
| IndexError
| IOError
| ValueError
| TypeError
| KeyError (key : string).

Inductive outcome (A : Type) : Type :=
| Done (a : A)
| Failed (e : error).
Arguments Done {A} a.
Arguments Failed {A} e.

Definition and_then {A B} (c : outcome A) (k : A -> outcome B) : outcome B :=
  match c with
  | Done a => k a
  | Failed e => Failed e
  end.

Definition or_fail {A} (e : error) (o : option A) : outcome A :=
  match o with
  | Some a => Done a
  | None => Failed e
  end.

(** [map(f, l)] *)
Fixpoint map_E {A B} (f : A -> outcome B) (l : list A) : outcome (list B) :=
  match l with
  | [] => Done []
  | x :: l' =>
      and_then (f x) (fun y =>
      and_then (map_E f l') (fun r => Done (y :: r)))
  end.

Section Loader.
Context {P : Platform}.

Notation "x <- c ;; k" := (and_then c (fun x => k))
  (at level 61, c at next level, right associativity).

(** The values [json.loads] returns. *)
#[warnings="-register-all"] Inductive pyvalue : Type :=
| Null
| Bool (b : bool)
| Int (n : Z)
| Float (x : float)
| Str (s : string)
| List (items : list pyvalue)
| Dict (fields : list (string * pyvalue)).

(** A local date and time with its microseconds. *)
Definition moment : Type := datetime.t * Z.

(** What the loader takes from the library and the machine:
    [json.loads] ([None] for its [ValueError]); the offset of local
    time from UTC, in seconds east, in force at an epoch second; and
    [datetime.fromtimestamp] where the C double it goes through
    matters, that is on a float and on an integer beyond 2^53. *)
Class Library : Type := {
  loads : string -> option pyvalue;
  offset_at : Z -> Z;
  fromtimestamp_inexact : pyvalue -> outcome moment
}.

(** What the script finds when it starts: [sys.argv] and, for a path,
    the text [open(path).read()] returns ([None] for the [IOError]). *)
Record world : Type := {
  argv : list string;
  read_file : string -> option string
}.

Context {L : Library}.

(** [data[key]] for a string [key]: only a dictionary can be indexed by
    a string. *)
Definition subscript (data : pyvalue) (key : string) : outcome pyvalue :=
  match data with
  | Dict fields => or_fail (KeyError key) (assoc key fields)
  | _ => Failed TypeError
  end.

Fixpoint characters (s : string) : list pyvalue :=
  match s with
  | EmptyString => []
  | String c s' => Str (String c EmptyString) :: characters s'
  end.

(** The items [map] goes through: those of a list, the characters of a
    string, the keys of a dictionary; nothing else can be iterated. *)
Definition iterate (v : pyvalue) : outcome (list pyvalue) :=
  match v with
  | List items => Done items
  | Str s => Done (characters s)
  | Dict fields => Done (map (fun kv => Str (fst kv)) fields)
  | _ => Failed TypeError
  end.

(** The civil date of a day ordinal (0001-01-01 is day 1), cycle by
    cycle of 400, 100, 4 and 1 years, then the month from the day of
    the year. *)
Definition days_before_month_of (leap : bool) (m : Z) : Z :=
  (nth (Z.to_nat (m - 1)) datetime.DAYS_BEFORE_MONTH 0
   + (if (2 <? m) && leap then 1 else 0))%Z.

Definition DAYS_IN_MONTH : list Z :=
  [31; 28; 31; 30; 31; 30; 31; 31; 30; 31; 30; 31]%Z.

Definition days_in_month_of (leap : bool) (m : Z) : Z :=
  (nth (Z.to_nat (m - 1)) DAYS_IN_MONTH 0
   + (if (m =? 2) && leap then 1 else 0))%Z.

Definition month_and_day (leap : bool) (n : Z) : Z * Z :=
  let month := Z.shiftr (n + 50) 5 in
  let preceding := days_before_month_of leap month in
  if (n <? preceding)%Z
  then (month - 1,
        n - (preceding - days_in_month_of leap (month - 1)) + 1)%Z
  else (month, n - preceding + 1)%Z.

Definition ord2ymd (ordinal : Z) : Z * Z * Z :=
  let n := (ordinal - 1)%Z in
  let n400 := (n / 146097)%Z in
  let n := (n mod 146097)%Z in
  let n100 := (n / 36524)%Z in
  let n := (n mod 36524)%Z in
  let n4 := (n / 1461)%Z in
  let n := (n mod 1461)%Z in
  let n1 := (n / 365)%Z in
  let n := (n mod 365)%Z in
  let year := (n400 * 400 + 1 + n100 * 100 + n4 * 4 + n1)%Z in
  if ((n1 =? 4) || (n100 =? 4))%Z then ((year - 1)%Z, 12%Z, 31%Z)
  else
    let leapyear := ((n1 =? 3) && (negb (n4 =? 24) || (n100 =? 3)))%Z in
    let '(month, day) := month_and_day leapyear n in
    (year, month, day).

(** The date and time a clock shows [w] seconds after 1970-01-01
    00:00 on that same clock. *)
Definition of_wall_seconds (w : Z) : datetime.t :=
  let days := (w / 86400)%Z in
  let secs := (w mod 86400)%Z in
  let '(y, m, d) := ord2ymd (days + datetime.EPOCH_ORDINAL) in
  datetime.mk y m d (secs / 3600) (secs mod 3600 / 60) (secs mod 60).

(** [localtime]: the local date and time at an epoch second. *)
Definition localtime (n : Z) : datetime.t :=
  of_wall_seconds (n + offset_at n).

(** [datetime.fromtimestamp(n)] for an integer that a C double holds
    exactly: the local time at [n], when its year is one a [datetime]
    can have. *)
Definition fromtimestamp_exact (n : Z) : outcome moment :=
  let d := localtime n in
  if ((1 <=? datetime.year d) && (datetime.year d <=? 9999))%Z
  then Done (d, 0%Z)
  else Failed ValueError.

(** [datetime.fromtimestamp(x)]: a number is wanted ([True] and [False]
    count as 1 and 0); anything else is a [TypeError]. *)
Definition fromtimestamp (x : pyvalue) : outcome moment :=
  match x with
  | Int n =>
      if (Z.abs n <=? 2 ^ 53)%Z then fromtimestamp_exact n
      else fromtimestamp_inexact x
  | Bool b => fromtimestamp_exact (if b then 1 else 0)%Z
  | Float _ => fromtimestamp_inexact x
  | _ => Failed TypeError
  end.

(** [sys.argv[1]] *)
Definition first_argument (w : world) : outcome string :=
  or_fail IndexError (nth_error (argv w) 1).

(** Lines 10 to 14 of [plot-series.py]: the four series [ys] and the
    dates [ts]. *)
Definition load (w : world)
  : outcome ((pyvalue * pyvalue * pyvalue * pyvalue) * list moment) :=
  path <- first_argument w ;;
  text <- or_fail IOError (read_file w path) ;;
  data <- or_fail ValueError (loads text) ;;
  series <- subscript data "series" ;;
  trend <- subscript data "trend" ;;
  seasonal <- subscript data "seasonal" ;;
  remainder <- subscript data "remainder" ;;
  times <- subscript data "times" ;;
  items <- iterate times ;;
  ts <- map_E fromtimestamp items ;;
  Done ((series, trend, seasonal, remainder), ts).

(** *** Vocabulary for the properties of the loader *)

(** The keys the loader asks for, in the order it asks. *)
Definition wanted : list string :=
  ["series"; "trend"; "seasonal"; "remainder"; "times"]%string.

(** The first wanted key that a dictionary lacks. *)
Definition first_missing (fields : list (string * pyvalue)) : option string :=
  find (fun k => negb (is_some (assoc k fields))) wanted.

(** The document that [json.loads] makes of a document the converter
    dumped. *)
Fixpoint loaded (v : json.value) : pyvalue :=
  match v with
  | json.Int n => Int n
  | json.Float x => Float x
  | json.Array items => List (map loaded items)
  | json.Object fields =>
      Dict (map (fun kv => (fst kv, loaded (snd kv))) fields)
  end.

(** A value [map] goes through without calling its function: the
    empty string and the empty dictionary. *)
Definition holds_nothing (v : pyvalue) : bool :=
  match v with
  | Str EmptyString => true
  | Dict [] => true
  | _ => false
  end.

(** A date and time of the calendar, in a year a [datetime] can
    have. *)
Definition valid (d : datetime.t) : bool :=
  ((1 <=? datetime.year d) && (datetime.year d <=? 9999)
   && (1 <=? datetime.month d) && (datetime.month d <=? 12)
   && (1 <=? datetime.day d)
   && (datetime.day d
       <=? days_in_month_of (datetime.is_leap (datetime.year d))
                            (datetime.month d))
   && (0 <=? datetime.hour d) && (datetime.hour d <? 24)
   && (0 <=? datetime.minute d) && (datetime.minute d <? 60)
   && (0 <=? datetime.second d) && (datetime.second d <? 60))%Z.

End Loader.

End plot_series.


(** ** An example for the loader

    A library that keeps UTC, reads back the documents of a short
    list, each from the text [json.dumps] writes for it, takes a float
    of tenths for seconds and tenths of a second, and finds an integer
    beyond 2^53 out of range; and a machine on which the script is
    started with one file. *)

(** The float that prints as [n / 10] with one decimal. *)
Definition tenths (n : N) : @json.value utc := @json.Float utc n.

Definition decomposed : @json.value utc :=
  json.Object
    [("times"%string, json.Array [json.Int 946684800; json.Int 949363200]);
     ("series"%string, json.Array [tenths 10; tenths 20]);
     ("trend"%string, json.Array [tenths 12; tenths 17]);
     ("seasonal"%string, json.Array [tenths 1; tenths 2]);
     ("remainder"%string, json.Array [tenths 0; tenths 1])].

Definition framed : @json.value utc :=
  dict (P := utc)
    (json.Array [json.Int 946684800; json.Int 949363200])
    (json.Array [tenths 10; tenths 20]).

Definition series_only : @json.value utc :=
  json.Object [("series"%string, json.Array [tenths 10])].

(** The four series with a number where the list of times should
    be. *)
Definition one_time : @json.value utc :=
  json.Object
    [("series"%string, json.Array [tenths 10]);
     ("trend"%string, json.Array [tenths 12]);
     ("seasonal"%string, json.Array [tenths 1]);
     ("remainder"%string, json.Array [tenths 0]);
     ("times"%string, json.Int 946684800)].

(** The four series with a second time in the year 10000. *)
Definition too_late : @json.value utc :=
  json.Object
    [("series"%string, json.Array [tenths 10]);
     ("trend"%string, json.Array [tenths 12]);
     ("seasonal"%string, json.Array [tenths 1]);
     ("remainder"%string, json.Array [tenths 0]);
     ("times"%string,
      json.Array [json.Int 946684800; json.Int 253402300800; json.Int 0])].

Definition known_documents : list (@json.value utc) :=
  [decomposed; framed; series_only; one_time; too_late; json.Array []].

Definition utc_library : plot_series.Library (P := utc) :=
  {| plot_series.loads := fun text =>
       option_map plot_series.loaded
         (find (fun v => String.eqb (json.dumps v) text) known_documents);
     plot_series.offset_at := fun _ => 0%Z;
     plot_series.fromtimestamp_inexact := fun v =>
       match v with
       | plot_series.Float x =>
           let d := plot_series.of_wall_seconds (Z.of_N (x / 10)) in
           if ((1 <=? datetime.year d) && (datetime.year d <=? 9999))%Z
           then plot_series.Done (d, (Z.of_N (x mod 10) * 100000)%Z)
           else plot_series.Failed plot_series.ValueError
       | _ => plot_series.Failed plot_series.ValueError
       end |}.

Definition started_on (v : @json.value utc) : plot_series.world :=
  {| plot_series.argv := ["plot-series.py"%string; "data.json"%string];
     plot_series.read_file := fun path =>
       if String.eqb path "data.json" then Some (json.dumps v) else None |}.

(** * JSON texts

    What makes a text a JSON document, from the grammar of RFC 8259
    and not from the script: the text is cut into tokens (the six
    structural characters, strings, numbers and words, with space,
    tab, line feed and carriage return between them), and the tokens
    are read as one value.  A number keeps its literal, a string its
    characters between the quotes. *)

Module rfc8259.

#[warnings="-register-all"] Inductive value : Type :=
| Null
| Bool (b : bool)
| Number (literal : string)
| Text (raw : string)
| Array (items : list value)
| Object (members : list (string * value)).

(** *** Numbers

    An optional minus sign, an integer part, an optional fraction (a
    dot and digits) and an optional exponent ([e] or [E], an optional
    sign and digits). *)

Fixpoint skip_digits (s : string) : string :=
  match s with
  | String c s' => if isdigit c then skip_digits s' else s
  | EmptyString => EmptyString
  end.

(** One digit at least; what follows the digits. *)
Definition digits1 (s : string) : option string :=
  match s with
  | String c s' => if isdigit c then Some (skip_digits s') else None
  | EmptyString => None
  end.

Definition unsign (s : string) : string :=
  match s with
  | String c s' => if Ascii.eqb c "-" then s' else s
  | EmptyString => s
  end.

(** The integer part: a lone zero, or digits that do not start with
    zero. *)
Definition int_part (s : string) : option string :=
  match s with
  | String c s' =>
      if Ascii.eqb c "0" then Some s'
      else if isdigit c then Some (skip_digits s')
      else None
  | EmptyString => None
  end.

Definition frac_part (s : string) : option string :=
  match s with
  | String c s' => if Ascii.eqb c "." then digits1 s' else Some s
  | EmptyString => Some s
  end.

Definition exp_part (s : string) : option string :=
  match s with
  | String c s' =>
      if Ascii.eqb c "e" || Ascii.eqb c "E"
      then match s' with
           | String c' s'' =>
               if Ascii.eqb c' "+" || Ascii.eqb c' "-" then digits1 s''
               else digits1 s'
           | EmptyString => None
           end
      else Some s
  | EmptyString => Some s
  end.

Definition number (s : string) : bool :=
  match int_part (unsign s) with
  | Some r =>
      match frac_part r with
      | Some r' =>
          match exp_part r' with
          | Some EmptyString => true
          | _ => false
          end
      | None => false
      end
  | None => false
  end.

(** A number without fraction and exponent. *)
Definition integer (s : string) : bool :=
  match int_part (unsign s) with
  | Some EmptyString => true
  | _ => false
  end.

(** *** Strings *)

Definition backslash : ascii := ascii_of_nat 92.

Definition hex (c : ascii) : bool :=
  let n := nat_of_ascii c in
  isdigit c || ((65 <=? n) && (n <=? 70))%nat
  || ((97 <=? n) && (n <=? 102))%nat.

(** The characters between the quotes: no control character, and after
    a backslash one of the eight escapes or [u] and four hexadecimal
    digits. *)
Definition escape (e : ascii) : bool :=
  Ascii.eqb e dquote || Ascii.eqb e backslash || Ascii.eqb e "/"
  || Ascii.eqb e "b" || Ascii.eqb e "f" || Ascii.eqb e "n"
  || Ascii.eqb e "r" || Ascii.eqb e "t".

Fixpoint string_ok (s : string) : bool :=
  match s with
  | EmptyString => true
  | String c s' =>
      if Ascii.eqb c backslash
      then match s' with
           | String e s'' =>
               (if Ascii.eqb e "u"
                then match s'' with
                     | String h1 (String h2 (String h3 (String h4 _))) =>
                         hex h1 && hex h2 && hex h3 && hex h4
                     | _ => false
                     end
                else escape e)
               && string_ok s''
           | EmptyString => false
           end
      else (32 <=? nat_of_ascii c)%nat && string_ok s'
  end.

(** *** Tokens *)

Inductive token : Type :=
| LBrace | RBrace | LBracket | RBracket | Comma | Colon
| Quoted (raw : string)
| Numeral (literal : string)
| Word (letters : string)
| Bad.

(** Where the cutting stands: between tokens, or inside a number, a
    word or a string (after a backslash or not), with what it has read
    of it. *)
Inductive lexing : Type :=
| Idle
| InNumber (read : string)
| InWord (read : string)
| InString (read : string)
| InEscape (read : string).

Definition ws (c : ascii) : bool :=
  let n := nat_of_ascii c in
  ((n =? 32) || (n =? 9) || (n =? 10) || (n =? 13))%nat.

Definition number_char (c : ascii) : bool :=
  isdigit c || Ascii.eqb c "-" || Ascii.eqb c "+" || Ascii.eqb c "."
  || Ascii.eqb c "e" || Ascii.eqb c "E".

Definition letter (c : ascii) : bool :=
  let n := nat_of_ascii c in
  (((65 <=? n) && (n <=? 90)) || ((97 <=? n) && (n <=? 122)))%nat.

Definition snoc (s : string) (c : ascii) : string :=
  (s ++ String c EmptyString)%string.

(** A character met between tokens. *)
Definition start (c : ascii) : list token * lexing :=
  if ws c then ([], Idle)
  else if Ascii.eqb c "{" then ([LBrace], Idle)
  else if Ascii.eqb c "}" then ([RBrace], Idle)
  else if Ascii.eqb c "[" then ([LBracket], Idle)
  else if Ascii.eqb c "]" then ([RBracket], Idle)
  else if Ascii.eqb c "," then ([Comma], Idle)
  else if Ascii.eqb c ":" then ([Colon], Idle)
  else if Ascii.eqb c dquote then ([], InString EmptyString)
  else if isdigit c || Ascii.eqb c "-"
       then ([], InNumber (String c EmptyString))
  else if letter c then ([], InWord (String c EmptyString))
  else ([Bad], Idle).

Definition step (st : lexing) (c : ascii) : list token * lexing :=
  match st with
  | Idle => start c
  | InNumber read =>
      if number_char c then ([], InNumber (snoc read c))
      else let '(out, st') := start c in (Numeral read :: out, st')
  | InWord read =>
      if letter c then ([], InWord (snoc read c))
      else let '(out, st') := start c in (Word read :: out, st')
  | InString read =>
      if Ascii.eqb c dquote then ([Quoted read], Idle)
      else if Ascii.eqb c backslash then ([], InEscape (snoc read c))
      else ([], InString (snoc read c))
  | InEscape read => ([], InString (snoc read c))
  end.

(** At the end of the text: a number or a word ends there, a string
    must not. *)
Definition flush (st : lexing) : list token :=
  match st with
  | Idle => []
  | InNumber read => [Numeral read]
  | InWord read => [Word read]
  | InString _ | InEscape _ => [Bad]
  end.

Fixpoint lex (st : lexing) (s : string) : list token :=
  match s with
  | EmptyString => flush st
  | String c s' => let '(out, st') := step st c in out ++ lex st' s'
  end.

(** *** Values *)

Definition literal (w : string) : option value :=
  if String.eqb w "true" then Some (Bool true)
  else if String.eqb w "false" then Some (Bool false)
  else if String.eqb w "null" then Some Null
  else None.

(** After a value of an array: the closing bracket, or a comma and
    one more value.  [read] reads a value; [fuel] bounds the values
    still to come. *)
Fixpoint elements (read : list token -> option (value * list token))
    (fuel : nat) (ts : list token) : option (list value * list token) :=
  match fuel with
  | O => None
  | S fuel' =>
      match ts with
      | RBracket :: r => Some ([], r)
      | Comma :: r =>
          match read r with
          | Some (v, r') =>
              match elements read fuel' r' with
              | Some (vs, r'') => Some (v :: vs, r'')
              | None => None
              end
          | None => None
          end
      | _ => None
      end
  end.

(** After a member of an object: the closing brace, or a comma and
    one more member. *)
Fixpoint members (read : list token -> option (value * list token))
    (fuel : nat) (ts : list token)
  : option (list (string * value) * list token) :=
  match fuel with
  | O => None
  | S fuel' =>
      match ts with
      | RBrace :: r => Some ([], r)
      | Comma :: Quoted k :: Colon :: r =>
          if string_ok k
          then match read r with
               | Some (v, r') =>
                   match members read fuel' r' with
                   | Some (ms, r'') => Some ((k, v) :: ms, r'')
                   | None => None
                   end
               | None => None
               end
          else None
      | _ => None
      end
  end.

(** One value at the head of the tokens, and the tokens after it;
    [fuel] bounds the depth. *)
Fixpoint parse_value (fuel : nat) (ts : list token)
  : option (value * list token) :=
  match fuel with
  | O => None
  | S fuel' =>
      match ts with
      | Numeral s :: r => if number s then Some (Number s, r) else None
      | Quoted s :: r => if string_ok s then Some (Text s, r) else None
      | Word w :: r =>
          match literal w with Some v => Some (v, r) | None => None end
      | LBracket :: RBracket :: r => Some (Array [], r)
      | LBracket :: r =>
          match parse_value fuel' r with
          | Some (v, r') =>
              match elements (parse_value fuel') (List.length r') r' with
              | Some (vs, r'') => Some (Array (v :: vs), r'')
              | None => None
              end
          | None => None
          end
      | LBrace :: RBrace :: r => Some (Object [], r)
      | LBrace :: Quoted k :: Colon :: r =>
          if string_ok k
          then match parse_value fuel' r with
               | Some (v, r') =>
                   match members (parse_value fuel') (List.length r') r' with
                   | Some (ms, r'') => Some (Object ((k, v) :: ms), r'')
                   | None => None
                   end
               | None => None
               end
          else None
      | _ => None
      end
  end.

(** The value a text is, when it is a JSON text: one value and
    nothing after it but white space.  No value is nested deeper than
    the text has tokens. *)
Definition parse (s : string) : option value :=
  let ts := lex Idle s in
  match parse_value (List.length ts) ts with
  | Some (v, []) => Some v
  | _ => None
  end.

Definition is_document (s : string) : bool :=
  match parse s with Some _ => true | None => false end.

End rfc8259.

(** ** A platform with a float that is not a number

    As [utc], with one more float: [float('nan')], which [json.dumps]
    writes [NaN]. *)
Definition with_nan : Platform :=
  {| float := option N;
     py_float := fun s =>
       if String.eqb s "nan" then Some None
       else option_map Some (tenths_of_string s);
     float_repr := fun x =>
       match x with
       | Some n => tenths_repr n
       | None => "NaN"%string
       end;
     utcoffset := fun _ => 0%Z;
     utcoffset_bound := fun _ => conj eq_refl eq_refl;
     ts_before_ys := false |}.

(** ** Auxiliary definitions for the text of the output *)

(** The first character of a number: a digit or the minus sign. *)
Definition starts_number (s : string) : bool :=
  match s with
  | String c _ => isdigit c || Ascii.eqb c "-"
  | EmptyString => false
  end.

Fixpoint number_chars (s : string) : bool :=
  match s with
  | EmptyString => true
  | String c s' => rfc8259.number_char c && number_chars s'
  end.

(** The tokens of the items of an array after the first, and of an
    array of numbers. *)
Fixpoint item_tokens (l : list string) : list rfc8259.token :=
  match l with
  | [] => []
  | x :: l' => rfc8259.Comma :: rfc8259.Numeral x :: item_tokens l'
  end.

Definition array_tokens (l : list string) : list rfc8259.token :=
  match l with
  | [] => [rfc8259.LBracket; rfc8259.RBracket]
  | x :: l' =>
      rfc8259.LBracket :: rfc8259.Numeral x
        :: item_tokens l' ++ [rfc8259.RBracket]
  end.

(** [s] is [p] followed by [r], and [p] is made of characters of
    numbers. *)
Definition number_prefix (s r : string) : Prop :=
  exists p, s = (p ++ r)%string /\ number_chars p = true.

(** * Properties *)

Ltac Zify.zify_post_hook ::= Z.to_euclidean_division_equations.

(** ** Strings and integers *)

Lemma isdigit_not_space c : isdigit c = true -> isspace c = false.
Proof.
  unfold isdigit, isspace; intros H.
  apply andb_true_iff in H as [H1 H2].
  apply Nat.leb_le in H1.
  destruct (Nat.leb_spec (nat_of_ascii c) 13) as [Hle|Hgt].
  - lia.
  - rewrite andb_false_r; simpl. apply Nat.eqb_neq; lia.
Qed.

Lemma isdigit_not_sign c :
  isdigit c = true -> Ascii.eqb c "-" = false /\ Ascii.eqb c "+" = false.
Proof.
  unfold isdigit; intros H.
  apply andb_true_iff in H as [H1 _]. apply Nat.leb_le in H1.
  split; apply Ascii.eqb_neq; intros ->;
    [change (nat_of_ascii "-") with 45%nat in H1
    |change (nat_of_ascii "+") with 43%nat in H1]; lia.
Qed.

Lemma rstrip_all_digits s : all_digits s = true -> rstrip s = s.
Proof.
  induction s as [|c s IH]; simpl; [reflexivity|].
  intros H; apply andb_true_iff in H as [Hc Hs].
  rewrite (IH Hs).
  destruct s; [|reflexivity].
  now rewrite (isdigit_not_space _ Hc).
Qed.

Lemma string_of_uint_digits d : all_digits (NilEmpty.string_of_uint d) = true.
Proof. induction d; simpl; auto. Qed.

Lemma string_of_uint_nonempty p :
  NilEmpty.string_of_uint (Pos.to_uint p) <> EmptyString.
Proof.
  intros H. apply (DecimalPos.Unsigned.to_uint_nonnil p).
  now destruct (Pos.to_uint p).
Qed.

Ltac eval_digit :=
  match goal with
  | |- context [digit_value ?c] =>
      let v := eval vm_compute in (digit_value c) in
      change (digit_value c) with v
  end.

(** Reading digits after an accumulator is what the decimal library
    computes with [Pos.of_uint_acc]. *)
Lemma digits_value_acc d p :
  digits_value (Npos p) (NilEmpty.string_of_uint d)
  = Some (Npos (Pos.of_uint_acc d p)).
Proof.
  revert p; induction d; intros p;
    cbn [NilEmpty.string_of_uint digits_value Pos.of_uint_acc];
    try reflexivity; eval_digit; cbn [N.mul N.add]; rewrite IHd;
    do 3 f_equal; lia.
Qed.

Lemma digits_value_uint d :
  digits_value 0 (NilEmpty.string_of_uint d) = Some (Pos.of_uint d).
Proof.
  induction d; cbn [NilEmpty.string_of_uint digits_value Pos.of_uint];
    try reflexivity; eval_digit; cbn [N.mul N.add];
    try apply IHd; apply digits_value_acc.
Qed.

Lemma parse_digits_pos p :
  parse_digits (NilEmpty.string_of_uint (Pos.to_uint p)) = Some (Npos p).
Proof.
  unfold parse_digits.
  destruct (NilEmpty.string_of_uint (Pos.to_uint p)) eqn:E.
  - now apply string_of_uint_nonempty in E.
  - rewrite <- E, digits_value_uint. f_equal. apply DecimalPos.Unsigned.of_to.
Qed.

Lemma strip_digits s : all_digits s = true -> strip s = s.
Proof.
  intros H; unfold strip.
  assert (lstrip s = s) as ->; [|now apply rstrip_all_digits].
  destruct s; [reflexivity|]; simpl in *.
  apply andb_true_iff in H as [Hc _].
  now rewrite (isdigit_not_space _ Hc).
Qed.

Lemma rstrip_cons_keep c s :
  rstrip s <> EmptyString -> rstrip (String c s) = String c (rstrip s).
Proof. simpl; destruct (rstrip s); congruence. Qed.

(** [int(str(n)) == n] *)
Lemma py_int_str (n : Z) : py_int (py_str n) = Some n.
Proof.
  unfold py_int, py_str. destruct n as [|p|p]; [reflexivity| |].
  - cbn [Z.to_int NilEmpty.string_of_int]. pose proof (string_of_uint_digits (Pos.to_uint p)) as Hd.
    rewrite (strip_digits _ Hd).
    pose proof (parse_digits_pos p) as Hp.
    destruct (NilEmpty.string_of_uint (Pos.to_uint p)) as [|c s] eqn:E.
    + now apply string_of_uint_nonempty in E.
    + simpl in Hd. apply andb_true_iff in Hd as [Hc _].
      destruct (isdigit_not_sign _ Hc) as [-> ->].
      now rewrite Hp.
  - cbn [Z.to_int NilEmpty.string_of_int]. pose proof (string_of_uint_digits (Pos.to_uint p)) as Hd.
    pose proof (parse_digits_pos p) as Hp.
    unfold strip; cbn [lstrip]. change (isspace "-") with false. cbv iota.
    rewrite rstrip_cons_keep.
    + rewrite (rstrip_all_digits _ Hd), Hp. reflexivity.
    + rewrite (rstrip_all_digits _ Hd). apply string_of_uint_nonempty.
Qed.

(** ** Month labels and their dates *)

Ltac digit_cases k H :=
  assert (k = 0 \/ k = 1 \/ k = 2 \/ k = 3 \/ k = 4 \/ k = 5 \/ k = 6
          \/ k = 7 \/ k = 8 \/ k = 9)%N as H by lia;
  repeat (destruct H as [H|H]; [subst k|]); [..|subst k].

Lemma string_of_uint_digit k r :
  (k <= 9)%N ->
  NilEmpty.string_of_uint (uint_digit k r)
  = String (char_digit k) (NilEmpty.string_of_uint r).
Proof. intros Hk. digit_cases k H; reflexivity. Qed.

Lemma digit_value_char k : (k <= 9)%N -> digit_value (char_digit k) = Some k.
Proof. intros Hk. digit_cases k H; reflexivity. Qed.

Lemma isdigit_char k : (k <= 9)%N -> isdigit (char_digit k) = true.
Proof. intros Hk. digit_cases k H; reflexivity. Qed.

Lemma digit_Z_char k :
  (k <= 9)%N -> datetime.digit_Z (char_digit k) = Z.of_N k.
Proof. intros Hk. digit_cases k H; reflexivity. Qed.

Lemma unorm_digit k r :
  (1 <= k <= 9)%N -> Decimal.unorm (uint_digit k r) = uint_digit k r.
Proof. intros Hk. digit_cases k H; try reflexivity. lia. Qed.

Lemma digits_value_four a b c d :
  (a <= 9 /\ b <= 9 /\ c <= 9 /\ d <= 9)%N ->
  digits_value 0
    (String (char_digit a) (String (char_digit b)
       (String (char_digit c) (String (char_digit d) EmptyString))))
  = Some (1000 * a + 100 * b + 10 * c + d)%N.
Proof.
  intros (Ha & Hb & Hc & Hd). cbn [digits_value].
  rewrite !digit_value_char by assumption. f_equal. lia.
Qed.

(** [str(y)] for a year of four digits: the four digits. *)
Lemma py_str_four (y : Z) :
  (1000 <= y <= 9999)%Z ->
  exists a b c d,
    (1 <= a <= 9 /\ b <= 9 /\ c <= 9 /\ d <= 9)%N
    /\ y = Z.of_N (1000 * a + 100 * b + 10 * c + d)
    /\ py_str y
       = String (char_digit a) (String (char_digit b)
           (String (char_digit c) (String (char_digit d) EmptyString))).
Proof.
  intros Hy. destruct y as [|p|p]; try lia.
  set (n := Npos p).
  exists (n / 1000)%N, (n / 100 mod 10)%N, (n / 10 mod 10)%N, (n mod 10)%N.
  assert (Hn : (1000 <= n <= 9999)%N) by (unfold n; lia).
  assert (Hd : (1 <= n / 1000 <= 9 /\ n / 100 mod 10 <= 9
                /\ n / 10 mod 10 <= 9 /\ n mod 10 <= 9)%N) by lia.
  assert (Hv : (1000 * (n / 1000) + 100 * (n / 100 mod 10)
                + 10 * (n / 10 mod 10) + n mod 10 = n)%N) by lia.
  destruct Hd as (Ha & Hb & Hc & Hdd).
  split; [auto|]. split; [rewrite Hv; reflexivity|].
  set (u := uint_digit (n / 1000)
              (uint_digit (n / 100 mod 10)
                 (uint_digit (n / 10 mod 10)
                    (uint_digit (n mod 10) Decimal.Nil)))).
  assert (Hs : NilEmpty.string_of_uint u
               = String (char_digit (n / 1000))
                   (String (char_digit (n / 100 mod 10))
                      (String (char_digit (n / 10 mod 10))
                         (String (char_digit (n mod 10)) EmptyString)))).
  { unfold u. rewrite !string_of_uint_digit by lia. reflexivity. }
  assert (Hu : Pos.of_uint u = n).
  { pose proof (digits_value_uint u) as E.
    rewrite Hs, digits_value_four in E by (repeat split; lia).
    rewrite Hv in E. now injection E. }
  assert (Hp : Pos.to_uint p = u).
  { pose proof (DecimalPos.Unsigned.to_of u) as E. rewrite Hu in E.
    unfold n in E. cbn [N.to_uint] in E. rewrite E.
    apply unorm_digit. lia. }
  unfold py_str. cbn [Z.to_int NilEmpty.string_of_int]. now rewrite Hp.
Qed.

Lemma month_check_all :
  forallb (fun k => month_check (Z.of_nat k)) (seq 1 12) = true.
Proof. vm_cast_no_check (eq_refl true). Qed.

Lemma month_check_ok k : (1 <= k <= 12)%Z -> month_check k = true.
Proof.
  intros Hk. pose proof month_check_all as H.
  rewrite forallb_forall in H.
  rewrite <- (Z2Nat.id k) by lia. apply H, in_seq. lia.
Qed.

(** The label of month [k] of a four-digit year [y] reads back as the
    first of that month, at midnight. *)
Lemma strptime_format_month y k :
  (1000 <= y <= 9999)%Z -> (1 <= k <= 12)%Z ->
  datetime.strptime (format_month y k) = Some (first_of_month y k).
Proof.
  intros Hy Hk.
  destruct (py_str_four y Hy)
    as (a & b & c & d & (Ha & Hb & Hc & Hd) & Ey & Es).
  pose proof (month_check_ok k Hk) as Ck.
  unfold format_month, month_check in *. rewrite Es.
  cbn [append datetime.strptime].
  rewrite !isdigit_char, !digit_Z_char by lia.
  change (Ascii.eqb "-" "-") with true; cbn [andb].
  destruct (datetime.match_m (format_02d k)) as [[m [|x r]]|];
    try discriminate.
  apply Z.eqb_eq in Ck. subst m.
  replace (1000 * Z.of_N a + 100 * Z.of_N b + 10 * Z.of_N c + Z.of_N d)%Z
    with y by lia.
  destruct (Z.leb_spec 1 y); [reflexivity|lia].
Qed.

Lemma match_m_all s m :
  datetime.match_m s = Some (m, EmptyString) -> (String.length s <= 2)%nat.
Proof.
  unfold datetime.match_m, datetime.m_1x, datetime.m_0x, datetime.m_x.
  destruct s as [|c [|c' r]]; simpl; try lia.
  destruct (Ascii.eqb c "1" && datetime.in_range 48 50 c').
  - intros [= _ ->]; simpl; lia.
  - destruct (Ascii.eqb c "0" && datetime.in_range 49 57 c').
    + intros [= _ ->]; simpl; lia.
    + destruct (datetime.in_range 49 57 c); [intros [= _ ?]|]; discriminate.
Qed.

Lemma length_append s1 s2 :
  String.length (s1 ++ s2) = (String.length s1 + String.length s2)%nat.
Proof. induction s1; simpl; auto. Qed.

(** No label of a thirteenth month is a date, whatever the year. *)
Lemma strptime_month_13 s : datetime.strptime (s ++ "-13")%string = None.
Proof.
  destruct s as [|a [|b [|c [|d [|e s]]]]]; try reflexivity.
  - simpl. now rewrite !andb_false_r.
  - simpl. change (isdigit "-") with false. now rewrite !andb_false_r.
  - simpl. now destruct (isdigit a && isdigit b && isdigit c && isdigit d).
  - cbn [append datetime.strptime].
    destruct (_ && _); [|reflexivity].
    destruct (datetime.match_m (s ++ "-13")%string) as [[m [|x r]]|] eqn:E;
      try reflexivity.
    apply match_m_all in E. rewrite length_append in E. simpl in E. lia.
Qed.

Lemma format_month_13 y : format_month y 13 = (py_str y ++ "-13")%string.
Proof. reflexivity. Qed.

(** ** The calendar *)

Lemma days_before_year_mono y1 y2 :
  (y1 <= y2)%Z ->
  (datetime.days_before_year y1 + 365 * (y2 - y1)
   <= datetime.days_before_year y2)%Z.
Proof. unfold datetime.days_before_year. lia. Qed.

Lemma days_before_month_envelope y k :
  (1 <= k <= 12)%Z ->
  (152 * (k - 1) - 9 <= 5 * datetime.days_before_month y k
   <= 152 * (k - 1) + 5)%Z.
Proof.
  intros Hk. unfold datetime.days_before_month.
  assert (k = 1 \/ k = 2 \/ k = 3 \/ k = 4 \/ k = 5 \/ k = 6 \/ k = 7
          \/ k = 8 \/ k = 9 \/ k = 10 \/ k = 11 \/ k = 12)%Z as Hc by lia.
  destruct (datetime.is_leap y);
    repeat (destruct Hc as [->|Hc]; [vm_compute; split; discriminate|]);
    subst; vm_compute; split; discriminate.
Qed.

Section Clock.
Context {P : Platform}.

(** Later months start later on the local clock: a month lasts twenty
    eight days at least and no offset from UTC reaches a day. *)
Lemma t_lt y k y' k' :
  (1 <= k <= 12)%Z -> (1 <= k' <= 12)%Z ->
  (y < y' \/ (y = y' /\ k < k'))%Z ->
  (t y k < t y' k')%Z.
Proof.
  intros Hk Hk' Hlt. unfold t, datetime.mktime.
  pose proof (utcoffset_bound (datetime.wall_seconds (first_of_month y k))).
  pose proof (utcoffset_bound (datetime.wall_seconds (first_of_month y' k'))).
  assert (datetime.wall_seconds (first_of_month y k) + 28 * 86400
          <= datetime.wall_seconds (first_of_month y' k'))%Z; [|lia].
  unfold datetime.wall_seconds, datetime.toordinal, first_of_month; simpl.
  pose proof (days_before_month_envelope y k Hk).
  pose proof (days_before_month_envelope y' k' Hk').
  destruct Hlt as [Hy|[<- Hkk]].
  - pose proof (days_before_year_mono (y + 1) y' ltac:(lia)).
    pose proof (days_before_year_mono y (y + 1) ltac:(lia)).
    lia.
  - lia.
Qed.

End Clock.

(** ** Loops, exceptions and standard output *)

Section Runs.
Context {P : Platform}.

Lemma silent_ret {A} (a : A) : silent (ret a).
Proof. intros st; reflexivity. Qed.

Lemma silent_raise {A} e : silent (@raise P A e).
Proof. intros st; reflexivity. Qed.

Lemma silent_bind {A B} (c : M A) (k : A -> M B) :
  silent c -> (forall a, silent (k a)) -> silent (bind c k).
Proof.
  intros Hc Hk st. unfold bind. specialize (Hc st).
  destruct (c st) as [[a|e] st']; simpl in *; [|assumption].
  now rewrite Hk.
Qed.

Lemma silent_value_or_error {A} (o : option A) : silent (value_or_error o).
Proof. destruct o; [apply silent_ret|apply silent_raise]. Qed.

Lemma silent_getitem {A} (l : list A) i : silent (getitem l i).
Proof.
  unfold getitem.
  destruct (_ <? 0)%Z; [apply silent_raise|].
  destruct (nth_error _ _); [apply silent_ret|apply silent_raise].
Qed.

Lemma silent_for_each {A} (l : list A) body :
  (forall x, silent (body x)) -> silent (for_each l body).
Proof.
  intros Hb; induction l as [|x l IH]; simpl.
  - apply silent_ret.
  - apply silent_bind; auto.
Qed.

Lemma silent_map_M {A B} (f : A -> M B) l :
  (forall x, silent (f x)) -> silent (map_M f l).
Proof.
  intros Hf; induction l as [|x l IH]; simpl.
  - apply silent_ret.
  - apply silent_bind; [auto|]. intros y.
    apply silent_bind; [auto|]. intros r. apply silent_ret.
Qed.

Lemma silent_sample y tokens i : silent (sample y tokens i).
Proof.
  unfold sample.
  repeat (apply silent_bind;
          [first [apply silent_getitem | apply silent_value_or_error
                 | intros st; reflexivity]
          |intros ?]).
  intros st; reflexivity.
Qed.

Lemma silent_row line : silent (row line).
Proof.
  unfold row.
  apply silent_bind; [apply silent_getitem|intros tok].
  apply silent_bind; [apply silent_value_or_error|intros y].
  apply silent_for_each, silent_sample.
Qed.

(** The loop over the input writes nothing, whether it ends or
    raises. *)
Lemma silent_convert lines : silent (convert lines).
Proof. apply silent_for_each, silent_row. Qed.

Lemma silent_epoch x : silent (epoch x).
Proof.
  unfold epoch. apply silent_bind; [apply silent_value_or_error|intros s].
  apply silent_value_or_error.
Qed.

Lemma silent_output : silent output.
Proof.
  unfold output.
  apply silent_bind; [intros st; reflexivity|intros l].
  apply silent_bind; [apply silent_map_M, silent_epoch|intros v].
  apply silent_bind; [intros st; reflexivity|intros w].
  apply silent_ret.
Qed.

Lemma for_each_app {A} (l1 l2 : list A) body st :
  for_each (l1 ++ l2) body st
  = match for_each l1 body st with
    | (Ok _, st') => for_each l2 body st'
    | (Raise e, st') => (Raise e, st')
    end.
Proof.
  revert st; induction l1 as [|x l1 IH]; intros st; simpl.
  - reflexivity.
  - unfold bind. destruct (body x st) as [[[]|e] st']; [apply IH|reflexivity].
Qed.

(** A loop that meets an element on which its body always raises,
    raises: there or before. *)
Lemma for_each_raises {A} (l : list A) body x :
  In x l -> raises (body x) -> raises (for_each l body).
Proof.
  intros Hin Hx; induction l as [|a l IH]; [contradiction|].
  intros st; simpl; unfold bind.
  destruct Hin as [->|Hin].
  - destruct (Hx st) as (e & st' & ->). eauto.
  - destruct (body a st) as [[[]|e] st']; [apply (IH Hin)|eauto].
Qed.

Lemma raises_bind_l {A B} (c : M A) (k : A -> M B) :
  raises c -> raises (bind c k).
Proof.
  intros Hc st; unfold bind. destruct (Hc st) as (e & st' & ->). eauto.
Qed.

(** The run splits into the loop, the dictionary and the print. *)
Lemma run_eq lines :
  run lines
  = match output_of lines with
    | (Ok o, st) => print (json.dumps o) st
    | (Raise e, st) => (Raise e, st)
    end.
Proof.
  unfold run, output_of, script, bind.
  destruct (convert lines initial) as [[[]|e] st]; [|reflexivity].
  destruct (output st) as [[o|e] st']; reflexivity.
Qed.

Lemma output_of_silent lines :
  stdout (snd (output_of lines)) = EmptyString.
Proof.
  unfold output_of.
  now rewrite (silent_bind _ _ (silent_convert lines) (fun _ => silent_output)).
Qed.

(** A run that raises has written nothing. *)
Lemma run_raise_silent lines e st :
  run lines = (Raise e, st) -> stdout st = EmptyString.
Proof.
  rewrite run_eq. pose proof (output_of_silent lines) as H.
  destruct (output_of lines) as [[o|e'] st']; simpl in H.
  - discriminate.
  - now intros [= _ <-].
Qed.

(** When the loop raises, the run is aborted. *)
Lemma convert_raises_aborted lines :
  raises (convert lines) -> aborted (run lines).
Proof.
  intros H. unfold run, script.
  destruct (raises_bind_l (convert lines)
              (fun _ => bind output (fun o => print (json.dumps o))) H initial)
    as (e & st' & E).
  split.
  - exists e. now rewrite E.
  - apply (run_raise_silent lines e). unfold run, script.
    rewrite E. reflexivity.
Qed.

End Runs.

(** ** Accepted input *)

Section Accepted.
Context {P : Platform}.

Lemma xrange_nil lo hi : (hi <= lo)%Z -> xrange lo hi = [].
Proof.
  intros H. unfold xrange. now replace (Z.to_nat (hi - lo)) with 0%nat by lia.
Qed.

Lemma xrange_cons lo hi :
  (lo < hi)%Z -> xrange lo hi = lo :: xrange (lo + 1) hi.
Proof.
  intros H. unfold xrange.
  replace (Z.to_nat (hi - lo)) with (S (Z.to_nat (hi - (lo + 1)))) by lia.
  cbn [seq map]. f_equal; [lia|].
  rewrite <- seq_shift, map_map. apply map_ext. intros k; lia.
Qed.

Lemma in_xrange lo hi i : In i (xrange lo hi) <-> (lo <= i < hi)%Z.
Proof.
  unfold xrange. rewrite in_map_iff. split.
  - intros (k & <- & Hk). apply in_seq in Hk. lia.
  - intros H. exists (Z.to_nat (i - lo)). split; [lia|]. apply in_seq. lia.
Qed.

Lemma length_xrange lo hi :
  (lo <= hi)%Z -> List.length (xrange lo hi) = Z.to_nat (hi - lo).
Proof. intros _. unfold xrange. now rewrite length_map, length_seq. Qed.

Lemma getitem_middle {A} (pre : list A) x rest st :
  getitem (pre ++ x :: rest) (len pre) st = (Ok x, st).
Proof.
  unfold getitem, len.
  destruct (Z.ltb_spec (Z.of_nat (List.length pre)) 0); [exfalso; lia|].
  destruct (Z.ltb_spec (Z.of_nat (List.length pre)) 0); [exfalso; lia|].
  rewrite Nat2Z.id, nth_error_app2, Nat.sub_diag by lia. reflexivity.
Qed.

Lemma getitem_head {A} (x : A) rest st :
  getitem (x :: rest) 0 st = (Ok x, st).
Proof. exact (getitem_middle [] x rest st). Qed.

Lemma tokens_of_eq line :
  tokens_of line = first_token line :: value_tokens line.
Proof.
  unfold first_token, value_tokens, tokens_of, re.split.
  now destruct (re.split_from false (rstrip line)).
Qed.

Lemma len_tokens_of line :
  len (tokens_of line) = (1 + Z.of_nat (List.length (value_tokens line)))%Z.
Proof. rewrite tokens_of_eq. unfold len. cbn [List.length]. lia. Qed.

Lemma values_traverse toks :
  forallb (fun tok => is_some (py_float tok)) toks = true ->
  traverse py_float toks
  = Some (flat_map (fun tok => match py_float tok with
                               | Some v => [v]
                               | None => []
                               end) toks).
Proof.
  induction toks as [|tok toks IH]; simpl; [reflexivity|].
  intros H. apply andb_true_iff in H as [H1 H2].
  rewrite (IH H2). now destruct (py_float tok).
Qed.

(** One turn of the inner loop on a token that reads as a float, in a
    month whose label reads as a date. *)
Lemma sample_ok y pre tok rest v d st :
  py_float tok = Some v ->
  datetime.strptime (format_month y (len pre)) = Some d ->
  sample y (pre ++ tok :: rest) (len pre) st
  = (Ok tt, mkState (ts st ++ [d]) (ys st ++ [v]) (stdout st)).
Proof.
  intros Hv Hd. unfold sample, bind.
  rewrite getitem_middle, Hv, Hd. reflexivity.
Qed.

Lemma inner_ok y rest : forall pre vs st,
  traverse py_float rest = Some vs ->
  (forall k, (len pre <= k < len pre + len rest)%Z ->
             datetime.strptime (format_month y k) = Some (first_of_month y k)) ->
  for_each (xrange (len pre) (len (pre ++ rest))) (sample y (pre ++ rest)) st
  = (Ok tt,
     mkState (ts st ++ map (first_of_month y)
                           (xrange (len pre) (len (pre ++ rest))))
             (ys st ++ vs) (stdout st)).
Proof.
  induction rest as [|tok rest IH]; intros pre vs st Hvs Hk.
  - injection Hvs as <-. rewrite app_nil_r, xrange_nil by lia.
    simpl. rewrite !app_nil_r. now destruct st.
  - simpl in Hvs.
    destruct (py_float tok) as [v|] eqn:Ev; [|discriminate].
    destruct (traverse py_float rest) as [vs'|] eqn:Et; [|discriminate].
    injection Hvs as <-.
    assert (Hlen : len (pre ++ tok :: rest) = (len pre + 1 + len rest)%Z).
    { unfold len. rewrite length_app. simpl. lia. }
    assert (Hpre : len (pre ++ [tok]) = (len pre + 1)%Z).
    { unfold len. rewrite length_app. simpl. lia. }
    rewrite xrange_cons by (unfold len in *; lia).
    cbn [for_each map]. unfold bind at 1.
    rewrite (sample_ok y pre tok rest v (first_of_month y (len pre)))
      by (auto; apply Hk; unfold len; simpl; lia).
    specialize (IH (pre ++ [tok]) vs'
                   (mkState (ts st ++ [first_of_month y (len pre)])
                            (ys st ++ [v]) (stdout st)) eq_refl).
    rewrite <- app_assoc in IH. cbn [app] in IH.
    rewrite Hpre in IH. rewrite IH.
    + cbn [ts ys stdout]. rewrite <- !app_assoc. reflexivity.
    + intros k Hr. apply Hk. unfold len in *. simpl. lia.
Qed.

Lemma accepted_inv line :
  accepted line = true ->
  exists y,
    py_int (first_token line) = Some y /\ year_of line = y
    /\ forallb (fun tok => is_some (py_float tok)) (value_tokens line) = true
    /\ (List.length (value_tokens line) <= 12)%nat
    /\ (value_tokens line = [] \/ (1900 <= y <= 9999)%Z).
Proof.
  unfold accepted, well_formed, year_of. intros H.
  apply andb_true_iff in H as [H Hy].
  apply andb_true_iff in H as [H Hn].
  apply andb_true_iff in H as [Hi Hf].
  destruct (py_int (first_token line)) as [y|]; [|discriminate].
  exists y. repeat split; auto.
  - now apply Nat.leb_le.
  - apply orb_true_iff in Hy as [Hy|Hy].
    + left. now destruct (value_tokens line).
    + right. apply andb_true_iff in Hy as [H1 H2]. lia.
Qed.

(** An accepted row appends its dates and its values, and nothing
    else happens. *)
Lemma row_ok line st :
  accepted line = true ->
  row line st
  = (Ok tt, mkState (ts st ++ dates_of line) (ys st ++ values_of line)
                    (stdout st)).
Proof.
  intros H. destruct (accepted_inv line H) as (y & Hy & Ey & Hf & Hn & Hr).
  unfold row, dates_of, months_of, values_of. fold (tokens_of line).
  rewrite Ey. rewrite tokens_of_eq.
  unfold bind at 1.
  rewrite getitem_head.
  unfold bind at 1. rewrite Hy. cbn [value_or_error ret].
  apply (inner_ok y (value_tokens line) [first_token line]).
  - now apply values_traverse.
  - intros k Hk. unfold len in Hk. cbn [List.length] in Hk.
    destruct Hr as [Hr|Hr].
    + exfalso. rewrite Hr in Hk. cbn [List.length] in Hk. lia.
    + apply strptime_format_month; lia.
Qed.

Lemma convert_ok lines : forall st,
  forallb accepted lines = true ->
  convert lines st
  = (Ok tt, mkState (ts st ++ flat_map dates_of lines)
                    (ys st ++ flat_map values_of lines) (stdout st)).
Proof.
  unfold convert.
  induction lines as [|line lines IH]; intros st H.
  - simpl. rewrite !app_nil_r. now destruct st.
  - simpl in H. apply andb_true_iff in H as [H1 H2].
    cbn [for_each flat_map]. unfold bind. rewrite (row_ok line st H1).
    rewrite (IH _ H2). cbn [ts ys stdout]. now rewrite <- !app_assoc.
Qed.

Lemma epoch_ok d st :
  (1900 <= datetime.year d)%Z -> epoch d st = (Ok (datetime.mktime d), st).
Proof.
  intros H. unfold epoch, bind, datetime.strftime_s.
  destruct (Z.ltb_spec (datetime.year d) 1900); [lia|].
  cbn [value_or_error ret]. now rewrite py_int_str.
Qed.

Lemma map_epoch_ok l st :
  Forall (fun d => (1900 <= datetime.year d)%Z) l ->
  map_M epoch l st = (Ok (map datetime.mktime l), st).
Proof.
  induction 1 as [|d l Hd Hl IH]; [reflexivity|].
  cbn [map_M map]. unfold bind at 1. rewrite (epoch_ok d st Hd).
  unfold bind. now rewrite IH.
Qed.

Lemma dates_of_years lines :
  forallb accepted lines = true ->
  Forall (fun d => (1900 <= datetime.year d)%Z) (flat_map dates_of lines).
Proof.
  intros H. apply Forall_forall. intros d Hd.
  apply in_flat_map in Hd as (line & Hl & Hd).
  rewrite forallb_forall in H.
  destruct (accepted_inv line (H line Hl)) as (y & _ & Ey & _ & _ & Hr).
  unfold dates_of, months_of in Hd. apply in_map_iff in Hd as (k & <- & Hk).
  apply in_xrange in Hk. rewrite len_tokens_of in Hk. simpl.
  destruct Hr as [Hr|Hr]; [rewrite Hr in Hk; simpl in Hk; lia|lia].
Qed.

Lemma mktime_dates lines :
  map datetime.mktime (flat_map dates_of lines) = flat_map times_of lines.
Proof.
  induction lines as [|line lines IH]; [reflexivity|].
  cbn [flat_map]. rewrite map_app, IH. f_equal.
  unfold dates_of, times_of. rewrite map_map. apply map_ext.
  intros k. unfold t. reflexivity.
Qed.

(** The dictionary of an accepted input. *)
Lemma output_of_ok lines :
  forallb accepted lines = true ->
  output_of lines
  = (Ok (dict (json.Array (map json.Int (flat_map times_of lines)))
              (json.Array (map json.Float (flat_map values_of lines)))),
     mkState (flat_map dates_of lines) (flat_map values_of lines) EmptyString).
Proof.
  intros H. unfold output_of, bind.
  rewrite (convert_ok lines initial H). cbn [initial ts ys stdout app].
  unfold output, bind, get_ts, get_ys. cbn [ts ys].
  rewrite (map_epoch_ok _ _ (dates_of_years lines H)).
  now rewrite mktime_dates.
Qed.

Lemma field_dict a b :
  field "ts" (dict a b) = Some a /\ field "ys" (dict a b) = Some b.
Proof. unfold dict. destruct ts_before_ys; split; reflexivity. Qed.

Lemma traverse_ints l : traverse as_int (map json.Int l) = Some l.
Proof. induction l as [|n l IH]; simpl; [|rewrite IH]; reflexivity. Qed.

Lemma traverse_floats l : traverse as_float (map json.Float l) = Some l.
Proof. induction l as [|x l IH]; simpl; [|rewrite IH]; reflexivity. Qed.

Lemma out_ts_ok lines :
  forallb accepted lines = true ->
  out_ts lines = Some (flat_map times_of lines).
Proof.
  intros H. unfold out_ts. rewrite (output_of_ok lines H).
  destruct (field_dict
              (json.Array (map json.Int (flat_map times_of lines)))
              (json.Array (map json.Float (flat_map values_of lines))))
    as [-> _].
  apply traverse_ints.
Qed.

Lemma out_ys_ok lines :
  forallb accepted lines = true ->
  out_ys lines = Some (flat_map values_of lines).
Proof.
  intros H. unfold out_ys. rewrite (output_of_ok lines H).
  destruct (field_dict
              (json.Array (map json.Int (flat_map times_of lines)))
              (json.Array (map json.Float (flat_map values_of lines))))
    as [_ ->].
  apply traverse_floats.
Qed.

(** The run of an accepted input: it ends, and standard output holds
    the dictionary and a line feed. *)
Lemma run_ok lines :
  forallb accepted lines = true ->
  run lines
  = (Ok tt,
     mkState (flat_map dates_of lines) (flat_map values_of lines)
       (json.dumps
          (dict (json.Array (map json.Int (flat_map times_of lines)))
                (json.Array (map json.Float (flat_map values_of lines))))
        ++ String newline EmptyString)).
Proof. intros H. rewrite run_eq, (output_of_ok lines H). reflexivity. Qed.

End Accepted.

(** ** Rows that stop the run *)

Section Stops.
Context {P : Platform}.

Lemma row_raises_in lines line :
  In line lines -> raises (row line) -> aborted (run lines).
Proof.
  intros Hin Hr. apply convert_raises_aborted.
  unfold convert. now apply (for_each_raises lines row line).
Qed.

Lemma raises_value_or_error_none {A} : raises (@value_or_error P A None).
Proof. intros st. simpl. unfold raise. eauto. Qed.

Lemma getitem_first line st :
  getitem (tokens_of line) 0 st = (Ok (first_token line), st).
Proof. rewrite tokens_of_eq. apply getitem_head. Qed.

(** A row whose first token is no integer. *)
Lemma row_raises_int line :
  py_int (first_token line) = None -> raises (row line).
Proof.
  intros H st. unfold row. fold (tokens_of line).
  unfold bind. rewrite getitem_first, H. simpl. unfold raise. eauto.
Qed.

(** A row that has a turn of the inner loop that always raises. *)
Lemma row_raises_sample line i :
  (1 <= i < len (tokens_of line))%Z ->
  (forall y, raises (sample y (tokens_of line) i)) ->
  raises (row line).
Proof.
  intros Hi Hs st. unfold row. fold (tokens_of line).
  destruct (py_int (first_token line)) as [y|] eqn:Ey.
  - unfold bind at 1. rewrite getitem_first.
    unfold bind at 1. rewrite Ey. cbn [value_or_error ret].
    apply (for_each_raises _ _ i); [now apply in_xrange|apply Hs].
  - now apply row_raises_int.
Qed.

Lemma sample_raises_float y tokens i tok :
  (0 <= i)%Z -> nth_error tokens (Z.to_nat i) = Some tok ->
  py_float tok = None -> raises (sample y tokens i).
Proof.
  intros Hi Hn Hf st. unfold sample, bind, getitem.
  destruct (Z.ltb_spec i 0); [exfalso; lia|].
  destruct (Z.ltb_spec i 0); [exfalso; lia|].
  rewrite Hn. cbn [ret]. rewrite Hf. simpl. unfold raise. eauto.
Qed.

Lemma sample_raises_13 y tokens : raises (sample y tokens 13).
Proof.
  intros st. unfold sample, bind.
  destruct (getitem tokens 13 st) as [[tok|e] st1]; [|eauto].
  destruct (py_float tok) as [v|]; cbn [value_or_error ret raise]; [|eauto].
  rewrite format_month_13, strptime_month_13. cbn [value_or_error raise].
  eauto.
Qed.

Lemma malformed_raises line : malformed line = true -> raises (row line).
Proof.
  unfold malformed. intros H. apply orb_true_iff in H as [H|H].
  - apply row_raises_int. now destruct (py_int (first_token line)).
  - apply existsb_exists in H as (tok & Hin & Hf).
    apply In_nth_error in Hin as (n & Hn).
    apply (row_raises_sample line (Z.of_nat (S n))).
    + rewrite len_tokens_of.
      assert (n < List.length (value_tokens line))%nat
        by (apply nth_error_Some; congruence).
      lia.
    + intros y. apply (sample_raises_float y _ _ tok).
      * lia.
      * rewrite Nat2Z.id, tokens_of_eq. exact Hn.
      * now destruct (py_float tok).
Qed.

Lemma rstrip_head c s :
  rstrip (String c s) = EmptyString
  \/ exists r, rstrip (String c s) = String c r.
Proof.
  simpl. destruct (rstrip s).
  - destruct (isspace c); eauto.
  - eauto.
Qed.

(** White space at the start of a row leaves an empty first token. *)
Lemma first_token_blank line :
  starts_blank line = true -> first_token line = EmptyString.
Proof.
  unfold first_token, tokens_of, re.split.
  destruct line as [|c s]; [reflexivity|]. simpl starts_blank. intros Hc.
  destruct (rstrip_head c s) as [->|(r & ->)]; [reflexivity|].
  cbn [re.split_from]. rewrite Hc.
  now destruct (re.split_from true r).
Qed.

(** A row that is a year and nothing else changes nothing. *)
Lemma row_year_only line y st :
  value_tokens line = [] -> py_int (first_token line) = Some y ->
  row line st = (Ok tt, st).
Proof.
  intros Hv Hy. unfold row. fold (tokens_of line).
  unfold bind. rewrite getitem_first, Hy. cbn [value_or_error ret].
  rewrite len_tokens_of, Hv. reflexivity.
Qed.

Lemma convert_skip before line after y st :
  value_tokens line = [] -> py_int (first_token line) = Some y ->
  convert (before ++ line :: after) st = convert (before ++ after) st.
Proof.
  intros Hv Hy. unfold convert. rewrite !for_each_app.
  destruct (for_each before row st) as [[[]|e] st1]; [|reflexivity].
  cbn [for_each]. unfold bind. now rewrite (row_year_only line y st1).
Qed.

Lemma stateless_bind {A B} (c : M A) (k : A -> M B) :
  stateless c -> (forall a, stateless (k a)) -> stateless (bind c k).
Proof.
  intros Hc Hk st. unfold bind. specialize (Hc st).
  destruct (c st) as [[a|e] st1]; simpl in Hc; subst; [apply Hk|reflexivity].
Qed.

Lemma stateless_value_or_error {A} (o : option A) :
  stateless (value_or_error o).
Proof. now destruct o. Qed.

Lemma stateless_epoch d : stateless (epoch d).
Proof.
  apply stateless_bind; [apply stateless_value_or_error|].
  intros s. apply stateless_value_or_error.
Qed.

Lemma stateless_map_epoch l : stateless (map_M epoch l).
Proof.
  induction l as [|d l IH]; cbn [map_M]; [now intros st|].
  apply stateless_bind; [apply stateless_epoch|intros z].
  apply stateless_bind; [apply IH|now intros r st].
Qed.

(** What [output] returns is a dictionary of the two arrays. *)
Lemma output_shape st o st' :
  output st = (Ok o, st') ->
  exists v_ts,
    o = dict (json.Array (map json.Int v_ts))
             (json.Array (map json.Float (ys st))).
Proof.
  unfold output, bind, get_ts, get_ys.
  pose proof (stateless_map_epoch (ts st) st) as Hs.
  destruct (map_M epoch (ts st) st) as [[v|e] st1]; [|discriminate].
  simpl in Hs; subst st1. intros [= <- _]. now exists v.
Qed.

End Stops.

(** ** The text of the output as a JSON text *)

Lemma string_append_assoc (a b c : string) :
  ((a ++ b) ++ c = a ++ (b ++ c))%string.
Proof. induction a as [|x a IH]; simpl; [reflexivity|now rewrite IH]. Qed.

(** *** Numbers *)

Lemma nzhead_not_D0 d r : Decimal.nzhead d <> Decimal.D0 r.
Proof. induction d; simpl; congruence. Qed.

Lemma to_uint_no_leading_zero p r : Pos.to_uint p <> Decimal.D0 r.
Proof.
  intros E.
  pose proof (DecimalPos.Unsigned.to_of (Pos.to_uint p)) as H.
  rewrite DecimalPos.Unsigned.of_to in H. cbn [N.to_uint] in H.
  rewrite E in H. unfold Decimal.unorm in H. cbn [Decimal.nzhead] in H.
  destruct (Decimal.nzhead r) eqn:En;
    try (apply (nzhead_not_D0 r r); congruence);
    try discriminate.
  injection H as ->.
  pose proof (DecimalPos.Unsigned.of_to p) as H. rewrite E in H.
  discriminate.
Qed.


Lemma skip_digits_all s : all_digits s = true -> rfc8259.skip_digits s = EmptyString.
Proof.
  induction s as [|c s IH]; [reflexivity|]. cbn [all_digits].
  intros H. apply andb_true_iff in H as [Hc Hs].
  cbn [rfc8259.skip_digits]. rewrite Hc. auto.
Qed.

Lemma int_part_uint p :
  rfc8259.int_part (NilEmpty.string_of_uint (Pos.to_uint p))
  = Some EmptyString.
Proof.
  pose proof (string_of_uint_digits (Pos.to_uint p)) as Hd.
  pose proof (to_uint_no_leading_zero p) as Hz.
  pose proof (DecimalPos.Unsigned.to_uint_nonnil p) as Hn.
  destruct (Pos.to_uint p) as [|u|u|u|u|u|u|u|u|u|u];
    try (now destruct Hn); try (now destruct (Hz u));
    cbn [NilEmpty.string_of_uint all_digits] in *;
    apply andb_true_iff in Hd as [_ Hd];
    unfold rfc8259.int_part; cbn [Ascii.eqb Bool.eqb isdigit];
    now rewrite (skip_digits_all _ Hd).
Qed.

(** What [str] writes for an integer is a JSON number without fraction
    and exponent. *)
Lemma integer_py_str (n : Z) : rfc8259.integer (py_str n) = true.
Proof.
  unfold rfc8259.integer, py_str. destruct n as [|p|p].
  - reflexivity.
  - cbn [Z.to_int NilEmpty.string_of_int].
    assert (E : rfc8259.unsign (NilEmpty.string_of_uint (Pos.to_uint p))
                = NilEmpty.string_of_uint (Pos.to_uint p)).
    { pose proof (string_of_uint_digits (Pos.to_uint p)) as Hd.
      destruct (NilEmpty.string_of_uint (Pos.to_uint p)) as [|c s];
        [reflexivity|].
      cbn [all_digits] in Hd. apply andb_true_iff in Hd as [Hc _].
      destruct (isdigit_not_sign _ Hc) as [E _].
      unfold rfc8259.unsign. now rewrite E. }
    rewrite E. now rewrite int_part_uint.
  - cbn [Z.to_int NilEmpty.string_of_int].
    cbn [rfc8259.unsign Ascii.eqb Bool.eqb]. now rewrite int_part_uint.
Qed.

Lemma integer_number s : rfc8259.integer s = true -> rfc8259.number s = true.
Proof.
  unfold rfc8259.integer, rfc8259.number.
  destruct (rfc8259.int_part (rfc8259.unsign s)) as [[|c r]|];
    try discriminate. reflexivity.
Qed.

Lemma string_append_empty s : (s ++ EmptyString)%string = s.
Proof. induction s as [|c s IH]; simpl; [reflexivity|now rewrite IH]. Qed.

Lemma number_prefix_refl s : number_prefix s s.
Proof. exists EmptyString. split; reflexivity. Qed.

Lemma number_prefix_cons c s r :
  rfc8259.number_char c = true ->
  number_prefix s r -> number_prefix (String c s) r.
Proof.
  intros Hc (p & -> & Hp). exists (String c p). split; [reflexivity|].
  cbn [number_chars]. now rewrite Hc.
Qed.

Lemma number_chars_app p q :
  number_chars p = true -> number_chars q = true ->
  number_chars (p ++ q) = true.
Proof.
  intros Hp Hq. induction p as [|c p IH]; [exact Hq|].
  cbn [number_chars append] in *. apply andb_true_iff in Hp as [Hc Hp].
  rewrite Hc. now apply IH.
Qed.

Lemma number_prefix_trans s r r' :
  number_prefix s r -> number_prefix r r' -> number_prefix s r'.
Proof.
  intros (p & -> & Hp) (q & -> & Hq). exists (p ++ q)%string.
  split; [now rewrite string_append_assoc|now apply number_chars_app].
Qed.

Lemma digit_number_char c : isdigit c = true -> rfc8259.number_char c = true.
Proof. intros H. unfold rfc8259.number_char. now rewrite H. Qed.

Lemma skip_digits_prefix s : number_prefix s (rfc8259.skip_digits s).
Proof.
  induction s as [|c s IH]; [apply number_prefix_refl|].
  cbn [rfc8259.skip_digits]. destruct (isdigit c) eqn:Hc.
  - apply number_prefix_cons; [now apply digit_number_char|exact IH].
  - apply number_prefix_refl.
Qed.

Lemma digits1_prefix s r : rfc8259.digits1 s = Some r -> number_prefix s r.
Proof.
  destruct s as [|c s]; [discriminate|]. cbn [rfc8259.digits1].
  destruct (isdigit c) eqn:Hc; [|discriminate]. intros [= <-].
  apply number_prefix_cons; [now apply digit_number_char|].
  apply skip_digits_prefix.
Qed.

Lemma int_part_prefix s r :
  rfc8259.int_part s = Some r ->
  number_prefix s r /\ match s with
                       | String c _ => isdigit c = true
                       | EmptyString => False
                       end.
Proof.
  destruct s as [|c s]; [discriminate|]. cbn [rfc8259.int_part].
  destruct (Ascii.eqb c "0") eqn:E0.
  - apply Ascii.eqb_eq in E0. subst c. intros [= <-].
    split; [|reflexivity].
    apply number_prefix_cons; [reflexivity|apply number_prefix_refl].
  - destruct (isdigit c) eqn:Hc; [|discriminate]. intros [= <-].
    split; [|reflexivity].
    apply number_prefix_cons; [now apply digit_number_char|].
    apply skip_digits_prefix.
Qed.

Lemma frac_part_prefix s r : rfc8259.frac_part s = Some r -> number_prefix s r.
Proof.
  destruct s as [|c s]; cbn [rfc8259.frac_part].
  - intros [= <-]. apply number_prefix_refl.
  - destruct (Ascii.eqb c ".") eqn:E.
    + apply Ascii.eqb_eq in E. subst c. intros H.
      apply number_prefix_cons; [reflexivity|now apply digits1_prefix].
    + intros [= <-]. apply number_prefix_refl.
Qed.

Lemma exp_part_prefix s r : rfc8259.exp_part s = Some r -> number_prefix s r.
Proof.
  destruct s as [|c s]; cbn [rfc8259.exp_part].
  - intros [= <-]. apply number_prefix_refl.
  - destruct (Ascii.eqb c "e" || Ascii.eqb c "E") eqn:E.
    + assert (Hc : rfc8259.number_char c = true).
      { unfold rfc8259.number_char.
        apply orb_true_iff in E as [E|E]; rewrite E;
          now rewrite ?orb_true_r. }
      destruct s as [|c' s']; [discriminate|].
      destruct (Ascii.eqb c' "+" || Ascii.eqb c' "-") eqn:E'.
      * assert (Hc' : rfc8259.number_char c' = true).
        { unfold rfc8259.number_char.
          apply orb_true_iff in E' as [E'|E']; rewrite E';
            now rewrite ?orb_true_r. }
        intros H. apply number_prefix_cons; [exact Hc|].
        apply number_prefix_cons; [exact Hc'|now apply digits1_prefix].
      * intros H. apply number_prefix_cons; [exact Hc|].
        now apply digits1_prefix.
    + intros [= <-]. apply number_prefix_refl.
Qed.

Lemma number_prefix_all s : number_prefix s EmptyString -> number_chars s = true.
Proof. intros (p & -> & Hp). now rewrite string_append_empty. Qed.

(** A JSON number starts with a digit or the minus sign and is made of
    digits, signs, dots and the letter e. *)
Lemma number_numeral s :
  rfc8259.number s = true ->
  starts_number s = true /\ number_chars s = true.
Proof.
  unfold rfc8259.number. intros H.
  destruct (rfc8259.int_part (rfc8259.unsign s)) as [r|] eqn:Ei;
    [|discriminate].
  destruct (rfc8259.frac_part r) as [r'|] eqn:Ef; [|discriminate].
  destruct (rfc8259.exp_part r') as [[|? ?]|] eqn:Ee; try discriminate.
  destruct (int_part_prefix _ _ Ei) as [Hp Hs].
  assert (Hu : number_chars (rfc8259.unsign s) = true).
  { apply number_prefix_all.
    apply (number_prefix_trans _ r); [exact Hp|].
    apply (number_prefix_trans _ r'); [now apply frac_part_prefix|].
    now apply exp_part_prefix. }
  destruct s as [|c s]; [destruct Hs|].
  cbn [rfc8259.unsign] in *. destruct (Ascii.eqb c "-") eqn:Em.
  - split.
    + cbn [starts_number]. rewrite Em. apply orb_true_r.
    + cbn [number_chars]. rewrite Hu.
      unfold rfc8259.number_char. rewrite Em. now rewrite ?orb_true_r.
  - split.
    + cbn [starts_number]. now rewrite Hs.
    + exact Hu.
Qed.

(** *** Tokens *)

Lemma start_number c :
  isdigit c || Ascii.eqb c "-" = true ->
  rfc8259.start c = ([], rfc8259.InNumber (String c EmptyString)).
Proof.
  destruct c as [[] [] [] [] [] [] [] []]; intros H;
    try discriminate H; reflexivity.
Qed.

Lemma lex_idle c rest :
  rfc8259.lex rfc8259.Idle (String c rest)
  = fst (rfc8259.start c) ++ rfc8259.lex (snd (rfc8259.start c)) rest.
Proof.
  cbn [rfc8259.lex rfc8259.step]. now destruct (rfc8259.start c).
Qed.

Lemma lex_in_number x :
  forall read c rest,
    number_chars x = true -> rfc8259.number_char c = false ->
    rfc8259.lex (rfc8259.InNumber read) (x ++ String c rest)
    = rfc8259.Numeral (read ++ x)
        :: rfc8259.lex rfc8259.Idle (String c rest).
Proof.
  induction x as [|d x IH]; intros read c rest Hx Hc.
  - rewrite string_append_empty, lex_idle.
    cbn [append rfc8259.lex rfc8259.step]. rewrite Hc.
    now destruct (rfc8259.start c).
  - cbn [number_chars] in Hx. apply andb_true_iff in Hx as [Hd Hx].
    cbn [append rfc8259.lex rfc8259.step]. rewrite Hd. cbn [app].
    rewrite (IH _ c rest Hx Hc). unfold rfc8259.snoc.
    now rewrite string_append_assoc.
Qed.

(** A number in front of a character that is not of a number is one
    token. *)
Lemma lex_numeral x c rest :
  starts_number x = true -> number_chars x = true ->
  rfc8259.number_char c = false ->
  rfc8259.lex rfc8259.Idle (x ++ String c rest)
  = rfc8259.Numeral x :: rfc8259.lex rfc8259.Idle (String c rest).
Proof.
  intros Hs Hx Hc. destruct x as [|d x]; [discriminate|].
  cbn [starts_number] in Hs. cbn [number_chars] in Hx.
  apply andb_true_iff in Hx as [_ Hx].
  cbn [append]. rewrite lex_idle, (start_number d Hs). cbn [fst snd app].
  now rewrite (lex_in_number x _ c rest Hx Hc).
Qed.

Lemma lex_comma rest :
  rfc8259.lex rfc8259.Idle (String "," rest)
  = rfc8259.Comma :: rfc8259.lex rfc8259.Idle rest.
Proof. reflexivity. Qed.

Lemma lex_colon rest :
  rfc8259.lex rfc8259.Idle (String ":" rest)
  = rfc8259.Colon :: rfc8259.lex rfc8259.Idle rest.
Proof. reflexivity. Qed.

Lemma lex_space rest :
  rfc8259.lex rfc8259.Idle (String " " rest) = rfc8259.lex rfc8259.Idle rest.
Proof. reflexivity. Qed.

Lemma lex_open_bracket rest :
  rfc8259.lex rfc8259.Idle (String "[" rest)
  = rfc8259.LBracket :: rfc8259.lex rfc8259.Idle rest.
Proof. reflexivity. Qed.

Lemma lex_close_bracket rest :
  rfc8259.lex rfc8259.Idle (String "]" rest)
  = rfc8259.RBracket :: rfc8259.lex rfc8259.Idle rest.
Proof. reflexivity. Qed.

Lemma lex_open_brace rest :
  rfc8259.lex rfc8259.Idle (String "{" rest)
  = rfc8259.LBrace :: rfc8259.lex rfc8259.Idle rest.
Proof. reflexivity. Qed.

Lemma lex_close_brace rest :
  rfc8259.lex rfc8259.Idle (String "}" rest)
  = rfc8259.RBrace :: rfc8259.lex rfc8259.Idle rest.
Proof. reflexivity. Qed.

Lemma lex_items l :
  forall x rest,
    Forall (fun y => starts_number y = true /\ number_chars y = true)
           (x :: l) ->
    rfc8259.lex rfc8259.Idle
      (json.join ", " (x :: l) ++ String "]" rest)
    = rfc8259.Numeral x
        :: item_tokens l ++ rfc8259.RBracket :: rfc8259.lex rfc8259.Idle rest.
Proof.
  induction l as [|y l IH]; intros x rest H;
    inversion H as [|? ? [Hs Hx] Hl]; subst.
  - cbn [json.join item_tokens app].
    now rewrite (lex_numeral x "]" rest Hs Hx eq_refl), lex_close_bracket.
  - change (json.join ", " (x :: y :: l))
      with (x ++ ", " ++ json.join ", " (y :: l))%string.
    rewrite !string_append_assoc.
    change ((", " ++ json.join ", " (y :: l) ++ String "]" rest)%string)
      with (String "," (String " "
              (json.join ", " (y :: l) ++ String "]" rest))).
    rewrite (lex_numeral x "," _ Hs Hx eq_refl).
    rewrite lex_comma, lex_space, (IH y rest Hl). reflexivity.
Qed.

(** The text of an array of numbers, token by token. *)
Lemma lex_array l rest :
  Forall (fun y => starts_number y = true /\ number_chars y = true) l ->
  rfc8259.lex rfc8259.Idle
    (("[" ++ json.join ", " l ++ "]") ++ rest)
  = array_tokens l ++ rfc8259.lex rfc8259.Idle rest.
Proof.
  intros H. destruct l as [|x l]; [reflexivity|].
  change (("[" ++ json.join ", " (x :: l) ++ "]") ++ rest)%string
    with (String "[" ((json.join ", " (x :: l) ++ "]") ++ rest)).
  rewrite string_append_assoc.
  change ("]" ++ rest)%string with (String "]" rest).
  rewrite lex_open_bracket, (lex_items l x rest H). cbn [array_tokens app].
  now rewrite <- app_assoc.
Qed.

(** *** Values *)

Lemma length_item_tokens l : List.length (item_tokens l) = (2 * List.length l)%nat.
Proof. induction l as [|x l IH]; cbn [item_tokens List.length]; lia. Qed.

Lemma parse_numeral f y r :
  rfc8259.parse_value (S f) (rfc8259.Numeral y :: r)
  = if rfc8259.number y then Some (rfc8259.Number y, r) else None.
Proof. reflexivity. Qed.

Lemma elements_items l :
  forall f g r,
    Forall (fun y => rfc8259.number y = true) l ->
    (List.length l < g)%nat ->
    rfc8259.elements (rfc8259.parse_value (S f)) g
      (item_tokens l ++ rfc8259.RBracket :: r)
    = Some (map rfc8259.Number l, r).
Proof.
  induction l as [|y l IH]; intros f g r H Hg;
    (destruct g as [|g]; [cbn [List.length] in Hg; lia|]).
  - reflexivity.
  - inversion H as [|? ? Hy Hl]; subst. cbn [List.length] in Hg.
    cbn [item_tokens app rfc8259.elements].
    rewrite parse_numeral, Hy, (IH f g r Hl) by lia. reflexivity.
Qed.

(** The tokens of an array of numbers read as that array. *)
Lemma parse_array l f r :
  Forall (fun y => rfc8259.number y = true) l ->
  rfc8259.parse_value (S (S f)) (array_tokens l ++ r)
  = Some (rfc8259.Array (map rfc8259.Number l), r).
Proof.
  intros H. destruct l as [|x l]; [reflexivity|].
  inversion H as [|? ? Hx Hl]; subst.
  cbn [array_tokens app]. rewrite <- app_assoc. cbn [app].
  change (rfc8259.parse_value (S (S f))
            (rfc8259.LBracket :: rfc8259.Numeral x
               :: item_tokens l ++ rfc8259.RBracket :: r))
    with (match rfc8259.parse_value (S f)
                  (rfc8259.Numeral x
                     :: item_tokens l ++ rfc8259.RBracket :: r)
          with
          | Some (v, r') =>
              match rfc8259.elements (rfc8259.parse_value (S f))
                      (List.length r') r' with
              | Some (vs, r'') => Some (rfc8259.Array (v :: vs), r'')
              | None => None
              end
          | None => None
          end).
  rewrite parse_numeral, Hx.
  rewrite (elements_items l f _ r Hl).
  - reflexivity.
  - rewrite length_app, length_item_tokens. cbn [List.length]. lia.
Qed.

Lemma parse_two_members k1 k2 l1 l2 f :
  rfc8259.string_ok k1 = true -> rfc8259.string_ok k2 = true ->
  Forall (fun y => rfc8259.number y = true) l1 ->
  Forall (fun y => rfc8259.number y = true) l2 ->
  rfc8259.parse_value (S (S (S f)))
    (rfc8259.LBrace :: rfc8259.Quoted k1 :: rfc8259.Colon
       :: array_tokens l1
          ++ rfc8259.Comma :: rfc8259.Quoted k2 :: rfc8259.Colon
             :: array_tokens l2 ++ [rfc8259.RBrace])
  = Some (rfc8259.Object
            [(k1, rfc8259.Array (map rfc8259.Number l1));
             (k2, rfc8259.Array (map rfc8259.Number l2))], []).
Proof.
  intros Hk1 Hk2 H1 H2.
  cbn [rfc8259.parse_value]. rewrite Hk1.
  change (match rfc8259.parse_value (S (S f))
                  (array_tokens l1
                   ++ rfc8259.Comma :: rfc8259.Quoted k2 :: rfc8259.Colon
                      :: array_tokens l2 ++ [rfc8259.RBrace])
          with
          | Some (v, r') =>
              match rfc8259.members (rfc8259.parse_value (S (S f)))
                      (List.length r') r' with
              | Some (ms, r'') => Some (rfc8259.Object ((k1, v) :: ms), r'')
              | None => None
              end
          | None => None
          end
          = Some (rfc8259.Object
                    [(k1, rfc8259.Array (map rfc8259.Number l1));
                     (k2, rfc8259.Array (map rfc8259.Number l2))], [])).
  rewrite (parse_array l1 f _ H1).
  cbn [List.length rfc8259.members]. rewrite Hk2.
  rewrite (parse_array l2 f _ H2).
  reflexivity.
Qed.

(** *** The document *)

Section Document.
Context {P : Platform}.

Lemma lex_key_ts rest :
  rfc8259.lex rfc8259.Idle (json.encode_key "ts" ++ rest)%string
  = rfc8259.Quoted "ts" :: rfc8259.lex rfc8259.Idle rest.
Proof. reflexivity. Qed.

Lemma lex_key_ys rest :
  rfc8259.lex rfc8259.Idle (json.encode_key "ys" ++ rest)%string
  = rfc8259.Quoted "ys" :: rfc8259.lex rfc8259.Idle rest.
Proof. reflexivity. Qed.

(** An object of two members, token by token. *)
Lemma lex_two_members (e1 e2 a1 a2 k1 k2 tail : string)
    (t1 t2 : list rfc8259.token) :
  (forall rest, rfc8259.lex rfc8259.Idle (e1 ++ rest)%string
                = rfc8259.Quoted k1 :: rfc8259.lex rfc8259.Idle rest) ->
  (forall rest, rfc8259.lex rfc8259.Idle (e2 ++ rest)%string
                = rfc8259.Quoted k2 :: rfc8259.lex rfc8259.Idle rest) ->
  (forall rest, rfc8259.lex rfc8259.Idle (a1 ++ rest)%string
                = t1 ++ rfc8259.lex rfc8259.Idle rest) ->
  (forall rest, rfc8259.lex rfc8259.Idle (a2 ++ rest)%string
                = t2 ++ rfc8259.lex rfc8259.Idle rest) ->
  rfc8259.lex rfc8259.Idle tail = [] ->
  rfc8259.lex rfc8259.Idle
    (("{" ++ json.join ", " [(e1 ++ ": " ++ a1)%string;
                             (e2 ++ ": " ++ a2)%string] ++ "}")
     ++ tail)%string
  = rfc8259.LBrace :: rfc8259.Quoted k1 :: rfc8259.Colon
      :: t1 ++ rfc8259.Comma :: rfc8259.Quoted k2 :: rfc8259.Colon
         :: t2 ++ [rfc8259.RBrace].
Proof.
  intros He1 He2 Ha1 Ha2 Ht. cbn [json.join].
  rewrite !string_append_assoc. cbn [append].
  rewrite lex_open_brace, He1, lex_colon, lex_space, Ha1.
  rewrite lex_comma, lex_space, He2, lex_colon, lex_space, Ha2.
  rewrite lex_close_brace, Ht. reflexivity.
Qed.

Lemma dumps_ints (l : list Z) :
  json.dumps (json.Array (map json.Int l))
  = ("[" ++ json.join ", " (map py_str l) ++ "]")%string.
Proof. cbn [json.dumps]. now rewrite map_map. Qed.

Lemma dumps_floats (l : list float) :
  json.dumps (json.Array (map json.Float l))
  = ("[" ++ json.join ", " (map float_repr l) ++ "]")%string.
Proof. cbn [json.dumps]. now rewrite map_map. Qed.

Lemma numerals_of_numbers (l : list string) :
  Forall (fun y => rfc8259.number y = true) l ->
  Forall (fun y => starts_number y = true /\ number_chars y = true) l.
Proof.
  intros H. eapply Forall_impl; [|exact H].
  intros y Hy. now apply number_numeral.
Qed.

Lemma integers_are_numbers (l : list Z) :
  Forall (fun y => rfc8259.number y = true) (map py_str l).
Proof.
  apply Forall_forall. intros y Hy. apply in_map_iff in Hy as (n & <- & _).
  apply integer_number, integer_py_str.
Qed.

(** The text [json.dumps] writes for the dictionary of the script
    reads as a JSON object of the two arrays of numbers, whatever white
    space follows it. *)
Lemma parse_dict (v_ts : list Z) (v_ys : list float) (tail : string) :
  Forall (fun v => rfc8259.number (float_repr v) = true) v_ys ->
  rfc8259.lex rfc8259.Idle tail = [] ->
  rfc8259.parse
    (json.dumps (dict (json.Array (map json.Int v_ts))
                      (json.Array (map json.Float v_ys))) ++ tail)%string
  = Some (rfc8259.Object
            (if ts_before_ys
             then [("ts"%string,
                    rfc8259.Array (map rfc8259.Number (map py_str v_ts)));
                   ("ys"%string,
                    rfc8259.Array
                      (map rfc8259.Number (map float_repr v_ys)))]
             else [("ys"%string,
                    rfc8259.Array
                      (map rfc8259.Number (map float_repr v_ys)));
                   ("ts"%string,
                    rfc8259.Array
                      (map rfc8259.Number (map py_str v_ts)))])).
Proof.
  intros Hys Ht.
  assert (Hy : Forall (fun y => rfc8259.number y = true)
                      (map float_repr v_ys)).
  { apply Forall_forall. intros y Hin.
    apply in_map_iff in Hin as (v & <- & Hv).
    rewrite Forall_forall in Hys. now apply Hys. }
  pose proof (integers_are_numbers v_ts) as Hx.
  unfold dict, rfc8259.parse. destruct ts_before_ys.
  - change (json.dumps
              (json.Object
                 [("ts", json.Array (map json.Int v_ts));
                  ("ys", json.Array (map json.Float v_ys))]))
      with ("{" ++ json.join ", "
                     [(json.encode_key "ts" ++ ": "
                       ++ json.dumps (json.Array (map json.Int v_ts)))%string;
                      (json.encode_key "ys" ++ ": "
                       ++ json.dumps
                            (json.Array (map json.Float v_ys)))%string]
                ++ "}")%string.
    rewrite dumps_ints, dumps_floats.
    rewrite (lex_two_members _ _ _ _ "ts" "ys" tail
               (array_tokens (map py_str v_ts))
               (array_tokens (map float_repr v_ys))
               lex_key_ts lex_key_ys
               (fun rest => lex_array _ rest (numerals_of_numbers _ Hx))
               (fun rest => lex_array _ rest (numerals_of_numbers _ Hy))
               Ht).
    cbv zeta. cbn [List.length].
    now rewrite (parse_two_members "ts" "ys" _ _ _ eq_refl eq_refl Hx Hy).
  - change (json.dumps
              (json.Object
                 [("ys", json.Array (map json.Float v_ys));
                  ("ts", json.Array (map json.Int v_ts))]))
      with ("{" ++ json.join ", "
                     [(json.encode_key "ys" ++ ": "
                       ++ json.dumps
                            (json.Array (map json.Float v_ys)))%string;
                      (json.encode_key "ts" ++ ": "
                       ++ json.dumps (json.Array (map json.Int v_ts)))%string]
                ++ "}")%string.
    rewrite dumps_ints, dumps_floats.
    rewrite (lex_two_members _ _ _ _ "ys" "ts" tail
               (array_tokens (map float_repr v_ys))
               (array_tokens (map py_str v_ts))
               lex_key_ys lex_key_ts
               (fun rest => lex_array _ rest (numerals_of_numbers _ Hy))
               (fun rest => lex_array _ rest (numerals_of_numbers _ Hx))
               Ht).
    cbv zeta. cbn [List.length].
    now rewrite (parse_two_members "ys" "ts" _ _ _ eq_refl eq_refl Hy Hx).
Qed.

(** [output] leaves the state as it is and returns a dictionary of
    the two arrays. *)
Lemma output_state st o st' :
  output st = (Ok o, st') ->
  st' = st
  /\ exists v_ts,
       o = dict (json.Array (map json.Int v_ts))
                (json.Array (map json.Float (ys st))).
Proof.
  unfold output, bind, get_ts, get_ys.
  pose proof (stateless_map_epoch (ts st) st) as Hs.
  destruct (map_M epoch (ts st) st) as [[v|e] st1]; [|discriminate].
  simpl in Hs; subst st1. intros [= <- <-]. split; [reflexivity|].
  now exists v.
Qed.

End Document.

(** * The claims *)

Section Claims.
Context {P : Platform}.

Lemma length_times_of line :
  List.length (times_of line) = List.length (value_tokens line).
Proof.
  unfold times_of, months_of.
  rewrite length_map, length_xrange, len_tokens_of; rewrite ?len_tokens_of; lia.
Qed.

Lemma length_values_of line :
  forallb (fun tok => is_some (py_float tok)) (value_tokens line) = true ->
  List.length (values_of line) = List.length (value_tokens line).
Proof.
  unfold values_of. induction (value_tokens line) as [|tok l IH];
    [reflexivity|].
  simpl. intros H. apply andb_true_iff in H as [H1 H2].
  rewrite length_app, (IH H2). now destruct (py_float tok).
Qed.

Lemma accepted_floats line :
  accepted line = true ->
  forallb (fun tok => is_some (py_float tok)) (value_tokens line) = true.
Proof. intros H. now destruct (accepted_inv line H) as (y & _ & _ & Hf & _). Qed.

Lemma length_all_times lines :
  List.length (flat_map times_of lines) = total_values lines.
Proof.
  rewrite length_flat_map. unfold total_values. f_equal.
  apply map_ext. intros line. apply length_times_of.
Qed.

Lemma length_all_values lines :
  forallb accepted lines = true ->
  List.length (flat_map values_of lines) = total_values lines.
Proof.
  intros H. rewrite length_flat_map. unfold total_values. f_equal.
  apply map_ext_in. intros line Hin. apply length_values_of, accepted_floats.
  rewrite forallb_forall in H. auto.
Qed.

(** C1, as amended.  For every input whose rows are accepted (the first
    token reads as an integer, which on a row that has values is a
    four-digit year from 1900 on; the tokens after it read as floats;
    twelve of them at most), the run ends normally and the arrays [ts]
    and [ys] of its output both have as many items as the input has
    value tokens. *)
Theorem lengths_equal_total (lines : list string) :
  forallb accepted lines = true ->
  exists a b,
    fst (run lines) = Ok tt
    /\ out_ts lines = Some a /\ out_ys lines = Some b
    /\ List.length a = total_values lines
    /\ List.length b = total_values lines.
Proof.
  intros H.
  exists (flat_map times_of lines), (flat_map values_of lines).
  rewrite (run_ok lines H), (out_ts_ok lines H), (out_ys_ok lines H).
  repeat split.
  - apply length_all_times.
  - now apply length_all_values.
Qed.

Lemma tokens_of_rstrip line s : rstrip line = s -> tokens_of line = re.split s.
Proof. unfold tokens_of. now intros ->. Qed.

(** C2.  The single row [2000 1.0 2.0 3.0] gives the epoch seconds of
    local midnight on the first of January, February and March 2000
    for [ts], that is 946684800, 949363200 and 951868800 each less the
    offset of local time from UTC at that midnight, and the three
    values for [ys]. *)
Theorem single_row_2000 (line : string) (v1 v2 v3 : float) :
  rstrip line = "2000 1.0 2.0 3.0" ->
  py_float "1.0" = Some v1 ->
  py_float "2.0" = Some v2 ->
  py_float "3.0" = Some v3 ->
  fst (run [line]) = Ok tt
  /\ out_ts [line]
     = Some [datetime.mktime (datetime.mk 2000 1 1 0 0 0);
             datetime.mktime (datetime.mk 2000 2 1 0 0 0);
             datetime.mktime (datetime.mk 2000 3 1 0 0 0)]
  /\ out_ts [line]
     = Some [946684800 - utcoffset 946684800;
             949363200 - utcoffset 949363200;
             951868800 - utcoffset 951868800]%Z
  /\ out_ys [line] = Some [v1; v2; v3].
Proof.
  intros Hl H1 H2 H3.
  assert (Ht : tokens_of line = ["2000"; "1.0"; "2.0"; "3.0"]).
  { now rewrite (tokens_of_rstrip line _ Hl). }
  assert (Ha : forallb accepted [line] = true).
  { unfold forallb, accepted, well_formed, year_of, first_token, value_tokens.
    rewrite Ht. cbn [hd tl forallb]. rewrite H1, H2, H3. reflexivity. }
  rewrite (run_ok _ Ha), (out_ts_ok _ Ha), (out_ys_ok _ Ha).
  cbn [flat_map]. rewrite !app_nil_r.
  unfold times_of, values_of, months_of, year_of, first_token, value_tokens.
  rewrite Ht. cbn [hd tl flat_map]. rewrite H1, H2, H3.
  repeat split.
Qed.

Lemma combine_app {A B} (l1 l2 : list A) (m1 m2 : list B) :
  List.length l1 = List.length m1 ->
  combine (l1 ++ l2) (m1 ++ m2) = combine l1 m1 ++ combine l2 m2.
Proof.
  revert m1; induction l1 as [|x l1 IH]; intros [|y m1]; simpl;
    try discriminate; [reflexivity|].
  intros [= H]. now rewrite IH.
Qed.

Lemma combine_rows lines :
  forallb accepted lines = true ->
  combine (flat_map times_of lines) (flat_map values_of lines)
  = flat_map samples_of lines.
Proof.
  induction lines as [|line lines IH]; [reflexivity|].
  simpl. intros H. apply andb_true_iff in H as [H1 H2].
  rewrite combine_app, (IH H2); [reflexivity|].
  now rewrite length_times_of, length_values_of by now apply accepted_floats.
Qed.

Lemma traverse_app {A B} (f : A -> option B) l1 l2 r1 r2 :
  traverse f l1 = Some r1 -> traverse f l2 = Some r2 ->
  traverse f (l1 ++ l2) = Some (r1 ++ r2).
Proof.
  revert r1; induction l1 as [|x l1 IH]; intros r1; simpl.
  - now intros [= <-].
  - destruct (f x); [|discriminate].
    destruct (traverse f l1) as [r|]; [|discriminate].
    intros [= <-] H2. now rewrite (IH r eq_refl H2).
Qed.

Lemma all_values_read lines :
  forallb accepted lines = true ->
  traverse py_float (flat_map value_tokens lines)
  = Some (flat_map values_of lines).
Proof.
  induction lines as [|line lines IH]; [reflexivity|].
  simpl. intros H. apply andb_true_iff in H as [H1 H2].
  apply traverse_app; [|auto].
  now apply values_traverse, accepted_floats.
Qed.

(** C3.  On accepted input the arrays hold the samples in the order of
    the input: row after row and, within a row, month after month; [ys]
    is the value tokens of the input, read as floats, in input order,
    and the [i]-th timestamp goes with the [i]-th value. *)
Theorem samples_in_input_order (lines : list string) :
  forallb accepted lines = true ->
  exists a b,
    out_ts lines = Some a /\ out_ys lines = Some b
    /\ a = flat_map times_of lines
    /\ traverse py_float (flat_map value_tokens lines) = Some b
    /\ combine a b = flat_map samples_of lines.
Proof.
  intros H.
  exists (flat_map times_of lines), (flat_map values_of lines).
  rewrite (out_ts_ok lines H), (out_ys_ok lines H).
  repeat split.
  - now apply all_values_read.
  - now apply combine_rows.
Qed.

(** C5.  An input with a malformed row (a first token that is no
    integer, a later token that is no float) aborts the run: an
    exception and not one byte on standard output.  More generally the
    loop over the input writes nothing, however far it gets, and a run
    that raises has written nothing. *)
Theorem malformed_aborts (lines : list string) :
  (existsb malformed lines = true -> aborted (run lines))
  /\ (forall n, stdout (snd (convert (firstn n lines) initial)) = EmptyString)
  /\ (forall e st, run lines = (Raise e, st) -> stdout st = EmptyString).
Proof.
  split; [|split].
  - intros H. apply existsb_exists in H as (line & Hin & Hm).
    exact (row_raises_in lines line Hin (malformed_raises line Hm)).
  - intros n. apply (silent_convert (firstn n lines) initial).
  - apply run_raise_silent.
Qed.

(** C6.  A row with more than twelve value tokens aborts the run: the
    label of a thirteenth month is no date, and nothing wraps into the
    next year. *)
Theorem thirteenth_month_aborts (lines : list string) (line : string) :
  In line lines ->
  (12 < List.length (value_tokens line))%nat ->
  aborted (run lines)
  /\ forall y, datetime.strptime (format_month y 13) = None.
Proof.
  intros Hin Hn. split.
  - apply (row_raises_in lines line Hin).
    apply (row_raises_sample line 13).
    + rewrite len_tokens_of. lia.
    + intros y. apply sample_raises_13.
  - intros y. rewrite format_month_13. apply strptime_month_13.
Qed.

(** C7.  A run that ends normally, with values that [json.dumps]
    writes as JSON numbers, has written one JSON document and a line
    feed: the text parses, by the grammar of RFC 8259, as one object of
    exactly the two members [ts], an array of integer literals, and
    [ys], an array of numbers, which are the epoch seconds and the
    values of the script in their order; standard output as a whole is
    that one document too, the line feed being white space. *)
Theorem one_json_document (lines : list string) (st : state) :
  run lines = (Ok tt, st) ->
  Forall (fun v => rfc8259.number (float_repr v) = true) (ys st) ->
  exists v_ts v_ys text fields members,
    out_ts lines = Some v_ts /\ out_ys lines = Some v_ys
    /\ v_ys = ys st
    /\ stdout st = (text ++ eol)%string
    /\ text = json.dumps (json.Object fields)
    /\ Permutation fields
         [("ts", json.Array (map json.Int v_ts));
          ("ys", json.Array (map json.Float v_ys))]
    /\ rfc8259.parse text = Some (rfc8259.Object members)
    /\ rfc8259.parse (stdout st) = Some (rfc8259.Object members)
    /\ Permutation members
         [("ts", rfc8259.Array (map rfc8259.Number (map py_str v_ts)));
          ("ys", rfc8259.Array
                   (map rfc8259.Number (map float_repr v_ys)))]
    /\ Forall (fun n => rfc8259.integer (py_str n) = true) v_ts.
Proof.
  rewrite run_eq. unfold out_ts, out_ys.
  pose proof (output_of_silent lines) as Hs.
  destruct (output_of lines) as [[o|e] st1] eqn:E; [|discriminate].
  simpl in Hs. unfold print. rewrite Hs. intros [= <-].
  cbn [ys stdout append]. intros Hys.
  unfold output_of, bind in E.
  destruct (convert lines initial) as [[[]|e] st0]; [|discriminate].
  destruct (output_state _ _ _ E) as [-> (v & ->)].
  destruct (field_dict (json.Array (map json.Int v))
                       (json.Array (map json.Float (ys st0)))) as [-> ->].
  cbn [items]. rewrite traverse_ints, traverse_floats.
  pose proof (parse_dict v (ys st0) EmptyString Hys eq_refl) as Hp.
  pose proof (parse_dict v (ys st0) eol Hys eq_refl) as Hp'.
  rewrite string_append_empty in Hp.
  exists v, (ys st0),
    (json.dumps (dict (json.Array (map json.Int v))
                      (json.Array (map json.Float (ys st0))))).
  unfold dict in *. destruct ts_before_ys; eexists; eexists;
    (split; [reflexivity|]); (split; [reflexivity|]);
    (split; [reflexivity|]); (split; [reflexivity|]);
    (split; [reflexivity|]).
  - split; [apply Permutation_refl|]. split; [exact Hp|].
    split; [exact Hp'|]. split; [apply Permutation_refl|].
    apply Forall_forall. intros n _. apply integer_py_str.
  - split; [apply perm_swap|]. split; [exact Hp|].
    split; [exact Hp'|]. split; [apply perm_swap|].
    apply Forall_forall. intros n _. apply integer_py_str.
Qed.

(** C9.  A row that is an integer year and nothing else is accepted and
    leaves no trace: the run, its output and its arrays are those of the
    input without the row. *)
Theorem year_only_row_is_void (before after : list string) (line : string)
    (y : Z) :
  value_tokens line = [] ->
  py_int (first_token line) = Some y ->
  (forall st, row line st = (Ok tt, st))
  /\ run (before ++ line :: after) = run (before ++ after)
  /\ out_ts (before ++ line :: after) = out_ts (before ++ after)
  /\ out_ys (before ++ line :: after) = out_ys (before ++ after).
Proof.
  intros Hv Hy.
  split; [intros st; now apply (row_year_only line y)|].
  assert (E : forall st, convert (before ++ line :: after) st
                         = convert (before ++ after) st)
    by (intros st; now apply (convert_skip before line after y)).
  unfold run, script, out_ts, out_ys, output_of, bind.
  now rewrite E.
Qed.

(** C10.  A row that starts with white space, or is empty, aborts the
    run: once its right end is stripped, the split at white space
    leaves an empty first token, which is no integer. *)
Theorem leading_blank_aborts (lines : list string) (line : string) :
  In line lines ->
  starts_blank line = true ->
  first_token line = EmptyString
  /\ py_int EmptyString = None
  /\ aborted (run lines).
Proof.
  intros Hin Hb. pose proof (first_token_blank line Hb) as Hf.
  repeat split; [exact Hf| |].
  - destruct (row_raises_in lines line Hin) as [He _]; [|exact He].
    apply row_raises_int. now rewrite Hf.
  - destruct (row_raises_in lines line Hin) as [_ Hs]; [|exact Hs].
    apply row_raises_int. now rewrite Hf.
Qed.

End Claims.

(** ** Order in time *)

Section Order.
Context {P : Platform}.

Lemma nondecreasing_sorted l :
  nondecreasing l = true <-> StronglySorted Z.le l.
Proof.
  split.
  - intros H. apply Sorted_StronglySorted; [exact Z.le_trans|].
    induction l as [|a l IH]; [constructor|].
    destruct l as [|b l]; [repeat constructor|].
    cbn [nondecreasing] in H. apply andb_true_iff in H as [H1 H2].
    constructor; [now apply IH|]. constructor. now apply Z.leb_le.
  - induction l as [|a l IH]; [reflexivity|].
    intros H. apply StronglySorted_inv in H as [H1 H2].
    destruct l as [|b l]; [reflexivity|].
    cbn [nondecreasing]. apply andb_true_iff. split.
    + apply Z.leb_le. now inversion H2.
    + now apply IH.
Qed.

Lemma sorted_app (l1 l2 : list Z) :
  StronglySorted Z.le (l1 ++ l2)
  <-> StronglySorted Z.le l1 /\ StronglySorted Z.le l2
      /\ (forall a b, In a l1 -> In b l2 -> (a <= b)%Z).
Proof.
  induction l1 as [|x l1 IH]; simpl.
  - split; [intros H; repeat split; [constructor|exact H|contradiction]
           |now intros (_ & H & _)].
  - split.
    + intros H. apply StronglySorted_inv in H as [H1 H2].
      apply IH in H1 as (S1 & S2 & S3).
      rewrite Forall_app in H2. destruct H2 as [F1 F2].
      repeat split; [now constructor|exact S2|].
      intros a b [<-|Ha] Hb; [|now apply S3].
      rewrite Forall_forall in F2. now apply F2.
    + intros (S1 & S2 & S3).
      apply StronglySorted_inv in S1 as [S1 F1].
      constructor.
      * apply IH. repeat split; auto.
      * apply Forall_app. split; [exact F1|].
        apply Forall_forall. intros b Hb. apply S3; auto.
Qed.

Lemma map_xrange_sorted (f : Z -> Z) n : forall lo hi,
  Z.to_nat (hi - lo) = n ->
  (forall i j, (lo <= i < j)%Z -> (j < hi)%Z -> (f i <= f j)%Z) ->
  StronglySorted Z.le (map f (xrange lo hi)).
Proof.
  induction n as [|n IH]; intros lo hi Hn Hf.
  - rewrite xrange_nil by lia. constructor.
  - rewrite xrange_cons by lia. cbn [map]. constructor.
    + apply IH; [lia|]. intros i j Hi Hj. apply Hf; lia.
    + apply Forall_forall. intros b Hb.
      apply in_map_iff in Hb as (j & <- & Hj). apply in_xrange in Hj.
      apply Hf; lia.
Qed.

Lemma in_times_of line a :
  accepted line = true -> In a (times_of line) ->
  exists k, a = t (year_of line) k /\ (1 <= k <= 12)%Z.
Proof.
  intros Ha Hin. destruct (accepted_inv line Ha) as (y & _ & _ & _ & Hn & _).
  unfold times_of, months_of in Hin.
  apply in_map_iff in Hin as (k & <- & Hk). apply in_xrange in Hk.
  rewrite len_tokens_of in Hk. exists k. split; [reflexivity|lia].
Qed.

Lemma first_time_in line :
  value_tokens line <> [] -> In (t (year_of line) 1) (times_of line).
Proof.
  intros Hv. unfold times_of, months_of. apply in_map, in_xrange.
  rewrite len_tokens_of. destruct (value_tokens line); [congruence|].
  cbn [List.length]. lia.
Qed.

Lemma times_of_sorted line :
  accepted line = true -> StronglySorted Z.le (times_of line).
Proof.
  intros Ha. destruct (accepted_inv line Ha) as (y & _ & _ & _ & Hn & _).
  unfold times_of, months_of.
  apply (map_xrange_sorted _ _ _ _ eq_refl).
  intros i j Hi Hj. rewrite len_tokens_of in Hj.
  apply Z.lt_le_incl, t_lt; lia.
Qed.

(** Rows in strictly increasing year order give increasing times. *)
Lemma times_sorted lines :
  forallb accepted lines = true ->
  StronglySorted Z.lt (map year_of lines) ->
  StronglySorted Z.le (flat_map times_of lines).
Proof.
  induction lines as [|line lines IH]; [constructor|].
  simpl. intros Ha Hs. apply andb_true_iff in Ha as [Ha1 Ha2].
  apply StronglySorted_inv in Hs as [Hs Hf].
  apply sorted_app. repeat split; [now apply times_of_sorted|now apply IH|].
  intros a b Hina Hinb.
  apply (in_times_of line a Ha1) in Hina as (k & -> & Hk).
  apply in_flat_map in Hinb as (line' & Hl & Hinb).
  rewrite forallb_forall in Ha2.
  apply (in_times_of line' b (Ha2 line' Hl)) in Hinb as (k' & -> & Hk').
  rewrite Forall_forall in Hf.
  apply Z.lt_le_incl, t_lt; auto. left. apply Hf. now apply in_map.
Qed.

(** When every row has a value, increasing times need the rows in
    year order. *)
Lemma years_sorted lines :
  (forall line, In line lines -> value_tokens line <> []) ->
  StronglySorted Z.le (flat_map times_of lines) ->
  StronglySorted Z.le (map year_of lines).
Proof.
  induction lines as [|line lines IH]; [constructor|].
  simpl. intros Hv Hs. apply sorted_app in Hs as (_ & S2 & S3).
  constructor; [apply IH; auto|].
  apply Forall_forall. intros y' Hy'.
  apply in_map_iff in Hy' as (line' & <- & Hl).
  destruct (Z.le_gt_cases (year_of line) (year_of line')) as [|Hlt]; [easy|].
  exfalso.
  assert (t (year_of line) 1 <= t (year_of line') 1)%Z.
  { apply S3; [apply first_time_in; auto|].
    apply in_flat_map. exists line'. split; [exact Hl|].
    apply first_time_in; auto. }
  assert (t (year_of line') 1 < t (year_of line) 1)%Z
    by (apply t_lt; lia).
  lia.
Qed.

Lemma sorted_nodup_strict (l : list Z) :
  StronglySorted Z.le l -> NoDup l -> StronglySorted Z.lt l.
Proof.
  induction 1 as [|a l Hs IH Hf]; intros Hn; constructor.
  - apply IH. now inversion Hn.
  - inversion Hn as [|? ? Hnotin _]; subst.
    rewrite Forall_forall in *. intros b Hb.
    specialize (Hf b Hb). assert (a <> b) by congruence. lia.
Qed.

(** C4, as amended.  On accepted input in which every row has at least
    one value and no two rows carry the same year, [ts] is
    non-decreasing if and only if the rows come in non-decreasing year
    order. *)
Theorem monotone_iff_year_order (lines : list string) :
  forallb accepted lines = true ->
  (forall line, In line lines -> value_tokens line <> []) ->
  NoDup (map year_of lines) ->
  exists a,
    out_ts lines = Some a
    /\ (nondecreasing a = true
        <-> nondecreasing (map year_of lines) = true).
Proof.
  intros Ha Hv Hn. exists (flat_map times_of lines).
  split; [now apply out_ts_ok|].
  rewrite !nondecreasing_sorted. split.
  - now apply years_sorted.
  - intros Hs. apply times_sorted; [exact Ha|].
    now apply sorted_nodup_strict.
Qed.

(** C8, as amended.  The two rows [2000 1.0] and [2001 2.0] give two
    timestamps and the two values; the second timestamp is later than
    the first by the 366 days of the year 2000 less the change of the
    local offset from UTC between the two midnights, hence by 366 days
    exactly wherever the offset is the same at both. *)
Theorem two_rows_one_year (l1 l2 : string) (v1 v2 : float) :
  rstrip l1 = "2000 1.0" ->
  rstrip l2 = "2001 2.0" ->
  py_float "1.0" = Some v1 ->
  py_float "2.0" = Some v2 ->
  let w0 := datetime.wall_seconds (datetime.mk 2000 1 1 0 0 0) in
  let w1 := datetime.wall_seconds (datetime.mk 2001 1 1 0 0 0) in
  exists a b,
    fst (run [l1; l2]) = Ok tt
    /\ out_ts [l1; l2] = Some [a; b]
    /\ out_ys [l1; l2] = Some [v1; v2]
    /\ (b - a = 366 * 86400 - (utcoffset w1 - utcoffset w0))%Z
    /\ (utcoffset w0 = utcoffset w1 -> (b - a = 366 * 86400)%Z).
Proof.
  intros H1 H2 F1 F2 w0 w1.
  assert (T1 : tokens_of l1 = ["2000"; "1.0"])
    by now rewrite (tokens_of_rstrip l1 _ H1).
  assert (T2 : tokens_of l2 = ["2001"; "2.0"])
    by now rewrite (tokens_of_rstrip l2 _ H2).
  assert (Ha : forallb accepted [l1; l2] = true).
  { unfold forallb, accepted, well_formed, year_of, first_token, value_tokens.
    rewrite T1, T2. cbn [hd tl forallb]. rewrite F1, F2. reflexivity. }
  exists (t 2000 1), (t 2001 1).
  rewrite (run_ok _ Ha), (out_ts_ok _ Ha), (out_ys_ok _ Ha).
  cbn [flat_map]. rewrite !app_nil_r.
  unfold times_of, values_of, months_of, year_of, first_token, value_tokens.
  rewrite T1, T2. cbn [hd tl flat_map]. rewrite F1, F2.
  assert (E : (t 2001 1 - t 2000 1
               = 366 * 86400 - (utcoffset w1 - utcoffset w0))%Z).
  { unfold t, datetime.mktime. fold w0 w1.
    change (first_of_month 2000 1) with (datetime.mk 2000 1 1 0 0 0).
    change (first_of_month 2001 1) with (datetime.mk 2001 1 1 0 0 0).
    fold w0 w1.
    replace w0 with 946684800%Z by reflexivity.
    replace w1 with 978307200%Z by reflexivity. lia. }
  repeat split; [exact E|]. intros Ho. rewrite E, Ho. lia.
Qed.

End Order.

(** * The claims on concrete inputs *)

(** Well-formed rows are not enough for the arrays to come out: the
    row [5 1.0] has an integer first token, a float after it and one
    month, yet its month label [5-01] is no date for [%Y-%m]; the run
    raises and there is no array to measure. *)
Lemma lengths_equal_total_fails :
  let lines := [("5 1.0" ++ eol)%string] in
  forallb (well_formed (P := utc)) lines = true
  /\ total_values lines = 1%nat
  /\ datetime.strptime (format_month 5 1) = None
  /\ run (P := utc) lines = (Raise ValueError, initial (P := utc))
  /\ out_ts (P := utc) lines = None
  /\ out_ys (P := utc) lines = None.
Proof. cbv zeta. repeat apply conj; reflexivity. Qed.

Lemma lengths_equal_total_witness :
  let lines := [("2000 1.0 2.5" ++ eol)%string; ("2001" ++ eol)%string;
                "2002 3.5"] in
  forallb (accepted (P := utc)) lines = true
  /\ exists a b,
       fst (run (P := utc) lines) = Ok tt
       /\ out_ts (P := utc) lines = Some a
       /\ out_ys (P := utc) lines = Some b
       /\ List.length a = total_values lines
       /\ List.length b = total_values lines.
Proof.
  split; [reflexivity|].
  apply (lengths_equal_total (P := utc)). reflexivity.
Defined.

Lemma single_row_2000_witness :
  let line := ("2000 1.0 2.0 3.0" ++ eol)%string in
  rstrip line = "2000 1.0 2.0 3.0"
  /\ py_float (Platform := utc) "1.0" = Some 10%N
  /\ py_float (Platform := utc) "2.0" = Some 20%N
  /\ py_float (Platform := utc) "3.0" = Some 30%N
  /\ fst (run (P := utc) [line]) = Ok tt
  /\ out_ts (P := utc) [line]
     = Some [datetime.mktime (P := utc) (datetime.mk 2000 1 1 0 0 0);
             datetime.mktime (P := utc) (datetime.mk 2000 2 1 0 0 0);
             datetime.mktime (P := utc) (datetime.mk 2000 3 1 0 0 0)]
  /\ out_ts (P := utc) [line] = Some [946684800; 949363200; 951868800]%Z
  /\ out_ys (P := utc) [line] = Some [10%N; 20%N; 30%N].
Proof.
  repeat (split; [reflexivity|]).
  apply (single_row_2000 (P := utc)); reflexivity.
Defined.

Lemma samples_in_input_order_witness :
  let lines := [("2000 1.0 2.5" ++ eol)%string; ("2001 3.5" ++ eol)%string] in
  forallb (accepted (P := utc)) lines = true
  /\ exists a b,
       out_ts (P := utc) lines = Some a /\ out_ys (P := utc) lines = Some b
       /\ a = flat_map (times_of (P := utc)) lines
       /\ traverse (py_float (Platform := utc))
                   (flat_map value_tokens lines) = Some b
       /\ combine a b = flat_map (samples_of (P := utc)) lines.
Proof.
  split; [reflexivity|].
  apply (samples_in_input_order (P := utc)). reflexivity.
Defined.

(** Year order and time order part both ways: a year on two rows puts
    January after February although the years do not decrease, and a
    row without values hides a year that is out of order. *)
Lemma monotone_iff_year_order_fails :
  let twice := [("2000 1.0 2.0" ++ eol)%string; ("2000 3.0" ++ eol)%string] in
  let bare := [("2001" ++ eol)%string; ("2000 1.0" ++ eol)%string] in
  (forallb (accepted (P := utc)) twice = true
   /\ nondecreasing (map year_of twice) = true
   /\ out_ts (P := utc) twice = Some [946684800; 949363200; 946684800]%Z
   /\ nondecreasing [946684800; 949363200; 946684800]%Z = false)
  /\ (forallb (accepted (P := utc)) bare = true
      /\ nondecreasing (map year_of bare) = false
      /\ out_ts (P := utc) bare = Some [946684800]%Z
      /\ nondecreasing [946684800]%Z = true).
Proof. cbv zeta. repeat apply conj; reflexivity. Qed.

Lemma monotone_iff_year_order_witness :
  let lines := [("2000 1.0 2.0" ++ eol)%string; ("2001 3.0" ++ eol)%string] in
  forallb (accepted (P := utc)) lines = true
  /\ (forall line, In line lines -> value_tokens line <> [])
  /\ NoDup (map year_of lines)
  /\ exists a,
       out_ts (P := utc) lines = Some a
       /\ (nondecreasing a = true
           <-> nondecreasing (map year_of lines) = true).
Proof.
  assert (Hv : forall line,
             In line [("2000 1.0 2.0" ++ eol)%string;
                      ("2001 3.0" ++ eol)%string] ->
             value_tokens line <> []).
  { intros line [<-|[<-|[]]]; discriminate. }
  assert (Hn : NoDup (map year_of
                          [("2000 1.0 2.0" ++ eol)%string;
                           ("2001 3.0" ++ eol)%string])).
  { repeat constructor; [intros [H|[]]; discriminate H|intros []]. }
  split; [reflexivity|]. split; [exact Hv|]. split; [exact Hn|].
  apply (monotone_iff_year_order (P := utc)); [reflexivity|exact Hv|exact Hn].
Defined.

Lemma malformed_aborts_witness :
  let lines := [("2000 1.0" ++ eol)%string; ("2000 abc" ++ eol)%string] in
  existsb (malformed (P := utc)) lines = true
  /\ aborted (run (P := utc) lines).
Proof.
  split; [reflexivity|].
  apply (proj1 (malformed_aborts (P := utc) _)). reflexivity.
Defined.

Lemma thirteenth_month_aborts_witness :
  let line :=
    "2000 1.0 1.0 1.0 1.0 1.0 1.0 1.0 1.0 1.0 1.0 1.0 1.0 1.0"%string in
  In line [line]
  /\ (12 < List.length (value_tokens line))%nat
  /\ aborted (run (P := utc) [line])
  /\ forall y, datetime.strptime (format_month y 13) = None.
Proof.
  assert (Hn : (12 < List.length
                       (value_tokens
       "2000 1.0 1.0 1.0 1.0 1.0 1.0 1.0 1.0 1.0 1.0 1.0 1.0 1.0"))%nat).
  { apply Nat.ltb_lt. reflexivity. }
  split; [left; reflexivity|]. split; [exact Hn|].
  apply (thirteenth_month_aborts (P := utc)
           ["2000 1.0 1.0 1.0 1.0 1.0 1.0 1.0 1.0 1.0 1.0 1.0 1.0 1.0"%string]
           "2000 1.0 1.0 1.0 1.0 1.0 1.0 1.0 1.0 1.0 1.0 1.0 1.0 1.0");
    [left; reflexivity|exact Hn].
Defined.

(** A value that is not a number goes through the script and comes
    out as [NaN], which no JSON text holds: the run ends normally and
    what it printed is not a JSON document. *)
Lemma one_json_document_fails :
  let lines := [("2000 nan 1.5" ++ eol)%string] in
  let st := snd (run (P := with_nan) lines) in
  run (P := with_nan) lines = (Ok tt, st)
  /\ out_ts (P := with_nan) lines = Some [946684800; 949363200]%Z
  /\ out_ys (P := with_nan) lines = Some [None; Some 15%N]
  /\ stdout st
     = ("{" ++ json.encode_key "ys" ++ ": [NaN, 1.5], "
        ++ json.encode_key "ts" ++ ": [946684800, 949363200]}" ++ eol)%string
  /\ rfc8259.parse (stdout st) = None
  /\ rfc8259.is_document (stdout st) = false
  /\ rfc8259.number "NaN" = false.
Proof. cbv zeta. repeat apply conj; reflexivity. Qed.

Lemma one_json_document_witness :
  let lines := [("2000 1.0 2.0 3.0" ++ eol)%string] in
  let st := snd (run (P := utc) lines) in
  run (P := utc) lines = (Ok tt, st)
  /\ Forall (fun v => rfc8259.number (float_repr (Platform := utc) v) = true)
            (ys st)
  /\ exists v_ts v_ys text fields members,
       out_ts (P := utc) lines = Some v_ts
       /\ out_ys (P := utc) lines = Some v_ys
       /\ v_ys = ys st
       /\ stdout st = (text ++ eol)%string
       /\ text = json.dumps (P := utc) (json.Object fields)
       /\ Permutation fields
            [("ts"%string, json.Array (map json.Int v_ts));
             ("ys"%string, json.Array (map json.Float v_ys))]
       /\ rfc8259.parse text = Some (rfc8259.Object members)
       /\ rfc8259.parse (stdout st) = Some (rfc8259.Object members)
       /\ Permutation members
            [("ts"%string,
              rfc8259.Array (map rfc8259.Number (map py_str v_ts)));
             ("ys"%string,
              rfc8259.Array
                (map rfc8259.Number
                   (map (float_repr (Platform := utc)) v_ys)))]
       /\ Forall (fun n => rfc8259.integer (py_str n) = true) v_ts.
Proof.
  cbv zeta. split; [reflexivity|].
  split; [repeat constructor|].
  apply (one_json_document (P := utc)); [reflexivity|repeat constructor].
Defined.

(** Local midnights a year apart are not always 366 days apart: in a
    zone that went from eight to nine hours east of UTC during 2000
    the two timestamps differ by an hour less. *)
Lemma two_rows_one_year_fails :
  let lines := [("2000 1.0" ++ eol)%string; ("2001 2.0" ++ eol)%string] in
  out_ts (P := dili) lines = Some [946656000; 978274800]%Z
  /\ out_ys (P := dili) lines = Some [10%N; 20%N]
  /\ (978274800 - 946656000 = 366 * 86400 - 3600)%Z
  /\ (978274800 - 946656000 <> 366 * 86400)%Z.
Proof. cbv zeta. repeat apply conj; try reflexivity. discriminate. Qed.

Lemma two_rows_one_year_witness :
  let l1 := ("2000 1.0" ++ eol)%string in
  let l2 := ("2001 2.0" ++ eol)%string in
  let w0 := datetime.wall_seconds (datetime.mk 2000 1 1 0 0 0) in
  let w1 := datetime.wall_seconds (datetime.mk 2001 1 1 0 0 0) in
  rstrip l1 = "2000 1.0" /\ rstrip l2 = "2001 2.0"
  /\ py_float (Platform := utc) "1.0" = Some 10%N
  /\ py_float (Platform := utc) "2.0" = Some 20%N
  /\ exists a b,
       fst (run (P := utc) [l1; l2]) = Ok tt
       /\ out_ts (P := utc) [l1; l2] = Some [a; b]
       /\ out_ys (P := utc) [l1; l2] = Some [10%N; 20%N]
       /\ (b - a = 366 * 86400
                   - (utcoffset (Platform := utc) w1
                      - utcoffset (Platform := utc) w0))%Z
       /\ (utcoffset (Platform := utc) w0 = utcoffset (Platform := utc) w1 ->
           (b - a = 366 * 86400)%Z).
Proof.
  repeat (split; [reflexivity|]).
  apply (two_rows_one_year (P := utc)); reflexivity.
Defined.

Lemma year_only_row_is_void_witness :
  let before := [("2000 1.0" ++ eol)%string] in
  let line := ("2001" ++ eol)%string in
  let after := [("2002 2.0" ++ eol)%string] in
  value_tokens line = []
  /\ py_int (first_token line) = Some 2001%Z
  /\ (forall st, row (P := utc) line st = (Ok tt, st))
  /\ run (P := utc) (before ++ line :: after)
     = run (P := utc) (before ++ after)
  /\ out_ts (P := utc) (before ++ line :: after)
     = out_ts (P := utc) (before ++ after)
  /\ out_ys (P := utc) (before ++ line :: after)
     = out_ys (P := utc) (before ++ after).
Proof.
  repeat (split; [reflexivity|]).
  apply (year_only_row_is_void (P := utc) _ _ _ 2001%Z); reflexivity.
Defined.

Lemma leading_blank_aborts_witness :
  let line := (" 2000 1.0" ++ eol)%string in
  In line [line]
  /\ starts_blank line = true
  /\ first_token line = EmptyString
  /\ py_int EmptyString = None
  /\ aborted (run (P := utc) [line]).
Proof.
  split; [left; reflexivity|]. split; [reflexivity|].
  apply (leading_blank_aborts (P := utc) [(" 2000 1.0" ++ eol)%string]
           (" 2000 1.0" ++ eol)%string); [left; reflexivity|reflexivity].
Defined.

(** * Further properties of [convert-frame.py] *)

(** ** White space *)

Lemma rstrip_blank w : blank w = true -> rstrip w = EmptyString.
Proof.
  induction w as [|c w IH]; simpl; [reflexivity|].
  intros H. apply andb_true_iff in H as [Hc Hw].
  now rewrite (IH Hw), Hc.
Qed.

Lemma rstrip_append_blank s w :
  blank w = true -> rstrip (s ++ w) = rstrip s.
Proof.
  intros Hw. induction s as [|c s IH]; simpl.
  - now apply rstrip_blank.
  - now rewrite IH.
Qed.

Lemma rstrip_decompose s :
  exists w, s = (rstrip s ++ w)%string /\ blank w = true.
Proof.
  induction s as [|c s (w & Hs & Hw)].
  - exists EmptyString. split; reflexivity.
  - simpl. destruct (rstrip s) as [|c' r] eqn:E.
    + destruct (isspace c) eqn:Hc.
      * exists (String c w). simpl in *. split; [now f_equal|].
        now rewrite Hc.
      * exists w. simpl in *. split; [now f_equal|assumption].
    + exists w. split; [|assumption]. simpl. f_equal. exact Hs.
Qed.

Lemma rstrip_not_ends_blank s : ends_blank (rstrip s) = false.
Proof.
  induction s as [|c s IH]; simpl; [reflexivity|].
  destruct (rstrip s) as [|c' r] eqn:E.
  - destruct (isspace c) eqn:Hc; simpl; [reflexivity|exact Hc].
  - exact IH.
Qed.

Lemma rstrip_fixed r : ends_blank r = false -> rstrip r = r.
Proof.
  induction r as [|c r IH]; simpl; [reflexivity|].
  destruct r as [|c' r'].
  - intros ->. reflexivity.
  - intros H. rewrite (IH H). reflexivity.
Qed.

(** [r] is [s.rstrip()] exactly when [s] is [r] followed by white
    space only and [r] does not end in white space. *)
Lemma rstrip_spec (s r : string) :
  rstrip s = r
  <-> (exists w, s = (r ++ w)%string /\ blank w = true)
      /\ ends_blank r = false.
Proof.
  split.
  - intros <-. split; [apply rstrip_decompose|apply rstrip_not_ends_blank].
  - intros [(w & -> & Hw) Hr].
    rewrite rstrip_append_blank by assumption. now apply rstrip_fixed.
Qed.

(** ** Tokens *)

Lemma split_from_no_space s : forall prev,
  no_space (fst (re.split_from prev s)) = true
  /\ forallb no_space (snd (re.split_from prev s)) = true.
Proof.
  induction s as [|c s IH]; intros prev; simpl; [auto|].
  destruct (IH (isspace c)) as [H1 H2].
  destruct (re.split_from (isspace c) s) as [tok rest]. simpl in *.
  destruct (isspace c) eqn:Hc.
  - destruct prev; simpl; [auto|]. now rewrite H1, H2.
  - simpl. now rewrite Hc, H1, H2.
Qed.

Lemma split_from_nonempty s : forall prev,
  ends_blank s = false ->
  forallb nonempty (snd (re.split_from prev s)) = true
  /\ (prev = true -> s <> EmptyString ->
      nonempty (fst (re.split_from prev s)) = true).
Proof.
  induction s as [|c s IH]; intros prev He; [simpl; auto|].
  cbn [re.split_from].
  destruct s as [|c' s'].
  - simpl in He. simpl. rewrite He. simpl. auto.
  - assert (He' : ends_blank (String c' s') = false) by exact He.
    destruct (IH (isspace c) He') as [H1 H2].
    destruct (re.split_from (isspace c) (String c' s')) as [tok rest].
    simpl in H1, H2.
    destruct (isspace c) eqn:Hc.
    + assert (Ht : nonempty tok = true) by (apply H2; congruence).
      destruct prev; simpl; [auto|]. rewrite Ht, H1. auto.
    + simpl. auto.
Qed.

(** X1: the tokens of a row.  Whatever the line, no token of
    [re.split('\s+', line.rstrip())] holds white space, and none but
    the first is empty: every value token has a character at least. *)
Theorem tokens_are_words (line : string) :
  forallb no_space (tokens_of line) = true
  /\ forallb nonempty (value_tokens line) = true.
Proof.
  unfold value_tokens, tokens_of, re.split.
  pose proof (split_from_no_space (rstrip line) false) as [H1 H2].
  pose proof (split_from_nonempty (rstrip line) false
                (rstrip_not_ends_blank line)) as [H3 _].
  destruct (re.split_from false (rstrip line)) as [tok rest].
  simpl in *. now rewrite H1, H2, H3.
Qed.

Lemma split_from_word tok s : forall prev,
  no_space tok = true -> tok <> EmptyString ->
  re.split_from prev (tok ++ s)
  = (tok ++ fst (re.split_from false s), snd (re.split_from false s))%string.
Proof.
  induction tok as [|c tok IH]; intros prev Hn Hne; [congruence|].
  simpl in Hn. apply andb_true_iff in Hn as [Hc Hn].
  apply negb_true_iff in Hc.
  cbn [append re.split_from]. rewrite Hc.
  destruct tok as [|c' tok'].
  - cbn [append]. now destruct (re.split_from false s).
  - rewrite (IH false Hn) by congruence. reflexivity.
Qed.

Lemma split_from_word0 tok s :
  no_space tok = true ->
  re.split_from false (tok ++ s)
  = (tok ++ fst (re.split_from false s), snd (re.split_from false s))%string.
Proof.
  intros Hn. destruct tok as [|c tok].
  - cbn [append]. now destruct (re.split_from false s).
  - apply split_from_word; [exact Hn|congruence].
Qed.

Lemma split_from_gap sep s :
  blank sep = true ->
  re.split_from true (sep ++ s) = re.split_from true s.
Proof.
  induction sep as [|c sep IH]; intros Hb; [reflexivity|].
  simpl in Hb. apply andb_true_iff in Hb as [Hc Hb].
  cbn [append re.split_from]. rewrite Hc, (IH Hb).
  now destruct (re.split_from true s).
Qed.

Lemma split_from_separator sep s :
  blank sep = true -> sep <> EmptyString ->
  re.split_from false (sep ++ s)
  = (EmptyString,
     fst (re.split_from true s) :: snd (re.split_from true s)).
Proof.
  intros Hb Hne. destruct sep as [|c sep]; [congruence|].
  simpl in Hb. apply andb_true_iff in Hb as [Hc Hb].
  cbn [append re.split_from]. rewrite Hc, (split_from_gap sep s Hb).
  now destruct (re.split_from true s).
Qed.

Lemma nonempty_neq s : nonempty s = true -> s <> EmptyString.
Proof. now destruct s. Qed.

Lemma append_empty_r s : (s ++ EmptyString)%string = s.
Proof. induction s; simpl; [|rewrite IHs]; reflexivity. Qed.

Lemma split_from_join more : forall tok,
  no_space tok = true ->
  forallb separated more = true ->
  re.split_from false (join tok more) = (tok, map snd more).
Proof.
  induction more as [|[sep tok'] more IH]; intros tok Hn Hm.
  - simpl. rewrite <- (append_empty_r tok) at 1.
    rewrite split_from_word0 by assumption. simpl.
    now rewrite append_empty_r.
  - cbn [join forallb] in *. apply andb_true_iff in Hm as [Hs Hm].
    unfold separated in Hs. cbn [fst snd] in Hs.
    apply andb_true_iff in Hs as [Hs Hne'].
    apply andb_true_iff in Hs as [Hs Hn'].
    apply andb_true_iff in Hs as [Hb Hne].
    rewrite split_from_word0 by assumption.
    rewrite split_from_separator by (auto using nonempty_neq).
    cbn [fst snd].
    assert (E : re.split_from true (join tok' more)
                = (tok', map snd more)).
    { destruct more as [|[sep2 tok2] more2].
      - cbn [join]. rewrite <- (append_empty_r tok') at 1.
        rewrite split_from_word by (auto using nonempty_neq).
        simpl. now rewrite append_empty_r.
      - specialize (IH tok' Hn' Hm). cbn [join] in *.
        rewrite split_from_word by (auto using nonempty_neq).
        rewrite split_from_word0 in IH by assumption. exact IH. }
    rewrite E. cbn [fst snd map]. now rewrite append_empty_r.
Qed.

Lemma re_split_join (tok : string) (more : list (string * string)) :
  no_space tok = true ->
  forallb separated more = true ->
  re.split (join tok more) = tok :: map snd more.
Proof.
  intros Hn Hm. unfold re.split.
  now rewrite (split_from_join more tok Hn Hm).
Qed.

Lemma no_space_ends_blank s : no_space s = true -> ends_blank s = false.
Proof.
  induction s as [|c s IH]; [reflexivity|]. cbn [no_space]. intros H.
  apply andb_true_iff in H as [Hc Hs]. apply negb_true_iff in Hc.
  cbn [ends_blank]. destruct s; [exact Hc|exact (IH Hs)].
Qed.

Lemma ends_blank_append a b :
  nonempty b = true -> ends_blank (a ++ b) = ends_blank b.
Proof.
  intros Hb. induction a as [|c a IH]; [reflexivity|].
  cbn [append ends_blank]. destruct (a ++ b)%string eqn:E; [|exact IH].
  destruct a; [|discriminate]. cbn [append] in E. now subst b.
Qed.

Lemma nonempty_append a b : nonempty a = true -> nonempty (a ++ b) = true.
Proof. destruct a; [discriminate|reflexivity]. Qed.

Lemma nonempty_join tok more :
  nonempty tok = true -> nonempty (join tok more) = true.
Proof.
  intros H. destruct more as [|[sep tok'] more]; [exact H|].
  cbn [join]. now apply nonempty_append.
Qed.

Lemma ends_blank_join more :
  forall tok,
    no_space tok = true -> forallb separated more = true ->
    ends_blank (join tok more) = false.
Proof.
  induction more as [|[sep tok'] more IH]; intros tok Hn Hm.
  - now apply no_space_ends_blank.
  - cbn [forallb] in Hm. apply andb_true_iff in Hm as [Hs Hm].
    unfold separated in Hs. cbn [fst snd] in Hs.
    apply andb_true_iff in Hs as [Hs Hne'].
    apply andb_true_iff in Hs as [Hs Hn'].
    apply andb_true_iff in Hs as [Hb Hnes].
    cbn [join].
    assert (Hj : nonempty (join tok' more) = true)
      by now apply nonempty_join.
    rewrite ends_blank_append by now apply nonempty_append.
    rewrite ends_blank_append by exact Hj.
    now apply IH.
Qed.

(** X2: the tokens of a written row.  A row written as words one after
    the other, with any run of white space between two of them and any
    white space after the last (the end of the line, a carriage
    return, blanks), has exactly these words as its tokens, however
    long the runs and whichever white space they are made of; the
    first word may be empty, and is then the empty first token. *)
Theorem tokens_of_written_row (tok : string)
    (more : list (string * string)) (w : string) :
  no_space tok = true ->
  forallb separated more = true ->
  blank w = true ->
  tokens_of (join tok more ++ w) = tok :: map snd more.
Proof.
  intros Hn Hm Hw. unfold tokens_of.
  rewrite rstrip_append_blank by exact Hw.
  rewrite rstrip_fixed by now apply ends_blank_join.
  now apply re_split_join.
Qed.

(** ** Month labels *)

Lemma strptime_inv s d :
  datetime.strptime s = Some d ->
  exists a b c e rest m,
    s = String a (String b (String c (String e (String "-" rest))))
    /\ isdigit a && isdigit b && isdigit c && isdigit e = true
    /\ datetime.match_m rest = Some (m, EmptyString)
    /\ d = datetime.mk (1000 * datetime.digit_Z a + 100 * datetime.digit_Z b
                        + 10 * datetime.digit_Z c + datetime.digit_Z e)%Z
                       m 1 0 0 0.
Proof.
  unfold datetime.strptime.
  destruct s as [|a [|b [|c [|e [|sep rest]]]]]; try discriminate.
  destruct (isdigit a && isdigit b && isdigit c && isdigit e
            && Ascii.eqb sep "-") eqn:Hc; [|discriminate].
  apply andb_true_iff in Hc as [Hd Hs]. apply Ascii.eqb_eq in Hs. subst sep.
  destruct (datetime.match_m rest) as [[m [|x r]]|] eqn:Hm; try discriminate.
  destruct (1 <=? _)%Z; [|discriminate].
  intros [= <-]. exists a, b, c, e, rest, m. auto.
Qed.

Lemma digits_then_dash s f a b c e rest :
  all_digits s = true ->
  (s ++ String "-" f)%string
  = String a (String b (String c (String e (String "-" rest)))) ->
  isdigit a && isdigit b && isdigit c && isdigit e = true ->
  s = String a (String b (String c (String e EmptyString))) /\ f = rest.
Proof.
  intros Hs E Hd.
  apply andb_true_iff in Hd as [Hd He].
  apply andb_true_iff in Hd as [Hd Hc].
  apply andb_true_iff in Hd as [Ha Hb].
  assert (Hdash : isdigit "-" = false) by reflexivity.
  destruct s as [|x1 [|x2 [|x3 [|x4 [|x5 s]]]]]; cbn [append] in E;
    injection E as; subst; try congruence.
  - split; reflexivity.
  - cbn [all_digits] in Hs. rewrite Hdash in Hs. cbn [andb] in Hs.
    rewrite !andb_false_r in Hs. discriminate.
Qed.

Lemma py_str_digits_nonneg y s :
  py_str y = s -> all_digits s = true -> (0 <= y)%Z.
Proof.
  unfold py_str. destruct y as [|p|p]; try lia.
  cbn [Z.to_int NilEmpty.string_of_int]. intros <-. discriminate.
Qed.

(** A year that prints as four digits is a year from 1000 to 9999. *)
Lemma digits_value_4 a b c e na nb nc ne :
  digit_value a = Some na -> digit_value b = Some nb ->
  digit_value c = Some nc -> digit_value e = Some ne ->
  digits_value 0 (String a (String b (String c (String e EmptyString))))
  = Some (1000 * na + 100 * nb + 10 * nc + ne)%N.
Proof.
  intros Ha Hb Hc He. cbn [digits_value]. rewrite Ha, Hb, Hc, He.
  f_equal. lia.
Qed.

Lemma py_str_four_inv y a b c e :
  py_str y = String a (String b (String c (String e EmptyString))) ->
  isdigit a && isdigit b && isdigit c && isdigit e = true ->
  (1000 <= y <= 9999)%Z
  /\ y = (1000 * datetime.digit_Z a + 100 * datetime.digit_Z b
          + 10 * datetime.digit_Z c + datetime.digit_Z e)%Z.
Proof.
  intros Es Hd.
  apply andb_true_iff in Hd as [Hd De].
  apply andb_true_iff in Hd as [Hd Dc].
  apply andb_true_iff in Hd as [Da Db].
  assert (Hall : all_digits
                   (String a (String b (String c (String e EmptyString))))
                 = true).
  { cbn [all_digits]. now rewrite Da, Db, Dc, De. }
  pose proof (py_int_str y) as Hi. rewrite Es in Hi.
  assert (Hy : (0 <= y)%Z) by exact (py_str_digits_nonneg y _ Es Hall).
  assert (Ha : a <> "0"%char).
  { intros ->. unfold py_str in Es. destruct y as [|p|p]; try discriminate.
    cbn [Z.to_int NilEmpty.string_of_int] in Es.
    destruct (Pos.to_uint p) eqn:Eu; try discriminate.
    now apply to_uint_no_leading_zero in Eu. }
  assert (Hv : forall x, isdigit x = true ->
                 digit_value x = Some (Z.to_N (datetime.digit_Z x))
                 /\ (0 <= datetime.digit_Z x <= 9)%Z
                 /\ (datetime.digit_Z x = 0%Z -> x = "0"%char)).
  { intros x Hx. unfold digit_value, datetime.digit_Z. rewrite Hx.
    unfold isdigit in Hx. apply andb_true_iff in Hx as [H1 H2].
    apply Nat.leb_le in H1, H2. repeat split; try lia.
    - f_equal. lia.
    - intros Hz. assert (nat_of_ascii x = 48%nat) as E by lia.
      rewrite <- (ascii_nat_embedding x), E. reflexivity. }
  destruct (Hv a Da) as (Va & Ba & Za).
  destruct (Hv b Db) as (Vb & Bb & _).
  destruct (Hv c Dc) as (Vc & Bc & _).
  destruct (Hv e De) as (Ve & Be & _).
  unfold py_int in Hi. rewrite (strip_digits _ Hall) in Hi.
  destruct (isdigit_not_sign a Da) as [Hm Hp]. rewrite Hm, Hp in Hi.
  unfold parse_digits in Hi.
  rewrite (digits_value_4 _ _ _ _ _ _ _ _ Va Vb Vc Ve) in Hi.
  cbn [option_map] in Hi.
  assert (Hval : Z.of_N (1000 * Z.to_N (datetime.digit_Z a)
                         + 100 * Z.to_N (datetime.digit_Z b)
                         + 10 * Z.to_N (datetime.digit_Z c)
                         + Z.to_N (datetime.digit_Z e)) = y) by congruence.
  assert (datetime.digit_Z a <> 0)%Z by (intros Hz; auto).
  lia.
Qed.

Lemma digits_value_bound s : forall acc r,
  digits_value acc s = Some r ->
  (r < (acc + 1) * 10 ^ N.of_nat (String.length s))%N.
Proof.
  induction s as [|c s IH]; intros acc r; simpl String.length.
  - simpl. intros [= <-]. lia.
  - cbn [digits_value]. unfold digit_value.
    destruct (isdigit c) eqn:Hc; [|discriminate].
    intros H. apply IH in H.
    unfold isdigit in Hc. apply andb_true_iff in Hc as [H1 H2].
    apply Nat.leb_le in H1, H2.
    rewrite Nat2N.inj_succ, N.pow_succ_r'.
    set (q := (10 ^ N.of_nat (String.length s))%N) in *.
    assert (10 * acc + N.of_nat (nat_of_ascii c - 48) + 1
            <= 10 * (acc + 1))%N by lia.
    nia.
Qed.

Lemma py_str_short k :
  (String.length (py_str k) <= 2)%nat -> (-9 <= k <= 99)%Z.
Proof.
  unfold py_str. destruct k as [|p|p]; [lia| |];
    cbn [Z.to_int NilEmpty.string_of_int]; intros Hl.
  - pose proof (parse_digits_pos p) as Hp. unfold parse_digits in Hp.
    destruct (NilEmpty.string_of_uint (Pos.to_uint p)) as [|c s] eqn:E;
      [discriminate|].
    apply digits_value_bound in Hp.
    assert (10 ^ N.of_nat (String.length (String c s)) <= 10 ^ 2)%N
      by (apply N.pow_le_mono_r; lia).
    lia.
  - simpl in Hl.
    pose proof (parse_digits_pos p) as Hp. unfold parse_digits in Hp.
    destruct (NilEmpty.string_of_uint (Pos.to_uint p)) as [|c s] eqn:E;
      [discriminate|].
    apply digits_value_bound in Hp.
    assert (10 ^ N.of_nat (String.length (String c s)) <= 10 ^ 1)%N
      by (apply N.pow_le_mono_r; lia).
    lia.
Qed.

Lemma month_out_of_range_all :
  forallb (fun k => negb (month_whole (Z.of_nat k - 9)%Z)) (seq 0 10)
  && forallb (fun k => negb (month_whole (Z.of_nat k))) (seq 13 87) = true.
Proof. reflexivity. Qed.

Lemma month_whole_range k : month_whole k = true -> (1 <= k <= 12)%Z.
Proof.
  intros Hm.
  assert (Hl : (String.length (format_02d k) <= 2)%nat).
  { unfold month_whole in Hm.
    destruct (datetime.match_m (format_02d k)) as [[m [|x r]]|] eqn:E;
      try discriminate.
    now apply match_m_all in E. }
  assert (Hk : (-9 <= k <= 99)%Z).
  { apply py_str_short. unfold format_02d in Hl.
    destruct (String.length (py_str k) <? 2)%nat eqn:E; [|exact Hl].
    apply Nat.ltb_lt in E. lia. }
  pose proof month_out_of_range_all as H.
  apply andb_true_iff in H as [H1 H2].
  rewrite forallb_forall in H1, H2.
  destruct (Z.le_gt_cases k 0) as [Hle|Hgt].
  - specialize (H1 (Z.to_nat (k + 9))).
    replace (Z.of_nat (Z.to_nat (k + 9)) - 9)%Z with k in H1 by lia.
    rewrite Hm in H1. discriminate H1. apply in_seq. lia.
  - destruct (Z.le_gt_cases k 12) as [|Hgt2]; [lia|].
    specialize (H2 (Z.to_nat k)). rewrite Z2Nat.id in H2 by lia.
    rewrite Hm in H2. discriminate H2. apply in_seq. lia.
Qed.

Lemma strptime_label_inv (y k : Z) (d : datetime.t) :
  datetime.strptime (format_month y k) = Some d ->
  (1000 <= y <= 9999)%Z /\ (1 <= k <= 12)%Z /\ d = first_of_month y k.
Proof.
  intros H. apply strptime_inv in H
    as (a & b & c & e & rest & m & Es & Hd & Hm & ->).
  unfold format_month in Es.
  assert (Hy : py_str y = String a (String b (String c (String e EmptyString)))
               /\ format_02d k = rest).
  { unfold py_str in *. destruct y as [|p|p];
      cbn [Z.to_int NilEmpty.string_of_int] in *.
    - injection Es as <- <-. discriminate.
    - exact (digits_then_dash _ _ _ _ _ _ _
               (string_of_uint_digits (Pos.to_uint p)) Es Hd).
    - cbn [append] in Es. injection Es as <-. discriminate. }
  destruct Hy as [Ey Ek]. subst rest.
  destruct (py_str_four_inv y a b c e Ey Hd) as [Hr <-].
  assert (Hk : (1 <= k <= 12)%Z).
  { apply month_whole_range. unfold month_whole. now rewrite Hm. }
  pose proof (month_check_ok k Hk) as Hc. unfold month_check in Hc.
  rewrite Hm in Hc. apply Z.eqb_eq in Hc. subst m.
  split; [exact Hr|]. split; [exact Hk|]. reflexivity.
Qed.

(** X3: the month label and its date.  The label
    ['{0}-{1:02d}'.format(year, i)] reads back with ['%Y-%m'] exactly
    when the year has four digits (1000 to 9999) and the month is one
    of the twelve, and then as midnight on the first of that month. *)
Theorem label_reads_back (y k : Z) (d : datetime.t) :
  datetime.strptime (format_month y k) = Some d
  <-> (1000 <= y <= 9999)%Z /\ (1 <= k <= 12)%Z /\ d = first_of_month y k.
Proof.
  split.
  - apply strptime_label_inv.
  - intros (Hy & Hk & ->). now apply strptime_format_month.
Qed.

(** ** The run, row by row *)

Section MoreRuns.
Context {P : Platform}.

(** [lambda x: int(x.strftime("%s"))] raises [ValueError] on a date
    before 1900 and otherwise returns the epoch second of [x] on the
    local clock: the decimal text that [strftime] writes always reads
    back with [int]. *)
Lemma epoch_eq (x : datetime.t) (st : state) :
  epoch x st
  = (if (datetime.year x <? 1900)%Z then Raise ValueError
     else Ok (datetime.mktime x), st).
Proof.
  unfold epoch, bind, datetime.strftime_s.
  destruct (datetime.year x <? 1900)%Z; [reflexivity|].
  cbn [value_or_error ret]. now rewrite py_int_str.
Qed.

Lemma only_bind {A B} (c : M A) (k : A -> M B) :
  value_errors_only c -> (forall a, value_errors_only (k a)) ->
  value_errors_only (bind c k).
Proof.
  intros Hc Hk st e st'. unfold bind.
  destruct (c st) as [[a|e0] st0] eqn:E.
  - apply Hk.
  - intros [= <- <-]. exact (Hc _ _ _ E).
Qed.

Lemma only_value_or_error {A} (o : option A) :
  value_errors_only (value_or_error o).
Proof. intros st e st'. destruct o; simpl; unfold ret, raise; congruence. Qed.

Lemma only_for_each {A} (l : list A) body :
  (forall x, In x l -> value_errors_only (body x)) ->
  value_errors_only (for_each l body).
Proof.
  induction l as [|x l IH]; intros Hb.
  - intros st e st'. simpl. unfold ret. congruence.
  - cbn [for_each]. apply only_bind; [apply Hb; now left|].
    intros _. apply IH. intros y Hy. apply Hb. now right.
Qed.

Lemma only_map_epoch l : value_errors_only (map_M epoch l).
Proof.
  induction l as [|x l IH]; cbn [map_M].
  - intros st e st'. unfold ret. congruence.
  - apply only_bind.
    + intros st e st'. rewrite epoch_eq.
      destruct (datetime.year x <? 1900)%Z; congruence.
    + intros z. apply only_bind; [exact IH|].
      intros r st e st'. unfold ret. congruence.
Qed.

Lemma getitem_in_range {A} (l : list A) i st :
  (0 <= i < len l)%Z -> exists a, getitem l i st = (Ok a, st).
Proof.
  intros Hi. unfold getitem.
  destruct (Z.ltb_spec i 0); [exfalso; lia|].
  destruct (Z.ltb_spec i 0); [exfalso; lia|].
  destruct (nth_error l (Z.to_nat i)) as [a|] eqn:E; [now exists a|].
  apply nth_error_None in E. unfold len in Hi. exfalso. lia.
Qed.

Lemma only_sample y tokens i :
  (0 <= i < len tokens)%Z -> value_errors_only (sample y tokens i).
Proof.
  intros Hi st e st'. unfold sample, bind.
  destruct (getitem_in_range tokens i st Hi) as (tok & ->).
  destruct (py_float tok); cbn [value_or_error ret raise]; [|congruence].
  destruct (datetime.strptime (format_month y i));
    cbn [value_or_error ret raise]; [|congruence].
  unfold ts_append, ys_append. congruence.
Qed.

Lemma only_row line : value_errors_only (row line).
Proof.
  intros st e st'. unfold row. fold (tokens_of line). unfold bind at 1.
  rewrite getitem_first. unfold bind at 1.
  destruct (py_int (first_token line)) as [y|];
    cbn [value_or_error ret raise]; [|congruence].
  apply only_for_each. intros i Hi. apply in_xrange in Hi.
  apply only_sample. lia.
Qed.

(** X4: the only exception.  Whatever the input, a run that raises
    raises [ValueError]: no index is ever out of range, since the
    split leaves one token at least and the inner loop stops at the
    last one. *)
Theorem value_error_is_the_only_error (lines : list string) (e : exn)
    (st : state) :
  run lines = (Raise e, st) -> e = ValueError.
Proof.
  unfold run, script. apply only_bind.
  - apply only_for_each. intros line _. apply only_row.
  - intros _. apply only_bind.
    + unfold output. apply only_bind; [intros s e' s'; unfold get_ts; congruence|].
      intros l. apply only_bind; [apply only_map_epoch|].
      intros v. apply only_bind; [intros s e' s'; unfold get_ys; congruence|].
      intros w s e' s'. unfold ret. congruence.
    + intros o s e' s'. unfold print. congruence.
Qed.

(** *** Rows the loop gets through *)

Lemma loop_accepted_inv line :
  loop_accepted line = true ->
  exists y,
    py_int (first_token line) = Some y /\ year_of line = y
    /\ forallb (fun tok => is_some (py_float tok)) (value_tokens line) = true
    /\ (List.length (value_tokens line) <= 12)%nat
    /\ (value_tokens line = [] \/ (1000 <= y <= 9999)%Z).
Proof.
  unfold loop_accepted, well_formed, year_of. intros H.
  apply andb_true_iff in H as [H Hy].
  apply andb_true_iff in H as [H Hn].
  apply andb_true_iff in H as [Hi Hf].
  destruct (py_int (first_token line)) as [y|]; [|discriminate].
  exists y. repeat split; auto.
  - now apply Nat.leb_le.
  - apply orb_true_iff in Hy as [Hy|Hy].
    + left. now destruct (value_tokens line).
    + right. apply andb_true_iff in Hy as [H1 H2]. lia.
Qed.

Lemma row_loop_ok line st :
  loop_accepted line = true ->
  row line st
  = (Ok tt, mkState (ts st ++ dates_of line) (ys st ++ values_of line)
                    (stdout st)).
Proof.
  intros H. destruct (loop_accepted_inv line H)
    as (y & Hy & Ey & Hf & Hn & Hr).
  unfold row, dates_of, months_of, values_of. fold (tokens_of line).
  rewrite Ey. unfold bind at 1. rewrite getitem_first.
  unfold bind at 1. rewrite Hy. cbn [value_or_error ret].
  rewrite tokens_of_eq.
  apply (inner_ok y (value_tokens line) [first_token line]).
  - now apply values_traverse.
  - intros k Hk. unfold len in Hk. cbn [List.length] in Hk.
    destruct Hr as [Hr|Hr].
    + exfalso. rewrite Hr in Hk. cbn [List.length] in Hk. lia.
    + apply strptime_format_month; lia.
Qed.

Lemma convert_loop_ok lines : forall st,
  forallb loop_accepted lines = true ->
  convert lines st
  = (Ok tt, mkState (ts st ++ flat_map dates_of lines)
                    (ys st ++ flat_map values_of lines) (stdout st)).
Proof.
  unfold convert.
  induction lines as [|line lines IH]; intros st H.
  - simpl. rewrite !app_nil_r. now destruct st.
  - simpl in H. apply andb_true_iff in H as [H1 H2].
    cbn [for_each flat_map]. unfold bind. rewrite (row_loop_ok line st H1).
    rewrite (IH _ H2). cbn [ts ys stdout]. now rewrite <- !app_assoc.
Qed.

Lemma row_raises_label line y :
  py_int (first_token line) = Some y ->
  value_tokens line <> [] ->
  datetime.strptime (format_month y 1) = None ->
  raises (row line).
Proof.
  intros Hy Hv Hl st. unfold row. fold (tokens_of line).
  unfold bind at 1. rewrite getitem_first.
  unfold bind at 1. rewrite Hy. cbn [value_or_error ret].
  apply (for_each_raises _ _ 1%Z).
  - apply in_xrange. rewrite len_tokens_of.
    destruct (value_tokens line); [congruence|]. cbn [List.length]. lia.
  - intros s. unfold sample, bind.
    destruct (getitem (tokens_of line) 1 s) as [[tok|e] s1]; [|eauto].
    destruct (py_float tok); cbn [value_or_error ret raise]; [|eauto].
    rewrite Hl. cbn [value_or_error raise]. eauto.
Qed.

Lemma not_loop_accepted_raises line :
  loop_accepted line = false -> raises (row line).
Proof.
  unfold loop_accepted, well_formed. intros H.
  destruct (py_int (first_token line)) as [y|] eqn:Ey;
    [|now apply row_raises_int].
  destruct (forallb (fun tok => is_some (py_float tok)) (value_tokens line))
    eqn:Ef.
  - destruct (Nat.leb_spec (List.length (value_tokens line)) 12) as [Hn|Hn].
    + cbn [is_some andb] in H. apply orb_false_iff in H as [Hv Hr].
      unfold year_of in Hr. rewrite Ey in Hr.
      apply (row_raises_label line y Ey).
      * intros E. now rewrite E in Hv.
      * destruct (datetime.strptime (format_month y 1)) as [d|] eqn:El;
          [|reflexivity].
        apply strptime_label_inv in El as (Hy & _).
        apply andb_false_iff in Hr as [Hr|Hr];
          [apply Z.leb_gt in Hr|apply Z.leb_gt in Hr]; lia.
    + apply (row_raises_sample line 13).
      * rewrite len_tokens_of. lia.
      * intros y'. apply sample_raises_13.
  - apply malformed_raises. unfold malformed. apply orb_true_iff. right.
    apply existsb_exists.
    assert (Hex : exists tok, In tok (value_tokens line)
                              /\ is_some (py_float tok) = false).
    { clear -Ef. induction (value_tokens line) as [|tok l IH];
        [discriminate|].
      simpl in Ef. apply andb_false_iff in Ef as [Ef|Ef].
      - exists tok. split; [now left|exact Ef].
      - destruct (IH Ef) as (t' & Hin & Ht). exists t'. split; [now right|exact Ht]. }
    destruct Hex as (tok & Hin & Ht). exists tok. split; [exact Hin|].
    now rewrite Ht.
Qed.

Lemma raises_not_ok {A} (c : M A) st a st' :
  raises c -> c st = (Ok a, st') -> False.
Proof. intros Hr E. destruct (Hr st) as (e & s & E'). congruence. Qed.

Lemma convert_ok_inv lines st st' :
  convert lines st = (Ok tt, st') -> forallb loop_accepted lines = true.
Proof.
  intros E. apply forallb_forall. intros line Hin.
  destruct (loop_accepted line) eqn:Ha; [reflexivity|].
  exfalso. apply (raises_not_ok (convert lines) st tt st'); [|exact E].
  apply (for_each_raises lines row line Hin).
  now apply not_loop_accepted_raises.
Qed.

Lemma map_epoch_raises l x st :
  In x l -> (datetime.year x < 1900)%Z ->
  map_M epoch l st = (Raise ValueError, st).
Proof.
  intros Hin Hx. induction l as [|d l IH]; [contradiction|].
  cbn [map_M]. unfold bind at 1. rewrite epoch_eq.
  destruct (Z.ltb_spec (datetime.year d) 1900) as [Hd|Hd]; [reflexivity|].
  destruct Hin as [->|Hin]; [exfalso; lia|].
  unfold bind. now rewrite (IH Hin).
Qed.

Lemma first_date_in line :
  value_tokens line <> [] ->
  In (first_of_month (year_of line) 1) (dates_of line).
Proof.
  intros Hv. unfold dates_of, months_of. apply in_map, in_xrange.
  rewrite len_tokens_of. destruct (value_tokens line); [congruence|].
  cbn [List.length]. lia.
Qed.

(** A row of before 1900 lets the loop end and stops the run at the
    output. *)
Lemma before_1900_run lines :
  forallb loop_accepted lines = true ->
  existsb before_1900 lines = true ->
  run lines
  = (Raise ValueError,
     mkState (flat_map dates_of lines) (flat_map values_of lines)
             EmptyString).
Proof.
  intros Ha Hb. unfold run, script, bind.
  rewrite (convert_loop_ok lines initial Ha). cbn [initial ts ys stdout app].
  apply existsb_exists in Hb as (line & Hin & Hb).
  unfold before_1900 in Hb. apply andb_true_iff in Hb as [Hv Hy].
  apply Z.ltb_lt in Hy.
  unfold output, bind, get_ts. cbn [ts].
  rewrite (map_epoch_raises _ (first_of_month (year_of line) 1)).
  - reflexivity.
  - apply in_flat_map. exists line. split; [exact Hin|].
    apply first_date_in. intros E. now rewrite E in Hv.
  - exact Hy.
Qed.

Lemma accepted_split line :
  accepted line = loop_accepted line && negb (before_1900 line).
Proof.
  unfold accepted, loop_accepted, before_1900.
  destruct (well_formed line); [|reflexivity]. cbn [andb].
  destruct (value_tokens line); [reflexivity|]. cbn [orb andb].
  destruct (Z.leb_spec 1900 (year_of line)), (Z.leb_spec 1000 (year_of line)),
    (Z.ltb_spec (year_of line) 1900); cbn; try reflexivity; lia.
Qed.

Lemma run_ok_inv lines :
  fst (run lines) = Ok tt -> forallb accepted lines = true.
Proof.
  intros E.
  assert (Hl : forallb loop_accepted lines = true).
  { unfold run, script, bind in E.
    destruct (convert lines initial) as [[[]|e] st] eqn:Ec; [|discriminate].
    exact (convert_ok_inv _ _ _ Ec). }
  destruct (existsb before_1900 lines) eqn:Hb.
  - rewrite (before_1900_run lines Hl Hb) in E. discriminate.
  - apply forallb_forall. intros line Hin. rewrite accepted_split.
    rewrite forallb_forall in Hl. rewrite (Hl line Hin). cbn [andb].
    destruct (before_1900 line) eqn:Hx; [|reflexivity].
    assert (existsb before_1900 lines = true)
      by (apply existsb_exists; eauto).
    congruence.
Qed.

(** X5: the inputs the script converts.  The run ends normally if and
    only if every row is accepted: an integer first token, at most
    twelve tokens after it that all read as floats and, on a row that
    has values, a year from 1900 to 9999.  On any other input it
    raises and prints nothing. *)
Theorem converts_exactly_accepted_input (lines : list string) :
  (fst (run lines) = Ok tt <-> forallb accepted lines = true)
  /\ (forallb accepted lines = false -> aborted (run lines)).
Proof.
  assert (Hiff : fst (run lines) = Ok tt <-> forallb accepted lines = true).
  { split; [apply run_ok_inv|]. intros H. now rewrite (run_ok lines H). }
  split; [exact Hiff|]. intros Hf.
  destruct (run lines) as [[[]|e] st] eqn:E.
  - exfalso. assert (forallb accepted lines = true) by now apply Hiff.
    congruence.
  - split; [now exists e|]. exact (run_raise_silent lines e st E).
Qed.

(** X6: years before 1900.  When every row gets through the loop (four
    digit years) but some row with values is dated before 1900, the
    whole input is read and every sample collected, and only then does
    the run raise [ValueError], at the conversion to epoch seconds;
    nothing is printed. *)
Theorem before_1900_fails_at_output (lines : list string) :
  forallb loop_accepted lines = true ->
  existsb before_1900 lines = true ->
  convert lines initial
  = (Ok tt, mkState (flat_map dates_of lines) (flat_map values_of lines)
                    EmptyString)
  /\ run lines
     = (Raise ValueError,
        mkState (flat_map dates_of lines) (flat_map values_of lines)
                EmptyString).
Proof.
  intros Ha Hb. split; [|now apply before_1900_run].
  now rewrite (convert_loop_ok lines initial Ha).
Qed.

Lemma row_rstrip l l' : rstrip l = rstrip l' -> row l = row l'.
Proof. intros E. unfold row. now rewrite E. Qed.

Lemma convert_rstrip lines : forall lines',
  map rstrip lines = map rstrip lines' -> convert lines = convert lines'.
Proof.
  unfold convert.
  induction lines as [|l lines IH]; intros [|l' lines'] E;
    try discriminate; [reflexivity|].
  injection E as E1 E2. cbn [for_each].
  now rewrite (row_rstrip l l' E1), (IH lines' E2).
Qed.

(** X7: trailing white space.  The run reads a line through [rstrip]
    only: two inputs whose lines are the same once their trailing
    white space is dropped (a final line feed or not, CR LF line ends,
    trailing blanks) give the same run, the same output and the same
    arrays. *)
Theorem trailing_white_space_is_ignored (lines lines' : list string) :
  map rstrip lines = map rstrip lines' ->
  run lines = run lines'
  /\ out_ts lines = out_ts lines'
  /\ out_ys lines = out_ys lines'.
Proof.
  intros E. unfold run, script, out_ts, out_ys, output_of.
  now rewrite (convert_rstrip lines lines' E).
Qed.

Lemma year_only_accepted line : year_only line = true -> accepted line = true.
Proof.
  unfold year_only, accepted, well_formed. intros H.
  apply andb_true_iff in H as [Hi Hv]. rewrite Hi.
  destruct (value_tokens line); [reflexivity|discriminate].
Qed.

Lemma year_only_nothing lines :
  forallb year_only lines = true ->
  flat_map times_of lines = [] /\ flat_map values_of lines = []
  /\ flat_map dates_of lines = [].
Proof.
  induction lines as [|line lines IH]; [auto|].
  simpl. intros H. apply andb_true_iff in H as [H1 H2].
  destruct (IH H2) as (-> & -> & ->).
  unfold year_only in H1. apply andb_true_iff in H1 as [_ Hv].
  unfold times_of, values_of, dates_of, months_of.
  rewrite len_tokens_of.
  destruct (value_tokens line); [|discriminate]. auto.
Qed.

(** X8: no value at all.  An input without a single value token, be
    it empty or made of rows that are an integer and nothing else,
    converts normally to the document of two empty arrays. *)
Theorem no_value_gives_empty_arrays (lines : list string) :
  forallb year_only lines = true ->
  run lines
  = (Ok tt,
     mkState [] []
       (json.dumps (dict (json.Array []) (json.Array [])) ++ eol)%string)
  /\ out_ts lines = Some [] /\ out_ys lines = Some [].
Proof.
  intros H.
  assert (Ha : forallb accepted lines = true).
  { apply forallb_forall. intros line Hin. apply year_only_accepted.
    rewrite forallb_forall in H. auto. }
  destruct (year_only_nothing lines H) as (Et & Ev & Ed).
  rewrite (run_ok lines Ha), (out_ts_ok lines Ha), (out_ys_ok lines Ha).
  rewrite Et, Ev, Ed. auto.
Qed.

(** X9: inputs one after the other.  When the runs on two inputs end
    normally, so does the run on the first followed by the second, and
    its arrays are the arrays of the first followed by those of the
    second. *)
Theorem arrays_of_concatenation (lines1 lines2 : list string) :
  fst (run lines1) = Ok tt -> fst (run lines2) = Ok tt ->
  exists a1 b1 a2 b2,
    out_ts lines1 = Some a1 /\ out_ys lines1 = Some b1
    /\ out_ts lines2 = Some a2 /\ out_ys lines2 = Some b2
    /\ fst (run (lines1 ++ lines2)) = Ok tt
    /\ out_ts (lines1 ++ lines2) = Some (a1 ++ a2)
    /\ out_ys (lines1 ++ lines2) = Some (b1 ++ b2).
Proof.
  intros H1 H2. apply run_ok_inv in H1, H2.
  assert (H : forallb accepted (lines1 ++ lines2) = true)
    by (rewrite forallb_app, H1, H2; reflexivity).
  exists (flat_map times_of lines1), (flat_map values_of lines1),
         (flat_map times_of lines2), (flat_map values_of lines2).
  rewrite (out_ts_ok _ H1), (out_ys_ok _ H1), (out_ts_ok _ H2),
    (out_ys_ok _ H2), (out_ts_ok _ H), (out_ys_ok _ H), (run_ok _ H).
  rewrite !flat_map_app. repeat split.
Qed.

(** X10: months in time.  Over the twelve months, the timestamps of
    first-of-month midnights are ordered as (year, month) pairs are,
    in any zone within a day of UTC; in particular two of them are
    equal only for the same month of the same year. *)
Theorem months_order_timestamps (y k y' k' : Z) :
  (1 <= k <= 12)%Z -> (1 <= k' <= 12)%Z ->
  ((t y k < t y' k')%Z <-> (y < y' \/ (y = y' /\ k < k'))%Z)
  /\ (t y k = t y' k' <-> y = y' /\ k = k').
Proof.
  intros Hk Hk'.
  assert (Hlt : forall a b a' b', (1 <= b <= 12)%Z -> (1 <= b' <= 12)%Z ->
                  (a < a' \/ (a = a' /\ b < b'))%Z -> (t a b < t a' b')%Z)
    by (intros; now apply t_lt).
  assert (Hcases : (y < y' \/ (y = y' /\ k < k'))%Z
                   \/ (y = y' /\ k = k')
                   \/ (y' < y \/ (y' = y /\ k' < k))%Z) by lia.
  split; split.
  - intros H. destruct Hcases as [Hc|[[-> ->]|Hc]]; [exact Hc|lia|].
    pose proof (Hlt _ _ _ _ Hk' Hk Hc). lia.
  - now apply Hlt.
  - intros H. destruct Hcases as [Hc|[Hc|Hc]]; [|exact Hc|].
    + pose proof (Hlt _ _ _ _ Hk Hk' Hc). lia.
    + pose proof (Hlt _ _ _ _ Hk' Hk Hc). lia.
  - now intros [-> ->].
Qed.

Lemma year_length y :
  (datetime.days_before_year (y + 1) - datetime.days_before_year y
   = 365 + (if datetime.is_leap y then 1 else 0))%Z.
Proof.
  unfold datetime.days_before_year, datetime.is_leap.
  replace (y + 1 - 1)%Z with y by lia.
  destruct (Z.eqb_spec (y mod 4) 0), (Z.eqb_spec (y mod 100) 0),
    (Z.eqb_spec (y mod 400) 0); cbn [negb andb orb]; lia.
Qed.

Lemma days_before_next_month y k :
  (1 <= k <= 11)%Z ->
  (datetime.days_before_month y (k + 1) - datetime.days_before_month y k
   = days_in_month y k)%Z.
Proof.
  intros Hk. unfold datetime.days_before_month, days_in_month.
  assert (k = 1 \/ k = 2 \/ k = 3 \/ k = 4 \/ k = 5 \/ k = 6 \/ k = 7
          \/ k = 8 \/ k = 9 \/ k = 10 \/ k = 11)%Z as Hc by lia.
  destruct (datetime.is_leap y);
    repeat (destruct Hc as [->|Hc]; [reflexivity|]); subst; reflexivity.
Qed.

Lemma days_before_december y :
  (datetime.days_before_month y 12
   = 334 + (if datetime.is_leap y then 1 else 0))%Z
  /\ datetime.days_before_month (y + 1) 1 = 0%Z.
Proof.
  unfold datetime.days_before_month. split.
  - now destruct (datetime.is_leap y).
  - reflexivity.
Qed.

Lemma wall_next_month y k :
  (1 <= k <= 12)%Z ->
  (datetime.wall_seconds
     (first_of_month (fst (next_month y k)) (snd (next_month y k)))
   - datetime.wall_seconds (first_of_month y k)
   = 86400 * days_in_month y k)%Z.
Proof.
  intros Hk. unfold next_month.
  destruct (Z.eqb_spec k 12) as [->|Hne]; cbn [fst snd];
    unfold datetime.wall_seconds, datetime.toordinal, first_of_month;
    cbn [datetime.year datetime.month datetime.day datetime.hour
         datetime.minute datetime.second].
  - pose proof (year_length y) as Hy.
    destruct (days_before_december y) as [-> ->].
    change (days_in_month y 12) with 31%Z.
    destruct (datetime.is_leap y); lia.
  - pose proof (days_before_next_month y k ltac:(lia)). lia.
Qed.

(** X11: a month apart.  The timestamp of a month and that of the month
    after it (January of the next year after December) differ by the
    length of the month, 28 to 31 days of 86400 seconds, less the
    change of the local offset from UTC between the two midnights. *)
Theorem next_month_is_a_month_later (y k : Z) :
  (1 <= k <= 12)%Z ->
  let d := first_of_month y k in
  let d' := first_of_month (fst (next_month y k)) (snd (next_month y k)) in
  (datetime.mktime d' - datetime.mktime d
   = 86400 * days_in_month y k
     - (utcoffset (datetime.wall_seconds d')
        - utcoffset (datetime.wall_seconds d)))%Z
  /\ (28 <= days_in_month y k <= 31)%Z.
Proof.
  intros Hk d d'. split.
  - unfold datetime.mktime. pose proof (wall_next_month y k Hk) as H.
    fold d d' in H. lia.
  - unfold days_in_month.
    destruct (k =? 2)%Z; [destruct (datetime.is_leap y); lia|].
    destruct (_ || _); lia.
Qed.

End MoreRuns.

(** * Properties of the loader of [plot-series.py] *)

Section LoaderFacts.
Context {P : Platform} {L : plot_series.Library}.
Import plot_series.

Lemma load_dict w path text fields :
  nth_error (argv w) 1 = Some path ->
  read_file w path = Some text ->
  loads text = Some (Dict fields) ->
  load w
  = and_then (or_fail (KeyError "series") (assoc "series" fields))
      (fun series =>
       and_then (or_fail (KeyError "trend") (assoc "trend" fields))
         (fun trend =>
          and_then (or_fail (KeyError "seasonal") (assoc "seasonal" fields))
            (fun seasonal =>
             and_then (or_fail (KeyError "remainder")
                               (assoc "remainder" fields))
               (fun remainder =>
                and_then (or_fail (KeyError "times") (assoc "times" fields))
                  (fun times =>
                   and_then (iterate times)
                     (fun items =>
                      and_then (map_E fromtimestamp items)
                        (fun ts =>
                         Done ((series, trend, seasonal, remainder),
                               ts)))))))).
Proof.
  intros Ha Hf Hl. unfold load, first_argument.
  rewrite Ha. cbn [or_fail and_then]. rewrite Hf. cbn [or_fail and_then].
  rewrite Hl. reflexivity.
Qed.

(** X12: a missing key.  When the document is a dictionary that lacks
    one of [series], [trend], [seasonal], [remainder] and [times], the
    loader raises [KeyError] for the first of them that is missing, in
    that order, whatever else the dictionary holds. *)
Theorem missing_key_is_reported (w : world) (path text : string)
    (fields : list (string * pyvalue)) (k : string) :
  nth_error (argv w) 1 = Some path ->
  read_file w path = Some text ->
  loads text = Some (Dict fields) ->
  first_missing fields = Some k ->
  load w = Failed (KeyError k).
Proof.
  intros Ha Hf Hl Hm. rewrite (load_dict w path text fields Ha Hf Hl).
  unfold first_missing, wanted in Hm. cbn [find] in Hm.
  destruct (assoc "series" fields); cbn [is_some negb] in Hm;
    [|now injection Hm as <-].
  destruct (assoc "trend" fields); cbn [is_some negb] in Hm;
    [|now injection Hm as <-].
  destruct (assoc "seasonal" fields); cbn [is_some negb] in Hm;
    [|now injection Hm as <-].
  destruct (assoc "remainder" fields); cbn [is_some negb] in Hm;
    [|now injection Hm as <-].
  destruct (assoc "times" fields); cbn [is_some negb] in Hm;
    [discriminate|now injection Hm as <-].
Qed.

(** X13: a document that is no dictionary.  When the file parses to
    anything but a dictionary (a list, a number, a string, [null],
    [true]), the loader raises [TypeError] at the first subscript. *)
Theorem not_a_dictionary_is_a_type_error (w : world) (path text : string)
    (data : pyvalue) :
  nth_error (argv w) 1 = Some path ->
  read_file w path = Some text ->
  loads text = Some data ->
  (forall fields, data <> Dict fields) ->
  load w = Failed TypeError.
Proof.
  intros Ha Hf Hl Hd. unfold load, first_argument.
  rewrite Ha. cbn [or_fail and_then]. rewrite Hf. cbn [or_fail and_then].
  rewrite Hl. cbn [or_fail and_then].
  destruct data; try reflexivity. now destruct (Hd fields).
Qed.

Lemma map_E_done {A B} (f : A -> outcome B) l r :
  map_E f l = Done r -> Forall2 (fun x y => f x = Done y) l r.
Proof.
  revert r; induction l as [|x l IH]; intros r; cbn [map_E and_then].
  - intros [= <-]. constructor.
  - destruct (f x) as [y|e] eqn:E; [|discriminate].
    destruct (map_E f l) as [r'|e]; [|discriminate].
    intros [= <-]. constructor; auto.
Qed.

Lemma or_fail_done {A} e (o : option A) a : or_fail e o = Done a -> o = Some a.
Proof. destruct o; simpl; congruence. Qed.

(** X14: what a successful load holds.  When the loader returns, the
    document was a dictionary with the five keys, [ys] is the four
    series exactly as the document has them, in the order series,
    trend, seasonal, remainder, and [ts] has one date for each item of
    [times], in order: the date [fromtimestamp] gives for that item. *)
Theorem load_returns_the_document (w : world)
    (ys : pyvalue * pyvalue * pyvalue * pyvalue) (ts : list moment) :
  load w = Done (ys, ts) ->
  exists path text fields series trend seasonal remainder times items,
    nth_error (argv w) 1 = Some path
    /\ read_file w path = Some text
    /\ loads text = Some (Dict fields)
    /\ assoc "series" fields = Some series
    /\ assoc "trend" fields = Some trend
    /\ assoc "seasonal" fields = Some seasonal
    /\ assoc "remainder" fields = Some remainder
    /\ assoc "times" fields = Some times
    /\ ys = (series, trend, seasonal, remainder)
    /\ iterate times = Done items
    /\ Forall2 (fun x m => fromtimestamp x = Done m) items ts
    /\ List.length ts = List.length items.
Proof.
  unfold load, first_argument.
  destruct (nth_error (argv w) 1) as [path|] eqn:Ha; [|discriminate].
  cbn [or_fail and_then].
  destruct (read_file w path) as [text|] eqn:Hf; [|discriminate].
  cbn [or_fail and_then].
  destruct (loads text) as [data|] eqn:Hl; [|discriminate].
  cbn [or_fail and_then].
  destruct data as [| | | | | |fields]; try discriminate.
  cbn [subscript].
  destruct (assoc "series" fields) as [series|] eqn:E1; [|discriminate].
  destruct (assoc "trend" fields) as [trend|] eqn:E2; [|discriminate].
  destruct (assoc "seasonal" fields) as [seasonal|] eqn:E3; [|discriminate].
  destruct (assoc "remainder" fields) as [remainder|] eqn:E4; [|discriminate].
  destruct (assoc "times" fields) as [times|] eqn:E5; [|discriminate].
  cbn [or_fail and_then].
  destruct (iterate times) as [items|] eqn:Hi; [|discriminate].
  cbn [and_then].
  destruct (map_E fromtimestamp items) as [r|] eqn:Hm; [|discriminate].
  cbn [and_then]. intros [= <- <-].
  apply map_E_done in Hm.
  exists path, text, fields, series, trend, seasonal, remainder, times, items.
  repeat (split; [solve [auto]|]).
  symmetry. exact (Forall2_length Hm).
Qed.

Lemma loaded_dict a b :
  exists fields,
    loaded (dict a b) = Dict fields /\ assoc "series" fields = None.
Proof.
  unfold dict. destruct ts_before_ys; eexists; split; reflexivity.
Qed.

(** X15: the converter's document is not a document for the plot.
    Whatever input [convert-frame.py] converted, the document it
    printed, once parsed, makes [plot-series.py] raise
    [KeyError('series')]: its keys are [ts] and [ys], not the five the
    loader asks for. *)
Theorem converted_document_lacks_series (lines : list string)
    (o : json.value) (st : state) (w : world) (path text : string) :
  output_of lines = (Ok o, st) ->
  nth_error (argv w) 1 = Some path ->
  read_file w path = Some text ->
  loads text = Some (loaded o) ->
  load w = Failed (KeyError "series").
Proof.
  intros Ho Ha Hf Hl. unfold output_of, bind in Ho.
  destruct (convert lines initial) as [[[]|e] st0]; [|discriminate].
  destruct (output_shape _ _ _ Ho) as (v & ->).
  destruct (loaded_dict (json.Array (map json.Int v))
              (json.Array (map json.Float (ys st0)))) as (fields & E & Hs).
  rewrite E in Hl.
  rewrite (load_dict w path text fields Ha Hf Hl), Hs. reflexivity.
Qed.

End LoaderFacts.

(** ** The calendar, back and forth *)

Section Calendar.
Import plot_series.

Ltac eval_tables :=
  repeat match goal with
    | |- context [days_before_month_of ?b ?k] =>
        let v := eval vm_compute in (days_before_month_of b k) in
        change (days_before_month_of b k) with v
    | |- context [days_in_month_of ?b ?k] =>
        let v := eval vm_compute in (days_in_month_of b k) in
        change (days_in_month_of b k) with v
    | H : context [days_in_month_of ?b ?k] |- _ =>
        let v := eval vm_compute in (days_in_month_of b k) in
        change (days_in_month_of b k) with v in H
    end.

Lemma divmod_unique n b q r :
  (0 <= r < b)%Z -> n = (b * q + r)%Z -> (n / b = q /\ n mod b = r)%Z.
Proof.
  intros Hr Hn. split; symmetry.
  - apply (Z.div_unique n b q r); auto.
  - apply (Z.mod_unique n b q r); auto.
Qed.

Lemma day_of_year_bound leap m d :
  (1 <= m <= 12)%Z -> (1 <= d <= days_in_month_of leap m)%Z ->
  (0 <= days_before_month_of leap m + d - 1
   <= if leap then 365 else 364)%Z.
Proof.
  intros Hm Hd.
  assert (m = 1 \/ m = 2 \/ m = 3 \/ m = 4 \/ m = 5 \/ m = 6 \/ m = 7
          \/ m = 8 \/ m = 9 \/ m = 10 \/ m = 11 \/ m = 12)%Z as Hc by lia.
  destruct leap;
    repeat (destruct Hc as [Hc|Hc]; [subst m; eval_tables; lia|]);
    subst m; eval_tables; lia.
Qed.

Ltac month_case m :=
  eval_tables; unfold month_and_day;
  rewrite Z.shiftr_div_pow2 by lia; change (2 ^ 5)%Z with 32%Z;
  match goal with
  | |- context [((?n + 50) / 32)%Z] =>
      let Hg := fresh "Hg" in
      assert (Hg : ((n + 50) / 32 = m \/ (n + 50) / 32 = m + 1)%Z) by lia;
      destruct Hg as [Hg|Hg]; rewrite Hg;
      try (exfalso; lia);
      eval_tables;
      match goal with
      | |- context [(?x <? ?y)%Z] =>
          destruct (Z.ltb_spec x y); try (exfalso; lia); f_equal; lia
      end
  end.

(** The month and the day of a day of the year. *)
Lemma month_and_day_spec leap m d :
  (1 <= m <= 12)%Z -> (1 <= d <= days_in_month_of leap m)%Z ->
  month_and_day leap (days_before_month_of leap m + d - 1) = (m, d).
Proof.
  intros Hm Hd.
  assert (m = 1 \/ m = 2 \/ m = 3 \/ m = 4 \/ m = 5 \/ m = 6 \/ m = 7
          \/ m = 8 \/ m = 9 \/ m = 10 \/ m = 11 \/ m = 12)%Z as Hc by lia.
  destruct leap.
  - destruct Hc as [Hc|Hc]; [subst m; month_case 1%Z|].
    destruct Hc as [Hc|Hc]; [subst m; month_case 2%Z|].
    destruct Hc as [Hc|Hc]; [subst m; month_case 3%Z|].
    destruct Hc as [Hc|Hc]; [subst m; month_case 4%Z|].
    destruct Hc as [Hc|Hc]; [subst m; month_case 5%Z|].
    destruct Hc as [Hc|Hc]; [subst m; month_case 6%Z|].
    destruct Hc as [Hc|Hc]; [subst m; month_case 7%Z|].
    destruct Hc as [Hc|Hc]; [subst m; month_case 8%Z|].
    destruct Hc as [Hc|Hc]; [subst m; month_case 9%Z|].
    destruct Hc as [Hc|Hc]; [subst m; month_case 10%Z|].
    destruct Hc as [Hc|Hc]; [subst m; month_case 11%Z|].
    subst m; month_case 12%Z.
  - destruct Hc as [Hc|Hc]; [subst m; month_case 1%Z|].
    destruct Hc as [Hc|Hc]; [subst m; month_case 2%Z|].
    destruct Hc as [Hc|Hc]; [subst m; month_case 3%Z|].
    destruct Hc as [Hc|Hc]; [subst m; month_case 4%Z|].
    destruct Hc as [Hc|Hc]; [subst m; month_case 5%Z|].
    destruct Hc as [Hc|Hc]; [subst m; month_case 6%Z|].
    destruct Hc as [Hc|Hc]; [subst m; month_case 7%Z|].
    destruct Hc as [Hc|Hc]; [subst m; month_case 8%Z|].
    destruct Hc as [Hc|Hc]; [subst m; month_case 9%Z|].
    destruct Hc as [Hc|Hc]; [subst m; month_case 10%Z|].
    destruct Hc as [Hc|Hc]; [subst m; month_case 11%Z|].
    subst m; month_case 12%Z.
Qed.

Lemma leap_of_cycles y a b c e :
  (y - 1 = 400 * a + 100 * b + 4 * c + e)%Z ->
  (0 <= b <= 3)%Z -> (0 <= c <= 24)%Z -> (0 <= e <= 3)%Z ->
  datetime.is_leap y = ((e =? 3) && (negb (c =? 24) || (b =? 3)))%Z.
Proof.
  intros Hy Hb Hc He. unfold datetime.is_leap.
  destruct (Z.eqb_spec (y mod 4) 0), (Z.eqb_spec (y mod 100) 0),
    (Z.eqb_spec (y mod 400) 0), (Z.eqb_spec e 3), (Z.eqb_spec c 24),
    (Z.eqb_spec b 3); cbn [andb orb negb]; try reflexivity; exfalso; lia.
Qed.

Lemma last_day_of_leap_year m d :
  (1 <= m <= 12)%Z -> (1 <= d <= days_in_month_of true m)%Z ->
  (days_before_month_of true m + d - 1 = 365)%Z -> m = 12%Z /\ d = 31%Z.
Proof.
  intros Hm Hd Hn. pose proof (month_and_day_spec true m d Hm Hd) as E.
  rewrite Hn in E. vm_compute in E. split; congruence.
Qed.

(** The date of the ordinal of a date is that date. *)
Lemma ord2ymd_toordinal y m d :
  (1 <= y)%Z -> (1 <= m <= 12)%Z ->
  (1 <= d <= days_in_month_of (datetime.is_leap y) m)%Z ->
  ord2ymd (datetime.days_before_year y + datetime.days_before_month y m + d)
  = (y, m, d).
Proof.
  intros Hy Hm Hd.
  pose proof (day_of_year_bound _ _ _ Hm Hd) as Hb.
  pose proof (month_and_day_spec _ _ _ Hm Hd) as Hmd.
  change (datetime.days_before_month y m)
    with (days_before_month_of (datetime.is_leap y) m).
  pose (a := ((y - 1) / 400)%Z). pose (b := ((y - 1) mod 400 / 100)%Z).
  pose (c := ((y - 1) mod 100 / 4)%Z). pose (e := ((y - 1) mod 4)%Z).
  assert (Hp : (y - 1 = 400 * a + 100 * b + 4 * c + e)%Z) by (unfold a, b, c, e; lia).
  assert (Hra : (0 <= a)%Z) by (unfold a; lia).
  assert (Hrb : (0 <= b <= 3)%Z) by (unfold b; lia).
  assert (Hrc : (0 <= c <= 24)%Z) by (unfold c; lia).
  assert (Hre : (0 <= e <= 3)%Z) by (unfold e; lia).
  assert (Hdby : (datetime.days_before_year y
                  = 146097 * a + 36524 * b + 1461 * c + 365 * e)%Z)
    by (unfold datetime.days_before_year, a, b, c, e; cbv zeta; lia).
  pose proof (leap_of_cycles y a b c e Hp Hrb Hrc Hre) as Hleap.
  clearbody a b c e.
  unfold ord2ymd. cbv zeta.
  set (n := (days_before_month_of (datetime.is_leap y) m + d - 1)%Z) in *.
  set (N := (datetime.days_before_year y
             + days_before_month_of (datetime.is_leap y) m + d - 1)%Z).
  assert (HN : (N = 146097 * a + (36524 * b + (1461 * c + (365 * e + n))))%Z)
    by (unfold N, n; lia).
  clearbody N.
  assert (Hcase : (n = 365 \/ n < 365)%Z) by (destruct (datetime.is_leap y); lia).
  destruct Hcase as [H365|Hlt].
  - (* the last day of a leap year *)
    destruct (datetime.is_leap y) eqn:El; [|exfalso; lia].
    destruct (last_day_of_leap_year m d Hm Hd H365) as [-> ->].
    symmetry in Hleap. apply andb_true_iff in Hleap as [He3 Hcb].
    apply Z.eqb_eq in He3.
    destruct (Z.eqb_spec c 24) as [Hc24|Hc24]; cbn [negb orb] in Hcb.
    + apply Z.eqb_eq in Hcb.
      destruct (divmod_unique N 146097 a 146096) as [E1 E1']; [lia|lia|].
      rewrite E1', E1.
      change (146096 / 36524)%Z with 4%Z.
      rewrite orb_true_r. f_equal. f_equal. lia.
    + destruct (divmod_unique N 146097 a
                  (36524 * b + (1461 * c + 1460))) as [E1 E1']; [lia|lia|].
      rewrite E1', E1.
      destruct (divmod_unique (36524 * b + (1461 * c + 1460)) 36524 b
                  (1461 * c + 1460)) as [E2 E2']; [lia|lia|].
      rewrite E2', E2.
      destruct (divmod_unique (1461 * c + 1460) 1461 c 1460)
        as [E3 E3']; [lia|lia|].
      rewrite E3', E3.
      change (1460 / 365)%Z with 4%Z. cbn [Z.eqb Pos.eqb orb].
      f_equal. f_equal. lia.
  - destruct (divmod_unique N 146097 a
                (36524 * b + (1461 * c + (365 * e + n)))) as [E1 E1'];
      [lia|lia|].
    rewrite E1', E1.
    destruct (divmod_unique (36524 * b + (1461 * c + (365 * e + n))) 36524 b
                (1461 * c + (365 * e + n))) as [E2 E2']; [lia|lia|].
    rewrite E2', E2.
    destruct (divmod_unique (1461 * c + (365 * e + n)) 1461 c
                (365 * e + n)) as [E3 E3']; [lia|lia|].
    rewrite E3', E3.
    destruct (divmod_unique (365 * e + n) 365 e n) as [E4 E4']; [lia|lia|].
    rewrite E4', E4.
    replace ((e =? 4) || (b =? 4))%Z with false
      by (destruct (Z.eqb_spec e 4), (Z.eqb_spec b 4); try reflexivity; lia).
    rewrite <- Hleap, Hmd. f_equal. f_equal. lia.
Qed.

End Calendar.

(** ** Timestamps read back *)

Section ReadBack.
Context {P : Platform} {L : plot_series.Library}.
Import plot_series.

Lemma valid_inv d :
  valid d = true ->
  (1 <= datetime.year d <= 9999)%Z /\ (1 <= datetime.month d <= 12)%Z
  /\ (1 <= datetime.day d
      <= days_in_month_of (datetime.is_leap (datetime.year d))
                          (datetime.month d))%Z
  /\ (0 <= datetime.hour d < 24)%Z /\ (0 <= datetime.minute d < 60)%Z
  /\ (0 <= datetime.second d < 60)%Z.
Proof.
  unfold valid. intros H.
  repeat (apply andb_true_iff in H as [H ?]).
  repeat match goal with
         | E : (_ <=? _)%Z = true |- _ => apply Z.leb_le in E
         | E : (_ <? _)%Z = true |- _ => apply Z.ltb_lt in E
         end.
  apply Z.leb_le in H. lia.
Qed.

(** A clock that shows the seconds of a date shows that date. *)
Lemma of_wall_seconds_wall_seconds d :
  valid d = true -> of_wall_seconds (datetime.wall_seconds d) = d.
Proof.
  intros Hv. destruct (valid_inv d Hv) as (Hy & Hm & Hd & Hh & Hmi & Hs).
  destruct d as [y m dd h mi s]. cbn [datetime.year datetime.month
    datetime.day datetime.hour datetime.minute datetime.second] in *.
  unfold of_wall_seconds, datetime.wall_seconds.
  cbn [datetime.year datetime.month datetime.day datetime.hour
       datetime.minute datetime.second].
  set (o := datetime.toordinal (datetime.mk y m dd h mi s)).
  destruct (divmod_unique
              ((o - datetime.EPOCH_ORDINAL) * 86400 + h * 3600 + mi * 60 + s)
              86400 (o - datetime.EPOCH_ORDINAL) (h * 3600 + mi * 60 + s))
    as [E E']; [lia|lia|].
  cbv zeta. rewrite E, E'.
  replace (o - datetime.EPOCH_ORDINAL + datetime.EPOCH_ORDINAL)%Z with o
    by lia.
  unfold o, datetime.toordinal.
  cbn [datetime.year datetime.month datetime.day].
  rewrite ord2ymd_toordinal by lia.
  f_equal; lia.
Qed.

Lemma days_before_year_bound y :
  (1 <= y <= 9999)%Z -> (0 <= datetime.days_before_year y <= 3652059)%Z.
Proof. intros H. unfold datetime.days_before_year. cbv zeta. lia. Qed.

Lemma wall_seconds_bound d :
  valid d = true ->
  (- 2 ^ 52 <= datetime.wall_seconds d <= 2 ^ 52)%Z.
Proof.
  intros Hv. destruct (valid_inv d Hv) as (Hy & Hm & Hd & Hh & Hmi & Hs).
  pose proof (day_of_year_bound _ _ _ Hm Hd) as Hb.
  pose proof (days_before_year_bound _ Hy) as Hby.
  unfold datetime.wall_seconds, datetime.toordinal, datetime.EPOCH_ORDINAL.
  change (datetime.days_before_month (datetime.year d) (datetime.month d))
    with (days_before_month_of (datetime.is_leap (datetime.year d))
            (datetime.month d)).
  change (2 ^ 52)%Z with 4503599627370496%Z.
  destruct (datetime.is_leap (datetime.year d)); lia.
Qed.

Lemma mktime_bound d :
  valid d = true -> (Z.abs (datetime.mktime d) <=? 2 ^ 53)%Z = true.
Proof.
  intros Hv. pose proof (wall_seconds_bound d Hv) as Hw.
  pose proof (utcoffset_bound (datetime.wall_seconds d)) as Ho.
  unfold datetime.mktime. apply Z.leb_le.
  change (2 ^ 52)%Z with 4503599627370496%Z in Hw.
  change (2 ^ 53)%Z with 9007199254740992%Z. lia.
Qed.

(** The local time at the epoch second of a date is that date, when
    the offset in force at that second is the one [mktime] took. *)
Lemma localtime_mktime d :
  valid d = true ->
  offset_at (datetime.mktime d) = utcoffset (datetime.wall_seconds d) ->
  localtime (datetime.mktime d) = d.
Proof.
  intros Hv Ho. unfold localtime. rewrite Ho. unfold datetime.mktime.
  replace (datetime.wall_seconds d - utcoffset (datetime.wall_seconds d)
           + utcoffset (datetime.wall_seconds d))%Z
    with (datetime.wall_seconds d) by lia.
  now apply of_wall_seconds_wall_seconds.
Qed.

Lemma fromtimestamp_exact_mktime d :
  valid d = true ->
  offset_at (datetime.mktime d) = utcoffset (datetime.wall_seconds d) ->
  fromtimestamp_exact (datetime.mktime d) = Done (d, 0%Z).
Proof.
  intros Hv Ho. unfold fromtimestamp_exact. cbv zeta.
  rewrite (localtime_mktime d Hv Ho).
  destruct (valid_inv d Hv) as (Hy & _).
  replace ((1 <=? datetime.year d) && (datetime.year d <=? 9999))%Z
    with true; [reflexivity|].
  symmetry. apply andb_true_iff. split; apply Z.leb_le; lia.
Qed.

(** X16: what [strftime("%s")] writes, [fromtimestamp] reads back.  For
    a date and time of the calendar in a year from 1 to 9999, when the
    offset from UTC in force at the epoch second [mktime] gives is the
    one [mktime] took for it, [datetime.fromtimestamp] of that second is
    the date and time itself, with no microseconds. *)
Theorem timestamp_reads_back (d : datetime.t) :
  valid d = true ->
  offset_at (datetime.mktime d) = utcoffset (datetime.wall_seconds d) ->
  fromtimestamp (Int (datetime.mktime d)) = Done (d, 0%Z).
Proof.
  intros Hv Ho. cbn [fromtimestamp]. rewrite (mktime_bound d Hv).
  now apply fromtimestamp_exact_mktime.
Qed.

Lemma first_of_month_valid y k :
  (1 <= y <= 9999)%Z -> (1 <= k <= 12)%Z -> valid (first_of_month y k) = true.
Proof.
  intros Hy Hk. unfold valid, first_of_month.
  cbn [datetime.year datetime.month datetime.day datetime.hour
       datetime.minute datetime.second].
  assert (Hd : (1 <= days_in_month_of (datetime.is_leap y) k)%Z).
  { assert (k = 1 \/ k = 2 \/ k = 3 \/ k = 4 \/ k = 5 \/ k = 6 \/ k = 7
            \/ k = 8 \/ k = 9 \/ k = 10 \/ k = 11 \/ k = 12)%Z as Hc by lia.
    destruct (datetime.is_leap y);
      repeat (destruct Hc as [Hc|Hc]; [subst k; vm_compute; discriminate|]);
      subst k; vm_compute; discriminate. }
  repeat (apply andb_true_iff; split);
    try reflexivity; try (apply Z.leb_le; lia); apply Z.ltb_lt; lia.
Qed.

Lemma dates_of_valid lines :
  forallb accepted lines = true ->
  Forall (fun d => valid d = true) (flat_map dates_of lines).
Proof.
  intros H. apply Forall_forall. intros d Hd.
  apply in_flat_map in Hd as (line & Hl & Hd).
  rewrite forallb_forall in H.
  destruct (accepted_inv line (H line Hl)) as (y & _ & Ey & _ & Hn & Hr).
  unfold dates_of, months_of in Hd. apply in_map_iff in Hd as (k & <- & Hk).
  apply in_xrange in Hk. rewrite len_tokens_of in Hk.
  destruct Hr as [Hr|Hr]; [rewrite Hr in Hk; simpl in Hk; lia|].
  apply first_of_month_valid; lia.
Qed.

Lemma map_E_mktime (dates : list datetime.t) :
  Forall (fun d => valid d = true) dates ->
  Forall (fun d => offset_at (datetime.mktime d)
                   = utcoffset (datetime.wall_seconds d)) dates ->
  map_E fromtimestamp (map Int (map datetime.mktime dates))
  = Done (map (fun d => (d, 0%Z)) dates).
Proof.
  induction dates as [|d dates IH]; intros Hv Ho; [reflexivity|].
  inversion Hv as [|? ? Hv1 Hv2]. inversion Ho as [|? ? Ho1 Ho2]. subst.
  cbn [map map_E fromtimestamp]. rewrite (mktime_bound d Hv1).
  rewrite (fromtimestamp_exact_mktime d Hv1 Ho1). cbn [and_then].
  rewrite (IH Hv2 Ho2). reflexivity.
Qed.

(** X17: the months of the converter are read back.  When
    [convert-frame.py] accepts its input and printed the array [ts],
    and the document [plot-series.py] loads is a dictionary with the
    four series and with that array under [times], the loader returns
    the four series as they are and, for [ts], the first of each month
    at 00:00:00 with no microseconds, in the order of the input rows,
    provided that for each of these dates the offset from UTC in force
    at its epoch second is the one [mktime] took. *)
Theorem converted_times_are_read_back (lines : list string)
    (ts : list Z) (w : world) (path text : string)
    (fields : list (string * pyvalue))
    (series trend seasonal remainder : pyvalue) :
  forallb accepted lines = true ->
  out_ts lines = Some ts ->
  Forall (fun d => offset_at (datetime.mktime d)
                   = utcoffset (datetime.wall_seconds d))
         (flat_map dates_of lines) ->
  nth_error (argv w) 1 = Some path ->
  read_file w path = Some text ->
  loads text = Some (Dict fields) ->
  assoc "series" fields = Some series ->
  assoc "trend" fields = Some trend ->
  assoc "seasonal" fields = Some seasonal ->
  assoc "remainder" fields = Some remainder ->
  assoc "times" fields = Some (List (map Int ts)) ->
  load w = Done ((series, trend, seasonal, remainder),
                 map (fun d => (d, 0%Z)) (flat_map dates_of lines)).
Proof.
  intros Hacc Hts Hoff Ha Hf Hl E1 E2 E3 E4 E5.
  rewrite (out_ts_ok lines Hacc) in Hts.
  assert (Et : ts = flat_map times_of lines) by congruence. subst ts.
  rewrite (load_dict w path text fields Ha Hf Hl), E1, E2, E3, E4, E5.
  cbn [or_fail and_then iterate].
  rewrite <- mktime_dates.
  rewrite (map_E_mktime _ (dates_of_valid lines Hacc) Hoff).
  reflexivity.
Qed.

End ReadBack.

(** ** The list of times *)

Section Times.
Context {P : Platform} {L : plot_series.Library}.
Import plot_series.

Lemma map_E_app_failed {A B} (f : A -> outcome B) good x rest e :
  Forall (fun g => exists m, f g = Done m) good ->
  f x = Failed e ->
  map_E f (good ++ x :: rest) = Failed e.
Proof.
  intros Hg Hx. induction Hg as [|g good (m & Em) _ IH].
  - cbn [app map_E]. rewrite Hx. reflexivity.
  - cbn [app map_E]. rewrite Em. cbn [and_then]. rewrite IH. reflexivity.
Qed.

(** X18: the first time that cannot be converted.  When the document has
    the four series and a list of times in which some item makes
    [datetime.fromtimestamp] raise while all items before it convert,
    the loader raises that exception, whatever comes after the item. *)
Theorem first_bad_time_ends_the_load (w : world) (path text : string)
    (fields : list (string * pyvalue))
    (series trend seasonal remainder : pyvalue)
    (good : list pyvalue) (x : pyvalue) (rest : list pyvalue) (e : error) :
  nth_error (argv w) 1 = Some path ->
  read_file w path = Some text ->
  loads text = Some (Dict fields) ->
  assoc "series" fields = Some series ->
  assoc "trend" fields = Some trend ->
  assoc "seasonal" fields = Some seasonal ->
  assoc "remainder" fields = Some remainder ->
  assoc "times" fields = Some (List (good ++ x :: rest)) ->
  Forall (fun g => exists m, fromtimestamp g = Done m) good ->
  fromtimestamp x = Failed e ->
  load w = Failed e.
Proof.
  intros Ha Hf Hl E1 E2 E3 E4 E5 Hg Hx.
  rewrite (load_dict w path text fields Ha Hf Hl), E1, E2, E3, E4, E5.
  cbn [or_fail and_then iterate].
  rewrite (map_E_app_failed fromtimestamp good x rest e Hg Hx). reflexivity.
Qed.

(** X19: times that are no list.  When the document has the four series
    and, under [times], something that is not a list, the loader
    raises [TypeError], be it a number, [null], a boolean, a string or
    a dictionary, except for the empty string and the empty
    dictionary, which give no date at all. *)
Theorem times_must_be_a_list (w : world) (path text : string)
    (fields : list (string * pyvalue))
    (series trend seasonal remainder times : pyvalue) :
  nth_error (argv w) 1 = Some path ->
  read_file w path = Some text ->
  loads text = Some (Dict fields) ->
  assoc "series" fields = Some series ->
  assoc "trend" fields = Some trend ->
  assoc "seasonal" fields = Some seasonal ->
  assoc "remainder" fields = Some remainder ->
  assoc "times" fields = Some times ->
  (forall items, times <> List items) ->
  load w = if holds_nothing times
           then Done ((series, trend, seasonal, remainder), [])
           else Failed TypeError.
Proof.
  intros Ha Hf Hl E1 E2 E3 E4 E5 Hn.
  rewrite (load_dict w path text fields Ha Hf Hl), E1, E2, E3, E4, E5.
  cbn [or_fail and_then].
  destruct times as [| | | |s|items|fs]; try reflexivity.
  - destruct s; reflexivity.
  - now destruct (Hn items).
  - destruct fs as [|[k v] fs]; reflexivity.
Qed.

End Times.


(** ** The further properties on concrete inputs *)

Lemma tokens_of_written_row_witness :
  let more := [("  "%string, "1.0"%string);
               (String (ascii_of_nat 9) " ", "2.5"%string)] in
  let w := String cr eol in
  no_space "2000" = true
  /\ forallb separated more = true
  /\ blank w = true
  /\ tokens_of (join "2000" more ++ w) = "2000"%string :: map snd more.
Proof.
  split; [reflexivity|]. split; [reflexivity|]. split; [reflexivity|].
  apply tokens_of_written_row; reflexivity.
Defined.

Lemma value_error_is_the_only_error_witness :
  let lines := [("2000 abc" ++ eol)%string] in
  run (P := utc) lines = (Raise ValueError, snd (run (P := utc) lines))
  /\ ValueError = ValueError.
Proof.
  split; [reflexivity|].
  apply (value_error_is_the_only_error (P := utc)
           [("2000 abc" ++ eol)%string] ValueError
           (snd (run (P := utc) [("2000 abc" ++ eol)%string]))).
  reflexivity.
Defined.

Lemma before_1900_fails_at_output_witness :
  let lines := [("1899 1.0" ++ eol)%string; ("2000 2.0" ++ eol)%string] in
  forallb (loop_accepted (P := utc)) lines = true
  /\ existsb before_1900 lines = true
  /\ convert (P := utc) lines (initial (P := utc))
     = (Ok tt, mkState (flat_map dates_of lines)
                       (flat_map (values_of (P := utc)) lines) EmptyString)
  /\ run (P := utc) lines
     = (Raise ValueError,
        mkState (flat_map dates_of lines)
                (flat_map (values_of (P := utc)) lines) EmptyString).
Proof.
  split; [reflexivity|]. split; [reflexivity|].
  apply (before_1900_fails_at_output (P := utc)); reflexivity.
Defined.

Lemma trailing_white_space_is_ignored_witness :
  let lines := [("2000 1.0 " ++ String cr eol)%string; "2001 2.0  "%string] in
  let lines' := ["2000 1.0"%string; ("2001 2.0" ++ eol)%string] in
  map rstrip lines = map rstrip lines'
  /\ run (P := utc) lines = run (P := utc) lines'
  /\ out_ts (P := utc) lines = out_ts (P := utc) lines'
  /\ out_ys (P := utc) lines = out_ys (P := utc) lines'.
Proof.
  split; [reflexivity|].
  apply (trailing_white_space_is_ignored (P := utc)). reflexivity.
Defined.

Lemma no_value_gives_empty_arrays_witness :
  let lines := [("2000" ++ eol)%string; ("-7" ++ eol)%string] in
  forallb year_only lines = true
  /\ run (P := utc) lines
     = (Ok tt,
        mkState [] []
          (json.dumps (dict (P := utc) (json.Array []) (json.Array []))
           ++ eol)%string)
  /\ out_ts (P := utc) lines = Some []
  /\ out_ys (P := utc) lines = Some [].
Proof.
  split; [reflexivity|].
  apply (no_value_gives_empty_arrays (P := utc)). reflexivity.
Defined.

Lemma arrays_of_concatenation_witness :
  let lines1 := [("2000 1.0 2.0" ++ eol)%string] in
  let lines2 := [("2001 3.5" ++ eol)%string] in
  fst (run (P := utc) lines1) = Ok tt
  /\ fst (run (P := utc) lines2) = Ok tt
  /\ exists a1 b1 a2 b2,
       out_ts (P := utc) lines1 = Some a1
       /\ out_ys (P := utc) lines1 = Some b1
       /\ out_ts (P := utc) lines2 = Some a2
       /\ out_ys (P := utc) lines2 = Some b2
       /\ fst (run (P := utc) (lines1 ++ lines2)) = Ok tt
       /\ out_ts (P := utc) (lines1 ++ lines2) = Some (a1 ++ a2)
       /\ out_ys (P := utc) (lines1 ++ lines2) = Some (b1 ++ b2).
Proof.
  split; [reflexivity|]. split; [reflexivity|].
  apply (arrays_of_concatenation (P := utc)); reflexivity.
Defined.

Lemma months_order_timestamps_witness :
  (1 <= 12 <= 12)%Z /\ (1 <= 1 <= 12)%Z
  /\ ((t (P := dili) 2000 12 < t (P := dili) 2001 1)%Z
      <-> (2000 < 2001 \/ (2000 = 2001 /\ 12 < 1))%Z)
  /\ (t (P := dili) 2000 12 = t (P := dili) 2001 1
      <-> 2000%Z = 2001%Z /\ 12%Z = 1%Z).
Proof.
  split; [lia|]. split; [lia|].
  apply (months_order_timestamps (P := dili)); lia.
Defined.

Lemma next_month_is_a_month_later_witness :
  (1 <= 2 <= 12)%Z
  /\ (datetime.mktime (P := utc) (first_of_month 2000 3)
      - datetime.mktime (P := utc) (first_of_month 2000 2)
      = 86400 * days_in_month 2000 2
        - (utcoffset (Platform := utc)
             (datetime.wall_seconds (first_of_month 2000 3))
           - utcoffset (Platform := utc)
               (datetime.wall_seconds (first_of_month 2000 2))))%Z
  /\ (28 <= days_in_month 2000 2 <= 31)%Z.
Proof.
  split; [lia|].
  apply (next_month_is_a_month_later (P := utc) 2000 2). lia.
Defined.

(** ** The properties of the loader on concrete inputs *)

Lemma missing_key_is_reported_witness :
  let w := started_on series_only in
  let fields := [("series"%string,
                  plot_series.List [plot_series.Float (P := utc) 10%N])] in
  nth_error (plot_series.argv w) 1 = Some "data.json"%string
  /\ plot_series.read_file w "data.json" = Some (json.dumps series_only)
  /\ plot_series.loads (Library := utc_library) (json.dumps series_only)
     = Some (plot_series.Dict fields)
  /\ plot_series.first_missing fields = Some "trend"%string
  /\ plot_series.load (L := utc_library) w
     = plot_series.Failed (plot_series.KeyError "trend").
Proof.
  split; [reflexivity|]. split; [reflexivity|]. split; [reflexivity|].
  split; [reflexivity|].
  apply (missing_key_is_reported (L := utc_library)
           (started_on series_only) "data.json" (json.dumps series_only)
           [("series"%string,
             plot_series.List [plot_series.Float (P := utc) 10%N])]);
    reflexivity.
Defined.

Lemma not_a_dictionary_is_a_type_error_witness :
  let w := started_on (json.Array []) in
  nth_error (plot_series.argv w) 1 = Some "data.json"%string
  /\ plot_series.read_file w "data.json" = Some "[]"%string
  /\ plot_series.loads (Library := utc_library) "[]"
     = Some (plot_series.List [])
  /\ (forall fields,
        plot_series.List (P := utc) [] <> plot_series.Dict fields)
  /\ plot_series.load (L := utc_library) w
     = plot_series.Failed plot_series.TypeError.
Proof.
  split; [reflexivity|]. split; [reflexivity|]. split; [reflexivity|].
  split; [discriminate|].
  apply (not_a_dictionary_is_a_type_error (L := utc_library)
           (started_on (json.Array [])) "data.json" "[]"
           (plot_series.List []));
    [reflexivity|reflexivity|reflexivity|discriminate].
Defined.

Lemma load_returns_the_document_witness :
  let w := started_on decomposed in
  let ys := (plot_series.loaded (json.Array [tenths 10; tenths 20]),
             plot_series.loaded (json.Array [tenths 12; tenths 17]),
             plot_series.loaded (json.Array [tenths 1; tenths 2]),
             plot_series.loaded (json.Array [tenths 0; tenths 1])) in
  let ts := [(first_of_month 2000 1, 0%Z); (first_of_month 2000 2, 0%Z)] in
  plot_series.load (L := utc_library) w = plot_series.Done (ys, ts)
  /\ exists path text fields series trend seasonal remainder times items,
       nth_error (plot_series.argv w) 1 = Some path
       /\ plot_series.read_file w path = Some text
       /\ plot_series.loads (Library := utc_library) text
          = Some (plot_series.Dict fields)
       /\ assoc "series" fields = Some series
       /\ assoc "trend" fields = Some trend
       /\ assoc "seasonal" fields = Some seasonal
       /\ assoc "remainder" fields = Some remainder
       /\ assoc "times" fields = Some times
       /\ ys = (series, trend, seasonal, remainder)
       /\ plot_series.iterate times = plot_series.Done items
       /\ Forall2 (fun x m =>
                     plot_series.fromtimestamp (L := utc_library) x
                     = plot_series.Done m) items ts
       /\ List.length ts = List.length items.
Proof.
  split; [reflexivity|].
  apply (load_returns_the_document (L := utc_library)
           (started_on decomposed)).
  reflexivity.
Defined.

Lemma converted_document_lacks_series_witness :
  let lines := [("2000 1.0 2.0" ++ eol)%string] in
  let w := started_on framed in
  output_of (P := utc) lines = (Ok framed, snd (output_of (P := utc) lines))
  /\ nth_error (plot_series.argv w) 1 = Some "data.json"%string
  /\ plot_series.read_file w "data.json" = Some (json.dumps framed)
  /\ plot_series.loads (Library := utc_library) (json.dumps framed)
     = Some (plot_series.loaded framed)
  /\ plot_series.load (L := utc_library) w
     = plot_series.Failed (plot_series.KeyError "series").
Proof.
  split; [reflexivity|]. split; [reflexivity|]. split; [reflexivity|].
  split; [reflexivity|].
  apply (converted_document_lacks_series (L := utc_library)
           [("2000 1.0 2.0" ++ eol)%string] framed
           (snd (output_of (P := utc) [("2000 1.0 2.0" ++ eol)%string]))
           (started_on framed) "data.json" (json.dumps framed));
    reflexivity.
Defined.

Lemma timestamp_reads_back_witness :
  let d := datetime.mk 2000 2 29 23 59 58 in
  plot_series.valid d = true
  /\ plot_series.offset_at (Library := utc_library)
       (datetime.mktime (P := utc) d)
     = utcoffset (Platform := utc) (datetime.wall_seconds d)
  /\ plot_series.fromtimestamp (L := utc_library)
       (plot_series.Int (datetime.mktime (P := utc) d))
     = plot_series.Done (d, 0%Z).
Proof.
  split; [reflexivity|]. split; [reflexivity|].
  apply (timestamp_reads_back (L := utc_library)); reflexivity.
Defined.

Lemma converted_times_are_read_back_witness :
  let lines := [("2000 1.0 2.0" ++ eol)%string] in
  let ts := [946684800; 949363200]%Z in
  let w := started_on decomposed in
  let series := plot_series.loaded (json.Array [tenths 10; tenths 20]) in
  let trend := plot_series.loaded (json.Array [tenths 12; tenths 17]) in
  let seasonal := plot_series.loaded (json.Array [tenths 1; tenths 2]) in
  let remainder := plot_series.loaded (json.Array [tenths 0; tenths 1]) in
  let fields :=
    [("times"%string, plot_series.List (map plot_series.Int ts));
     ("series"%string, series); ("trend"%string, trend);
     ("seasonal"%string, seasonal); ("remainder"%string, remainder)] in
  forallb (accepted (P := utc)) lines = true
  /\ out_ts (P := utc) lines = Some ts
  /\ Forall (fun d =>
               plot_series.offset_at (Library := utc_library)
                 (datetime.mktime (P := utc) d)
               = utcoffset (Platform := utc) (datetime.wall_seconds d))
            (flat_map dates_of lines)
  /\ nth_error (plot_series.argv w) 1 = Some "data.json"%string
  /\ plot_series.read_file w "data.json" = Some (json.dumps decomposed)
  /\ plot_series.loads (Library := utc_library) (json.dumps decomposed)
     = Some (plot_series.Dict fields)
  /\ assoc "series" fields = Some series
  /\ assoc "trend" fields = Some trend
  /\ assoc "seasonal" fields = Some seasonal
  /\ assoc "remainder" fields = Some remainder
  /\ assoc "times" fields = Some (plot_series.List (map plot_series.Int ts))
  /\ plot_series.load (L := utc_library) w
     = plot_series.Done
         ((series, trend, seasonal, remainder),
          map (fun d => (d, 0%Z)) (flat_map dates_of lines)).
Proof.
  cbv zeta.
  split; [reflexivity|]. split; [reflexivity|].
  split; [apply Forall_forall; intros d _; reflexivity|].
  split; [reflexivity|]. split; [reflexivity|]. split; [reflexivity|].
  split; [reflexivity|]. split; [reflexivity|]. split; [reflexivity|].
  split; [reflexivity|]. split; [reflexivity|].
  apply (converted_times_are_read_back (L := utc_library)
           [("2000 1.0 2.0" ++ eol)%string] [946684800; 949363200]%Z
           (started_on decomposed) "data.json" (json.dumps decomposed)
           [("times"%string,
             plot_series.List
               (map plot_series.Int [946684800; 949363200]%Z));
            ("series"%string,
             plot_series.loaded (json.Array [tenths 10; tenths 20]));
            ("trend"%string,
             plot_series.loaded (json.Array [tenths 12; tenths 17]));
            ("seasonal"%string,
             plot_series.loaded (json.Array [tenths 1; tenths 2]));
            ("remainder"%string,
             plot_series.loaded (json.Array [tenths 0; tenths 1]))]);
    try reflexivity.
  apply Forall_forall; intros d _; reflexivity.
Defined.

Lemma first_bad_time_ends_the_load_witness :
  let w := started_on too_late in
  let series := plot_series.loaded (json.Array [tenths 10]) in
  let trend := plot_series.loaded (json.Array [tenths 12]) in
  let seasonal := plot_series.loaded (json.Array [tenths 1]) in
  let remainder := plot_series.loaded (json.Array [tenths 0]) in
  let good := [plot_series.Int (P := utc) 946684800] in
  let x := plot_series.Int (P := utc) 253402300800 in
  let rest := [plot_series.Int (P := utc) 0] in
  let fields :=
    [("series"%string, series); ("trend"%string, trend);
     ("seasonal"%string, seasonal); ("remainder"%string, remainder);
     ("times"%string, plot_series.List (good ++ x :: rest))] in
  nth_error (plot_series.argv w) 1 = Some "data.json"%string
  /\ plot_series.read_file w "data.json" = Some (json.dumps too_late)
  /\ plot_series.loads (Library := utc_library) (json.dumps too_late)
     = Some (plot_series.Dict fields)
  /\ assoc "series" fields = Some series
  /\ assoc "trend" fields = Some trend
  /\ assoc "seasonal" fields = Some seasonal
  /\ assoc "remainder" fields = Some remainder
  /\ assoc "times" fields = Some (plot_series.List (good ++ x :: rest))
  /\ Forall (fun g => exists m,
               plot_series.fromtimestamp (L := utc_library) g
               = plot_series.Done m) good
  /\ plot_series.fromtimestamp (L := utc_library) x
     = plot_series.Failed plot_series.ValueError
  /\ plot_series.load (L := utc_library) w
     = plot_series.Failed plot_series.ValueError.
Proof.
  cbv zeta.
  split; [reflexivity|]. split; [reflexivity|]. split; [reflexivity|].
  split; [reflexivity|]. split; [reflexivity|]. split; [reflexivity|].
  split; [reflexivity|]. split; [reflexivity|].
  split; [repeat constructor; eexists; reflexivity|].
  split; [reflexivity|].
  apply (first_bad_time_ends_the_load (L := utc_library)
           (started_on too_late) "data.json" (json.dumps too_late)
           [("series"%string, plot_series.loaded (json.Array [tenths 10]));
            ("trend"%string, plot_series.loaded (json.Array [tenths 12]));
            ("seasonal"%string, plot_series.loaded (json.Array [tenths 1]));
            ("remainder"%string, plot_series.loaded (json.Array [tenths 0]));
            ("times"%string,
             plot_series.List
               ([plot_series.Int (P := utc) 946684800]
                ++ plot_series.Int (P := utc) 253402300800
                   :: [plot_series.Int (P := utc) 0]))]
           (plot_series.loaded (json.Array [tenths 10]))
           (plot_series.loaded (json.Array [tenths 12]))
           (plot_series.loaded (json.Array [tenths 1]))
           (plot_series.loaded (json.Array [tenths 0]))
           [plot_series.Int (P := utc) 946684800]
           (plot_series.Int (P := utc) 253402300800)
           [plot_series.Int (P := utc) 0] plot_series.ValueError);
    try reflexivity.
  repeat constructor; eexists; reflexivity.
Defined.

Lemma times_must_be_a_list_witness :
  let w := started_on one_time in
  let series := plot_series.loaded (json.Array [tenths 10]) in
  let trend := plot_series.loaded (json.Array [tenths 12]) in
  let seasonal := plot_series.loaded (json.Array [tenths 1]) in
  let remainder := plot_series.loaded (json.Array [tenths 0]) in
  let times := plot_series.Int (P := utc) 946684800 in
  let fields :=
    [("series"%string, series); ("trend"%string, trend);
     ("seasonal"%string, seasonal); ("remainder"%string, remainder);
     ("times"%string, times)] in
  nth_error (plot_series.argv w) 1 = Some "data.json"%string
  /\ plot_series.read_file w "data.json" = Some (json.dumps one_time)
  /\ plot_series.loads (Library := utc_library) (json.dumps one_time)
     = Some (plot_series.Dict fields)
  /\ assoc "series" fields = Some series
  /\ assoc "trend" fields = Some trend
  /\ assoc "seasonal" fields = Some seasonal
  /\ assoc "remainder" fields = Some remainder
  /\ assoc "times" fields = Some times
  /\ (forall items, times <> plot_series.List items)
  /\ plot_series.load (L := utc_library) w
     = plot_series.Failed plot_series.TypeError.
Proof.
  cbv zeta.
  split; [reflexivity|]. split; [reflexivity|]. split; [reflexivity|].
  split; [reflexivity|]. split; [reflexivity|]. split; [reflexivity|].
  split; [reflexivity|]. split; [reflexivity|].
  split; [discriminate|].
  apply (times_must_be_a_list (L := utc_library)
           (started_on one_time) "data.json" (json.dumps one_time)
           [("series"%string, plot_series.loaded (json.Array [tenths 10]));
            ("trend"%string, plot_series.loaded (json.Array [tenths 12]));
            ("seasonal"%string, plot_series.loaded (json.Array [tenths 1]));
            ("remainder"%string, plot_series.loaded (json.Array [tenths 0]));
            ("times"%string, plot_series.Int (P := utc) 946684800)]
           (plot_series.loaded (json.Array [tenths 10]))
           (plot_series.loaded (json.Array [tenths 12]))
           (plot_series.loaded (json.Array [tenths 1]))
           (plot_series.loaded (json.Array [tenths 0]))
           (plot_series.Int (P := utc) 946684800));
    try reflexivity.
  discriminate.
Defined.
